(** * Document summarizer

    A shallow embedding of the summarization pipeline of the repository:
    [backend.py] (text preprocessing, prompt construction, generation,
    quality scoring, orchestration) and [database.py] (the summaries
    table and its queries), followed by the properties established about
    them.

    Conventions of the embedding:
    - a Python [str] is a list of Unicode code points ([list N]);
    - Python's Unicode tables that reach beyond ASCII ([str.isalnum],
      the decimal-digit category, [str.lower]) are not part of the
      repository and are taken as a parameter [UnicodeData]; on ASCII
      the classes are written out;
    - a Python [float] is the rational number that the double stands
      for ([Q]); a division, a product or a rounding that yields a float
      yields the double nearest to the exact result ([to_double]); the
      two float comparisons of the scoring rubric are made on the exact
      ratio, with which they agree for every text of fewer than 10^15
      words;
    - exceptions are values of a sum type, external services (the
      generative model, the clock, the file system, a failing storage
      layer) are explicit inputs. *)

From Stdlib Require Import ZArith NArith QArith Qround Qabs Qpower Lia Lqa.
From Stdlib Require Import List Bool Ascii String.
From stdpp Require Import base option list strings gmap sorting.

Local Open Scope N_scope.

(** ** Python strings as code-point lists *)

Abbreviation pystr := (list N).

(** An ASCII literal of the source, as code points. *)
Definition str (s : string) : pystr :=
  List.map N_of_ascii (list_ascii_of_string s).

Definition in_range (lo hi c : N) : bool := (lo <=? c) && (c <=? hi).

(** The tables of the Python runtime beyond ASCII. *)
Record UnicodeData := {
  uc_alnum : N -> bool;          (* str.isalnum on a non-ASCII code point *)
  uc_decimal : N -> bool;        (* category Nd on a non-ASCII code point *)
  uc_lower : pystr -> pystr      (* str.lower on a text that is not ASCII *)
}.

(** The lower case of an ASCII character. *)
Definition tolower (c : N) : N := if in_range 65 90 c then c + 32 else c.

(** The tables that know no letter or digit outside ASCII; used to run
    the definitions on ASCII inputs, where the tables are never read. *)
Definition ascii_tables : UnicodeData :=
  {| uc_alnum := fun _ => false;
     uc_decimal := fun _ => false;
     uc_lower := List.map tolower |}.

(** [str.isspace], which is also [\s] of [re] and what [str.strip] and
    [str.split] remove: the complete list of CPython. *)
Definition is_space (c : N) : bool :=
  in_range 9 13 c || in_range 28 32 c || (c =? 133) || (c =? 160)
  || (c =? 5760) || in_range 8192 8202 c || (c =? 8232) || (c =? 8233)
  || (c =? 8239) || (c =? 8287) || (c =? 12288).

Definition is_ascii (c : N) : bool := c <? 128.
Definition ascii_digit (c : N) : bool := in_range 48 57 c.
Definition ascii_upper (c : N) : bool := in_range 65 90 c.
Definition ascii_lower (c : N) : bool := in_range 97 122 c.
Definition ascii_word (c : N) : bool :=
  ascii_digit c || ascii_upper c || ascii_lower c || (c =? 95).

Definition SPACE : N := 32.
Definition NEWLINE : N := 10.
Definition BULLET : N := 8226.       (* U+2022 *)
Definition HYPHEN : N := 45.
Definition STAR : N := 42.
Definition DOT : N := 46.
Definition BAR : N := 124.
Definition ZERO : N := 48.

Section Text.
Context (U : UnicodeData).

(** [\d] and [\w] of a [str] pattern. *)
Definition is_digit (c : N) : bool :=
  if is_ascii c then ascii_digit c else uc_decimal U c.
Definition is_word (c : N) : bool :=
  if is_ascii c then ascii_word c else uc_alnum U c.

(** [s.lower()] *)
Definition lower (s : pystr) : pystr :=
  if forallb is_ascii s then List.map tolower s else uc_lower U s.
End Text.

(** Length of the longest prefix of [s] whose characters satisfy [p]. *)
Fixpoint span_len (p : N -> bool) (s : pystr) : nat :=
  match s with
  | c :: r => if p c then S (span_len p r) else O
  | [] => O
  end.

Fixpoint lstrip (s : pystr) : pystr :=
  match s with
  | c :: r => if is_space c then lstrip r else s
  | [] => []
  end.

Fixpoint rstrip (s : pystr) : pystr :=
  match s with
  | c :: r =>
      match rstrip r with
      | [] => if is_space c then [] else [c]
      | r' => c :: r'
      end
  | [] => []
  end.

(** [s.strip()] *)
Definition strip (s : pystr) : pystr := rstrip (lstrip s).

(** [not text or not text.strip()] *)
Definition is_blank (s : pystr) : bool :=
  match s with
  | [] => true
  | _ => match strip s with [] => true | _ => false end
  end.

(** [s.startswith(p)] *)
Fixpoint startswith (p s : pystr) : bool :=
  match p, s with
  | [], _ => true
  | a :: p', b :: s' => (a =? b) && startswith p' s'
  | _ :: _, [] => false
  end.

(** [p in s] for strings. *)
Fixpoint contains (p s : pystr) : bool :=
  startswith p s || match s with [] => false | _ :: r => contains p r end.

(** [s.split()]: the maximal runs of non-whitespace characters. *)
Fixpoint split_ws_aux (cur : pystr) (s : pystr) : list pystr :=
  match s with
  | [] => match cur with [] => [] | _ => [rev cur] end
  | c :: r =>
      if is_space c
      then match cur with [] => split_ws_aux [] r | _ => rev cur :: split_ws_aux [] r end
      else split_ws_aux (c :: cur) r
  end.
Definition split_ws (s : pystr) : list pystr := split_ws_aux [] s.

(** [s.split(sep)] for a one-character separator. *)
Fixpoint split_on_aux (sep : N) (cur : pystr) (s : pystr) : list pystr :=
  match s with
  | [] => [rev cur]
  | c :: r =>
      if c =? sep then rev cur :: split_on_aux sep [] r
      else split_on_aux sep (c :: cur) r
  end.
Definition split_on (sep : N) (s : pystr) : list pystr := split_on_aux sep [] s.

(** ** [re.sub]

    [re.sub(pattern, repl, s)] replaces the leftmost non-overlapping
    matches. A pattern is given by its matcher: [m prev s] tries the
    pattern at the current position, where [s] is the rest of the text
    and [prev] the character before it ([None] at the start, which is
    what the anchor [^] reads); a match returns its length and the
    replacement text. After a match the scan resumes behind it: [skip]
    counts the characters of the current match still to pass. None of
    the patterns of this program matches the empty string. *)
Fixpoint re_sub_from (m : option N -> pystr -> option (nat * pystr))
    (prev : option N) (skip : nat) (s : pystr) : pystr :=
  match s with
  | [] => []
  | c :: r =>
      match skip with
      | S k => re_sub_from m (Some c) k r
      | O =>
          match m prev s with
          | Some (S n, repl) => repl ++ re_sub_from m (Some c) n r
          | _ => c :: re_sub_from m (Some c) O r
          end
      end
  end.

Definition re_sub (m : option N -> pystr -> option (nat * pystr)) (s : pystr) : pystr :=
  re_sub_from m None O s.

(** [^] under [re.MULTILINE]: the start of the text or just after a newline. *)
Definition at_line_start (prev : option N) : bool :=
  match prev with
  | None => true
  | Some c => c =? NEWLINE
  end.

Section Preprocess.
Context (U : UnicodeData).

(** [\s+], replaced by one space. *)
Definition m_whitespace (_ : option N) (s : pystr) : option (nat * pystr) :=
  match span_len is_space s with
  | O => None
  | n => Some (n, [SPACE])
  end.

(** The characters kept by [[^\w\s\.\,\!\?\;\:\-\(\)\[\]\{\}]]. *)
Definition is_kept_punct (c : N) : bool :=
  existsb (N.eqb c) (str ".,!?;:-()[]{}").
Definition is_readable (c : N) : bool :=
  is_word U c || is_space c || is_kept_punct c.
Definition m_noise (_ : option N) (s : pystr) : option (nat * pystr) :=
  match s with
  | c :: _ => if is_readable c then None else Some (1%nat, [])
  | [] => None
  end.

(** [(\w)X(\w)], replaced by [\1Y\2]: [X] is [|] or [0], [Y] is [l] or [o]. *)
Definition m_ocr (x y : N) (_ : option N) (s : pystr) : option (nat * pystr) :=
  match s with
  | a :: b :: c :: _ =>
      if is_word U a && (b =? x) && is_word U c
      then Some (3%nat, [a; y; c]) else None
  | _ => None
  end.

(** [Page \d+], deleted. *)
Definition m_page (_ : option N) (s : pystr) : option (nat * pystr) :=
  if startswith (str "Page ") s
  then match span_len (is_digit U) (drop 5 s) with
       | O => None
       | n => Some ((5 + n)%nat, [])
       end
  else None.

(** [^\d+\s*] under MULTILINE, deleted. *)
Definition m_line_number (prev : option N) (s : pystr) : option (nat * pystr) :=
  if at_line_start prev
  then match span_len (is_digit U) s with
       | O => None
       | n => Some ((n + span_len is_space (drop n s))%nat, [])
       end
  else None.

(** [^\s*[•\-\*]\s*] under MULTILINE, deleted. *)
Definition is_bullet (c : N) : bool :=
  (c =? BULLET) || (c =? HYPHEN) || (c =? STAR).
Definition m_bullet (prev : option N) (s : pystr) : option (nat * pystr) :=
  if at_line_start prev
  then let n := span_len is_space s in
       match drop n s with
       | c :: r => if is_bullet c
                   then Some ((n + 1 + span_len is_space r)%nat, [])
                   else None
       | [] => None
       end
  else None.

(** [\n\s*\n\s*\n+], replaced by two newlines. Every character of a
    match is whitespace, so the match lies in the whitespace run [w]
    behind the first newline; it exists when [w] holds two more
    newlines, and the greedy quantifiers make it end with the last
    newline of [w]. *)
Fixpoint last_newline (w : pystr) (i : nat) (acc : option nat) : option nat :=
  match w with
  | [] => acc
  | c :: r => last_newline r (S i) (if c =? NEWLINE then Some (S i) else acc)
  end.
Definition count_newlines (w : pystr) : nat :=
  List.length (List.filter (N.eqb NEWLINE) w).
Definition m_blank_lines (_ : option N) (s : pystr) : option (nat * pystr) :=
  match s with
  | c :: r =>
      if c =? NEWLINE
      then let w := take (span_len is_space r) r in
           if (2 <=? count_newlines w)%nat
           then match last_newline w 0 None with
                | Some e => Some (S e, [NEWLINE; NEWLINE])
                | None => None
                end
           else None
      else None
  | [] => None
  end.

(** [([.!?])\s*([A-Z])], replaced by [\1 \2]. *)
Definition is_sentence_end (c : N) : bool :=
  existsb (N.eqb c) (str ".!?").
Definition m_sentence (_ : option N) (s : pystr) : option (nat * pystr) :=
  match s with
  | p :: r =>
      if is_sentence_end p
      then let n := span_len is_space r in
           match drop n r with
           | c :: _ => if ascii_upper c
                       then Some ((1 + n + 1)%nat, [p; SPACE; c])
                       else None
           | [] => None
           end
      else None
  | [] => None
  end.

(** [preprocess_text] of backend.py. *)
Definition preprocess_text (text : pystr) : pystr :=
  if is_blank text then []
  else
    let text := re_sub m_whitespace (strip text) in
    let text := re_sub m_noise text in
    let text := re_sub (m_ocr BAR (N_of_ascii "l")) text in
    let text := re_sub (m_ocr ZERO (N_of_ascii "o")) text in
    let text := re_sub m_page text in
    let text := re_sub m_line_number text in
    let text := re_sub m_bullet text in
    let text := re_sub m_blank_lines text in
    let text := re_sub m_sentence text in
    strip text.
End Preprocess.

(** ** Python values, exceptions *)

(** The values that flow through the dictionaries of the program. *)
#[warnings="-register-all"]
Inductive pyval :=
| PyNone
| PyBool (b : bool)
| PyInt (z : Z)
| PyFloat (q : Q)
| PyStr (s : pystr)
| PyList (l : list pyval)
| PyDict (d : gmap string pyval).

Abbreviation pydict := (gmap string pyval).

(** An exception, as the text [str(e)] that the handlers print. *)
Abbreviation exn := (list N).

Inductive result (A : Type) : Type :=
| Ok (a : A)
| Raise (e : exn).
Arguments Ok {A} a.
Arguments Raise {A} e.

Definition bind {A B} (r : result A) (k : A -> result B) : result B :=
  match r with
  | Ok a => k a
  | Raise e => Raise e
  end.

Notation "x <-- r ;; k" := (bind r (fun x => k))
  (at level 100, r at next level, right associativity).

(** [try: body except Exception as e: handler(e)] *)
Definition try_except {A} (body : result A) (handler : exn -> A) : A :=
  match body with
  | Ok a => a
  | Raise e => handler e
  end.

Definition type_name (v : pyval) : pystr :=
  match v with
  | PyNone => str "NoneType"
  | PyBool _ => str "bool"
  | PyInt _ => str "int"
  | PyFloat _ => str "float"
  | PyStr _ => str "str"
  | PyList _ => str "list"
  | PyDict _ => str "dict"
  end.

(** [v.name] on a value that has no such method raises AttributeError. *)
Definition attribute_error (v : pyval) (name : string) : exn :=
  str "'" ++ type_name v ++ str "' object has no attribute '" ++ str name ++ str "'".

Definition as_str (name : string) (v : pyval) : result pystr :=
  match v with
  | PyStr s => Ok s
  | _ => Raise (attribute_error v name)
  end.

(** [d.get(key, default)] *)
Definition dict_get (d : pydict) (key : string) (default : pyval) : pyval :=
  match d !! key with
  | Some v => v
  | None => default
  end.

(** ** Floats

    The nearest integer, ties to the even one. *)
Definition rint (x : Q) : Z :=
  let f := Qfloor x in
  let d := (x - inject_Z f)%Q in
  if Qle_bool d (1 # 2)
  then if Qle_bool (1 # 2) d
       then (if Z.even f then f else f + 1)%Z
       else f
  else (f + 1)%Z.

Definition pow2 (k : Z) : Q := ((2 # 1) ^ k)%Q.

(** For [q > 0], the [k] with [2^k <= q < 2^(k+1)]. *)
Definition log2_floor (q : Q) : Z :=
  let g := (Z.log2 (Qnum q) - Z.log2 (Zpos (Qden q)))%Z in
  if Qle_bool (pow2 g) q then g else (g - 1)%Z.

(** The exponent of the last bit of the doubles around [q]: 53 bits of
    significand, and [-1074] for the subnormal numbers. *)
Definition exponent (q : Q) : Z :=
  Z.max (log2_floor (Qred (Qabs q)) - 52) (-1074).

(** The distance between the doubles around [q]. *)
Definition ulp (q : Q) : Q := pow2 (exponent q).

(** The double nearest to [q], ties to the even significand: what a
    division of two ints, an arithmetic operation on doubles and the
    reading of a decimal numeral give (IEEE 754, binary64). The numbers
    of this program stay far below the largest double, [2^1024], beyond
    which a double is infinite. *)
Definition to_double (q : Q) : Q :=
  if Qeq_bool q 0 then 0%Q
  else Qred (inject_Z (rint (q / ulp q)) * ulp q).

(** The decimal that [round(x, ndigits)] picks for a float [x]: the
    nearest multiple of [10^-ndigits] of the number that [x] stands for,
    ties to the even one; the float that [round] returns is the double
    nearest to it. *)
Definition py_round (x : Q) (ndigits : nat) : Q :=
  let scale := inject_Z (10 ^ Z.of_nat ndigits) in
  let y := (x * scale)%Q in
  let f := Qfloor y in
  let d := (y - inject_Z f)%Q in
  let n := if Qle_bool d (1 # 2)
           then if Qle_bool (1 # 2) d
                then (if Z.even f then f else f + 1)%Z
                else f
           else (f + 1)%Z in
  Qred (inject_Z n / scale).

(** [round(x, ndigits)] on a float. *)
Definition round_float (x : Q) (ndigits : nat) : Q :=
  to_double (py_round x ndigits).

(** ** The quality evaluator *)

Definition CHECK : pystr := [9989].            (* U+2705 *)
Definition WARN : pystr := [9888; 65039].      (* U+26A0 U+FE0F *)

Definition note_good : pystr := CHECK ++ str " Good compression ratio".
Definition note_brief : pystr := WARN ++ str " Summary might be too brief".
Definition note_verbose : pystr := WARN ++ str " Summary might be too verbose".

Definition key_indicators : list pystr :=
  List.map str ["conclusion"; "summary"; "therefore"; "thus"; "overall";
                "key"; "important"; "main"]%string.

Definition len {A} (l : list A) : Z := Z.of_nat (List.length l).

(** [get_improvement_suggestions] of backend.py. *)
Definition get_improvement_suggestions (quality_score : Z) (compression_ratio : Q)
  : list pystr :=
  let suggestions := [] in
  let suggestions :=
    if (quality_score <? 60)%Z
    then suggestions ++ [str "Consider regenerating with a different style";
                         str "Check if the document text is properly extracted"]
    else suggestions in
  let suggestions :=
    if negb (Qle_bool (5 # 100) compression_ratio)
    then suggestions ++ [str "Try 'Detailed' style for more comprehensive summary"]
    else suggestions in
  let suggestions :=
    if negb (Qle_bool compression_ratio (4 # 10))
    then suggestions ++ [str "Try 'Abstract' style for more concise summary"]
    else suggestions in
  let suggestions :=
    if (quality_score <? 40)%Z
    then suggestions ++ [str "Verify document format is supported";
                         str "Ensure document contains readable text content"]
    else suggestions in
  suggestions.

Section Quality.
Context (U : UnicodeData).

(** [summary_length / original_length if original_length > 0 else 0] *)
Definition compression_ratio_of (original_length summary_length : Z) : Q :=
  if (original_length >? 0)%Z
  then (inject_Z summary_length / inject_Z original_length)%Q
  else 0%Q.

(** The compression check: the points and the note it adds. *)
Definition compression_check (compression_ratio : Q) (st : Z * list pystr)
  : Z * list pystr :=
  let '(quality_score, feedback) := st in
  if Qle_bool (5 # 100) compression_ratio && Qle_bool compression_ratio (4 # 10)
  then ((quality_score + 25)%Z, feedback ++ [note_good])
  else if negb (Qle_bool (5 # 100) compression_ratio)
  then (quality_score, feedback ++ [note_brief])
  else (quality_score, feedback ++ [note_verbose]).

(** The four signals that read the summary alone. *)
Definition indicator_check (summary : pystr) (st : Z * list pystr) : Z * list pystr :=
  let '(quality_score, feedback) := st in
  if existsb (fun indicator => contains indicator (lower U summary)) key_indicators
  then ((quality_score + 20)%Z, feedback ++ [CHECK ++ str " Contains key content indicators"])
  else st.

Definition structure_check (summary : pystr) (st : Z * list pystr) : Z * list pystr :=
  let '(quality_score, feedback) := st in
  if contains [BULLET] summary || contains [HYPHEN] summary || contains [NEWLINE] summary
  then ((quality_score + 15)%Z, feedback ++ [CHECK ++ str " Well-structured format"])
  else st.

Definition length_check (summary_length : Z) (st : Z * list pystr) : Z * list pystr :=
  let '(quality_score, feedback) := st in
  if (summary_length >=? 50)%Z
  then ((quality_score + 20)%Z, feedback ++ [CHECK ++ str " Appropriate summary length"])
  else if (summary_length <? 20)%Z
  then (quality_score, feedback ++ [WARN ++ str " Summary might be too short"])
  else st.

Definition sentence_check (summary : pystr) (st : Z * list pystr) : Z * list pystr :=
  let '(quality_score, feedback) := st in
  let sentences := split_on DOT summary in
  if (len sentences >=? 2)%Z
  then ((quality_score + 20)%Z, feedback ++ [CHECK ++ str " Contains complete thoughts"])
  else st.

(** What the four signals that read the summary alone add up to. *)
Definition signal_points (summary : pystr) : Z :=
  fst (sentence_check summary
         (length_check (len (split_ws summary))
            (structure_check summary (indicator_check summary (0%Z, []))))).

Definition rating_of (quality_score : Z) : pystr :=
  if (quality_score >=? 80)%Z then str "Excellent"
  else if (quality_score >=? 60)%Z then str "Good"
  else if (quality_score >=? 40)%Z then str "Fair"
  else str "Needs Improvement".

(** The body of the [try] of [evaluate_summary_quality]. *)
Definition evaluate_body (original_text summary : pyval) : result pydict :=
  original <-- as_str "split" original_text ;;
  summary <-- as_str "split" summary ;;
  let original_length := len (split_ws original) in
  let summary_length := len (split_ws summary) in
  let compression_ratio := compression_ratio_of original_length summary_length in
  let st := (0%Z, []) in
  let st := compression_check compression_ratio st in
  let st := indicator_check summary st in
  let st := structure_check summary st in
  let st := length_check summary_length st in
  let st := sentence_check summary st in
  let '(quality_score, feedback) := st in
  let overall_rating := rating_of quality_score in
  Ok (list_to_map
        [("quality_score", PyInt quality_score);
         ("overall_rating", PyStr overall_rating);
         ("compression_ratio",
           if (original_length >? 0)%Z
           then PyFloat (round_float (to_double (to_double compression_ratio * 100)) 1)
           else PyInt 0);
         ("original_length", PyInt original_length);
         ("summary_length", PyInt summary_length);
         ("feedback", PyList (List.map PyStr feedback));
         ("suggestions",
           PyList (List.map PyStr
             (get_improvement_suggestions quality_score compression_ratio)))]).

(** [evaluate_summary_quality] of backend.py. *)
Definition evaluate_summary_quality (original_text summary : pyval) : pydict :=
  try_except (evaluate_body original_text summary)
    (fun e => list_to_map
       [("error", PyStr (str "Error evaluating summary: " ++ e));
        ("quality_score", PyInt 0);
        ("overall_rating", PyStr (str "Error"))]).
End Quality.

(** ** The summaries table of database.py *)

Definition PERCENT : N := 37.
Definition UNDERSCORE : N := 95.

(** The comparison of SQLite's [LIKE]: [%] stands for any run of
    characters, [_] for any one character, and every other character
    of the pattern for itself, where the ASCII letters are compared
    without case (SQLite folds no other letters). *)
Fixpoint pattern_compare (pattern : pystr) : pystr -> bool :=
  match pattern with
  | [] => fun text => match text with [] => true | _ :: _ => false end
  | p :: pattern' =>
      if p =? PERCENT
      then fix any_run (text : pystr) : bool :=
             pattern_compare pattern' text
             || match text with
                | [] => false
                | _ :: text' => any_run text'
                end
      else fun text =>
             match text with
             | [] => false
             | c :: text' =>
                 ((p =? UNDERSCORE) || (tolower p =? tolower c))
                 && pattern_compare pattern' text'
             end
  end.

(** SQLite reads the pattern and the text as C strings: up to the
    first U+0000. *)
Definition NUL : N := 0.
Fixpoint c_string (s : pystr) : pystr :=
  match s with
  | c :: r => if c =? NUL then [] else c :: c_string r
  | [] => []
  end.

(** [text LIKE pattern] *)
Definition like (pattern text : pystr) : bool :=
  pattern_compare (c_string pattern) (c_string text).

(** SQLite refuses a pattern of more than 50000 bytes of UTF-8 (the
    statement fails with "LIKE or GLOB pattern too complex" at the
    first row that it compares). [like] is the comparison of the
    patterns that SQLite accepts. *)
Definition utf8_bytes (c : N) : Z :=
  if c <? 128 then 1%Z else if c <? 2048 then 2%Z else if c <? 65536 then 3%Z else 4%Z.
Definition utf8_length (s : pystr) : Z :=
  fold_right (fun c n => (utf8_bytes c + n)%Z) 0%Z s.
Definition LIKE_PATTERN_LIMIT : Z := 50000.
Definition like_accepts (pattern : pystr) : Prop :=
  (utf8_length pattern <= LIKE_PATTERN_LIMIT)%Z.

(** [column LIKE ?] on a nullable column: NULL is not a match. *)
Definition like_null (pattern : pystr) (column : option pystr) : bool :=
  match column with
  | Some text => like pattern text
  | None => false
  end.

(** [LIMIT n] and [OFFSET n] of SQLite: a negative limit is no limit, a
    negative offset is none. *)
Definition sql_limit {A} (limit : Z) (rows : list A) : list A :=
  if (limit <? 0)%Z then rows else take (Z.to_nat limit) rows.
Definition sql_offset {A} (offset : Z) (rows : list A) : list A :=
  drop (Z.to_nat offset) rows.

Module Database.

(** The columns of [summaries] other than the key [id]. [created_at]
    is the text of CURRENT_TIMESTAMP, whose order is that of the
    seconds it counts. *)
Record Summary := {
  user_id : pystr;
  document_name : pystr;
  document_type : pystr;
  original_text : option pystr;
  summary : pystr;
  summary_style : pystr;
  quality_score : option Q;
  created_at : Z;
  file_size : option Z;
  processing_time : option Q;
  word_count : option Z;
  summary_word_count : option Z
}.

(** A row as [SELECT *] returns it: the [id] and the other columns. *)
Abbreviation Row := (Z * Summary)%type.

(** The database file behind the global [db]: the table keyed by its
    primary key, the AUTOINCREMENT counter, the clock of
    CURRENT_TIMESTAMP, and the error that the storage layer raises on
    the next statement, if it is failing. *)
Record t := {
  table : gmap Z Summary;
  sequence : Z;
  now : Z;
  fault : option exn
}.

(** [with sqlite3.connect(self.db_path) as conn: ...] *)
Definition with_connection {A} (s : t) (body : result A) : result A :=
  match fault s with
  | Some e => Raise e
  | None => body
  end.

Definition rows (s : t) : list Row := map_to_list (table s).

(** [ORDER BY created_at DESC]. SQL leaves the order of rows of equal
    [created_at] open; SQLite reads the rows of a user through the
    index on [user_id], by ascending id, and its sort keeps that order
    among rows of equal [created_at]. *)
Definition newer_first (a b : Row) : Prop :=
  (created_at (snd b) <= created_at (snd a))%Z.
#[global] Instance newer_first_dec a b : Decision (newer_first a b).
Proof. unfold newer_first. apply _. Defined.
Definition row_order (a b : Row) : Prop :=
  (created_at (snd b) < created_at (snd a))%Z
  \/ (created_at (snd a) = created_at (snd b) /\ (fst a <= fst b)%Z).
#[global] Instance row_order_dec a b : Decision (row_order a b).
Proof. unfold row_order. apply _. Defined.
Definition order_by_created_at_desc (l : list Row) : list Row :=
  merge_sort row_order l.

Definition owned_by (u : pystr) (r : Row) : Prop := user_id (snd r) = u.
#[global] Instance owned_by_dec u r : Decision (owned_by u r).
Proof. unfold owned_by. apply _. Defined.

(** The id that AUTOINCREMENT gives the next row. *)
Definition next_id (s : t) : Z :=
  (1 + map_fold (fun k _ m => Z.max k m) (sequence s) (table s))%Z.

(** The parameters of a statement: sqlite3 hands a Python int to
    SQLite as a 64-bit integer and raises OverflowError when it does
    not fit; [None] is NULL. *)
Definition fits_int64 (z : Z) : bool := (- 2 ^ 63 <=? z)%Z && (z <? 2 ^ 63)%Z.
Definition OverflowError : exn :=
  str "Python int too large to convert to SQLite INTEGER".
Definition bindable (o : option Z) : bool :=
  match o with
  | Some z => fits_int64 z
  | None => true
  end.

(** [save_summary]. The score is a float, or one of the whole numbers
    from 0 to 100 of the evaluator. *)
Definition save_summary (s : t)
    (user_id' document_name' document_type' : pystr)
    (original_text' : option pystr) (summary' summary_style' : pystr)
    (quality_score' : option Q) (file_size' : option Z)
    (processing_time' : option Q) (word_count' summary_word_count' : option Z)
  : result (Z * t) :=
  with_connection s
    (if bindable file_size' && bindable word_count' && bindable summary_word_count'
     then
       let summary_id := next_id s in
       let row := {| user_id := user_id'; document_name := document_name';
                     document_type := document_type';
                     original_text := original_text'; summary := summary';
                     summary_style := summary_style';
                     quality_score := quality_score'; created_at := now s;
                     file_size := file_size'; processing_time := processing_time';
                     word_count := word_count';
                     summary_word_count := summary_word_count' |} in
       Ok (summary_id,
           {| table := <[summary_id := row]> (table s); sequence := summary_id;
              now := now s; fault := fault s |})
     else Raise OverflowError).

(** [get_user_summaries] *)
Definition get_user_summaries (s : t) (u : pystr) (limit offset : Z)
  : result (list Row) :=
  with_connection s
    (Ok (sql_limit limit (sql_offset offset
           (order_by_created_at_desc (filter (owned_by u) (rows s)))))).

(** [get_summary_by_id] *)
Definition get_summary_by_id (s : t) (summary_id : Z) : result (option Row) :=
  with_connection s
    (Ok (head (filter (fun r : Row => fst r = summary_id) (rows s)))).

(** The WHERE clause of [search_summaries]. *)
Definition search_where (u search_query : pystr) (r : Row) : bool :=
  bool_decide (owned_by u r)
  && (like search_query (document_name (snd r))
      || like search_query (summary (snd r))
      || like_null search_query (original_text (snd r))).

(** [search_summaries], for the queries that SQLite accepts: with a
    query of more than 49998 bytes of UTF-8 the pattern exceeds the
    limit of [like_accepts], and the statement fails when the user has
    a row and the limit is not 0. *)
Definition search_summaries (s : t) (u query : pystr) (limit : Z)
  : result (list Row) :=
  with_connection s
    (let search_query := [PERCENT] ++ query ++ [PERCENT] in
     Ok (sql_limit limit
           (order_by_created_at_desc
              (filter (fun r => search_where u search_query r = true) (rows s))))).

(** [delete_summary]: the rows that the DELETE statement matches are
    removed, and [cursor.rowcount] counts them. *)
Definition delete_where (summary_id : Z) (u : pystr) (r : Row) : Prop :=
  fst r = summary_id /\ owned_by u r.
#[global] Instance delete_where_dec i u r : Decision (delete_where i u r).
Proof. unfold delete_where. apply _. Defined.

(** The id of a statement is a Python int that sqlite3 hands over as
    the parameters above. The ids that SQLite has given are 64-bit
    integers; the table of the model is a map on [Z], and an id that it
    holds is read as one of them. *)
Definition bindable_id (s : t) (summary_id : Z) : bool :=
  fits_int64 summary_id || bool_decide (is_Some (table s !! summary_id)).

Definition delete_summary (s : t) (summary_id : Z) (u : pystr) : result (bool * t) :=
  with_connection s
    (if bindable_id s summary_id
     then
       let deleted_count := len (filter (delete_where summary_id u) (rows s)) in
       Ok ((deleted_count >? 0)%Z,
           {| table := filter (fun r => ~ delete_where summary_id u r) (table s);
              sequence := sequence s; now := now s; fault := fault s |})
     else Raise OverflowError).

(** The aggregates of [get_summary_statistics]. The sums of SQLite are
    64-bit; the word counts of a table stay far below that, and the
    sums are taken in [Z]. *)
Definition sum_Q (l : list Q) : Q := fold_right Qplus 0%Q l.
Definition sum_Z (l : list Z) : Z := fold_right Z.add 0%Z l.

(** [SELECT AVG(quality_score) ... AND quality_score IS NOT NULL]:
    the sum of the scores divided by their number, as a double. SQLite
    adds the scores as doubles; the sum is kept exact here, which is
    the same number whenever the partial sums are doubles, as they are
    for whole-number scores whose sum stays below [2^53]. *)
Definition sql_avg (scores : list Q) : pyval :=
  match scores with
  | [] => PyNone
  | _ => PyFloat (to_double (sum_Q scores / inject_Z (len scores)))
  end.

(** [SELECT SUM(word_count)]: NULL when no row has a count. *)
Definition sql_sum (counts : list Z) : pyval :=
  match counts with
  | [] => PyNone
  | _ => PyInt (sum_Z counts)
  end.

(** [GROUP BY summary_style ORDER BY count DESC LIMIT 1]: a style of
    the largest group; among equally large groups SQL leaves the
    choice open, here it is the first one met. *)
Definition count_style (l : list Row) (style : pystr) : nat :=
  List.length (filter (fun r : Row => summary_style (snd r) = style) l).
Definition most_used_style (l : list Row) : option pystr :=
  fold_right
    (fun style best =>
       match best with
       | Some b => if (count_style l b <=? count_style l style)%nat
                   then Some style else Some b
       | None => Some style
       end)
    None (remove_dups (List.map (fun r : Row => summary_style (snd r)) l)).


(** [update_summary]: the rows that the UPDATE statement matches get
    the new summary, the new score when one is given, and the time of
    the update; [cursor.rowcount] counts them. The WHERE clause is the
    one of [delete_summary]. *)
Definition updated (new_summary : pystr) (new_score : option Q) (at_time : Z)
    (r : Summary) : Summary :=
  {| user_id := user_id r;
     document_name := document_name r;
     document_type := document_type r;
     original_text := original_text r;
     summary := new_summary;
     summary_style := summary_style r;
     quality_score := match new_score with
                      | Some q => Some q
                      | None => quality_score r
                      end;
     created_at := at_time;
     file_size := file_size r;
     processing_time := processing_time r;
     word_count := word_count r;
     summary_word_count := summary_word_count r |}.

Definition update_summary (s : t) (summary_id : Z) (u new_summary : pystr)
    (new_score : option Q) : result (bool * t) :=
  with_connection s
    (let updated_count := len (filter (delete_where summary_id u) (rows s)) in
     Ok ((updated_count >? 0)%Z,
         {| table :=
              map_imap
                (fun k r =>
                   Some (if decide (delete_where summary_id u (k, r))
                         then updated new_summary new_score (now s) r
                         else r))
                (table s);
            sequence := sequence s; now := now s; fault := fault s |})).

(** [datetime('now', '-{} days'.format(days))], in seconds: NULL when
    the modifier is not one of SQLite (a negative [days] is printed
    with two signs) or when the time falls before the first Julian day,
    24 November 4714 BC at noon. *)
Definition FIRST_JULIAN_DAY : Z := (-210866760000)%Z.
Definition days_ago (s : t) (days : Z) : option Z :=
  if (days <? 0)%Z then None
  else let cutoff := (now s - 86400 * days)%Z in
       if (cutoff <? FIRST_JULIAN_DAY)%Z then None else Some cutoff.

(** [created_at >= cutoff] and [created_at < cutoff]: no row compares
    with NULL. *)
Definition not_before (cutoff : option Z) (r : Row) : Prop :=
  match cutoff with
  | Some c => (c <= created_at (snd r))%Z
  | None => False
  end.
Definition before (cutoff : option Z) (r : Row) : Prop :=
  match cutoff with
  | Some c => (created_at (snd r) < c)%Z
  | None => False
  end.
#[global] Instance not_before_dec c r : Decision (not_before c r).
Proof. unfold not_before. destruct c; apply _. Defined.
#[global] Instance before_dec c r : Decision (before c r).
Proof. unfold before. destruct c; apply _. Defined.

(** [get_recent_summaries] *)
Definition get_recent_summaries (s : t) (u : pystr) (days : Z) : result (list Row) :=
  with_connection s
    (Ok (order_by_created_at_desc
           (filter (fun r => owned_by u r /\ not_before (days_ago s days) r) (rows s)))).

(** [cleanup_old_summaries] *)
Definition cleanup_old_summaries (s : t) (u : pystr) (days : Z) : result (Z * t) :=
  with_connection s
    (let old (r : Row) := owned_by u r /\ before (days_ago s days) r in
     let deleted_count := len (filter old (rows s)) in
     Ok (deleted_count,
         {| table := filter (fun r => ~ old r) (table s);
            sequence := sequence s; now := now s; fault := fault s |})).

(** One statement that writes to the table and succeeds: a save, a
    delete, an update or a cleanup, with the store that it leaves. *)
Inductive writes (s s' : t) : Prop :=
| writes_save u dn dt ot sm st qs fs pt wc swc i :
    save_summary s u dn dt ot sm st qs fs pt wc swc = Ok (i, s') -> writes s s'
| writes_delete i u b :
    delete_summary s i u = Ok (b, s') -> writes s s'
| writes_update i u sm qs b :
    update_summary s i u sm qs = Ok (b, s') -> writes s s'
| writes_cleanup u days n :
    cleanup_old_summaries s u days = Ok (n, s') -> writes s s'.

End Database.

(** Python's truth value, [a or b], and [round(v, 2)]. *)
Definition truthy (v : pyval) : bool :=
  match v with
  | PyNone => false
  | PyBool b => b
  | PyInt z => negb (z =? 0)%Z
  | PyFloat q => negb (Qeq_bool q 0)
  | PyStr s => match s with [] => false | _ => true end
  | PyList l => match l with [] => false | _ => true end
  | PyDict d => negb (bool_decide (size d = O))
  end.

Definition py_or (a b : pyval) : pyval := if truthy a then a else b.

Definition round_value (v : pyval) (ndigits : nat) : result pyval :=
  match v with
  | PyInt z => Ok (PyInt z)
  | PyBool b => Ok (PyInt (if b then 1 else 0))
  | PyFloat q => Ok (PyFloat (round_float q ndigits))
  | _ => Raise (str "type " ++ type_name v ++ str " doesn't define __round__ method")
  end.

Module Statistics.
Import Database.

(** [get_summary_statistics] of database.py. *)
Definition get_summary_statistics (s : t) (u : pystr) : result pydict :=
  with_connection s
    (let mine := filter (owned_by u) (rows s) in
     let total_summaries := len mine in
     let total_documents :=
       len (remove_dups (List.map (fun r : Row => document_name (snd r)) mine)) in
     let avg_quality :=
       py_or (sql_avg (omap (fun r : Row => quality_score (snd r)) mine)) (PyInt 0) in
     let favorite_style :=
       match most_used_style mine with
       | Some style => style
       | None => str "None"
       end in
     let total_words :=
       py_or (sql_sum (omap (fun r : Row => word_count (snd r)) mine)) (PyInt 0) in
     average_quality <-- round_value avg_quality 2 ;;
     Ok (list_to_map
           [("total_summaries", PyInt total_summaries);
            ("total_documents", PyInt total_documents);
            ("average_quality", average_quality);
            ("favorite_style", PyStr favorite_style);
            ("total_words_processed", total_words)])).
End Statistics.


(** ** Generation and orchestration (backend.py) *)

(** [build_prompt] *)
Definition build_prompt (text style : pystr) : pystr :=
  if bool_decide (style = str "bullet") then
    str "Please provide a comprehensive bullet-point summary of the following document. 

Requirements:
- Extract the most important key points and main ideas
- Maintain logical flow and hierarchy
- Use clear, actionable bullet points
- Include relevant facts, figures, and conclusions
- Ensure accuracy and completeness

Document to summarize:
" ++ text ++ str "

Please provide a well-structured bullet-point summary:"
  else if bool_decide (style = str "abstract") then
    str "Please write a professional abstract summary of the following document.

Requirements:
- 3-4 concise sentences capturing the essence
- Include main topic, key findings, methodology (if applicable), and conclusions
- Use academic/professional tone
- Maintain factual accuracy
- Highlight the most significant contributions or insights

Document to summarize:
" ++ text ++ str "

Please provide a professional abstract:"
  else if bool_decide (style = str "detailed") then
    str "Please provide a comprehensive, detailed summary of the following document.

Requirements:
- Cover main arguments, supporting evidence, and conclusions
- Maintain the document's logical structure
- Include key examples, data points, and references
- Provide context and background information
- Ensure thorough understanding while maintaining clarity
- Highlight relationships between different sections/ideas

Document to summarize:
" ++ text ++ str "

Please provide a detailed summary:"
  else
    str "Please provide a comprehensive summary of the following document.

Requirements:
- Identify main themes and key points
- Maintain accuracy and completeness
- Use clear, professional language
- Highlight important conclusions and implications

Document to summarize:
" ++ text ++ str "

Please provide a summary:".

(** The external generative service. [new_model] is the construction
    [genai.GenerativeModel('gemini-1.5-flash')]; [generate_content] is
    the call with the fixed safety settings and decoding parameters
    followed by the reading of [response.text], which is the text (empty
    when there is none) or an exception. *)
Record GenerativeService := {
  new_model : result unit;
  generate_content : pystr -> result pystr
}.

Section Generation.
Context (U : UnicodeData) (G : GenerativeService).

(** [summarize_text]: the returned string, and the prompts on which
    the external service was invoked. *)
Definition summarize_text (text style : pystr) : pystr * list pystr :=
  if is_blank text
  then (str "Error: No text provided for summarization", [])
  else
    let cleaned_text := preprocess_text U text in
    match cleaned_text with
    | [] => (str "Error: Text preprocessing resulted in empty content", [])
    | _ :: _ =>
        match new_model G with
        | Raise e => (str "Error: " ++ e, [])
        | Ok _ =>
            let prompt := build_prompt cleaned_text style in
            match generate_content G prompt with
            | Ok [] => (str "Error: No summary generated. Please try again.", [prompt])
            | Ok response_text => (strip response_text, [prompt])
            | Raise e => (str "Error generating summary: " ++ e, [prompt])
            end
        end
    end.
End Generation.

(** [os.path.join(a, b)] on POSIX. *)
Definition SLASH : N := 47.
Definition path_join (a b : pystr) : pystr :=
  if startswith [SLASH] b then b
  else match a with
       | [] => b
       | _ => if bool_decide (last a = Some SLASH) then a ++ b else a ++ [SLASH] ++ b
       end.

(** The file system: the working directory, and the outcome of creating
    the directories and writing a file. *)
Record FileSystem := {
  getcwd : pystr;
  write_file : pystr -> pystr -> result unit
}.

Section Files.
Context (U : UnicodeData) (F : FileSystem).

(** [[^\w\-_\. ]], replaced by an underscore. *)
Definition m_unsafe (_ : option N) (s : pystr) : option (nat * pystr) :=
  match s with
  | c :: _ =>
      if is_word U c || existsb (N.eqb c) (str "-_. ") then None
      else Some (1%nat, [UNDERSCORE])
  | [] => None
  end.

(** [save_summary_to_file]: the path, or the text of the failure. *)
Definition save_summary_to_file (summary user_id document_name style timestamp : pystr)
  : pystr :=
  try_except
    (let summaries_dir := path_join (getcwd F) (str "summaries") in
     let user_dir := path_join summaries_dir user_id in
     let safe_doc_name := re_sub m_unsafe document_name in
     let filename :=
       safe_doc_name ++ str "_" ++ style ++ str "_" ++ timestamp ++ str ".txt" in
     let file_path := path_join user_dir filename in
     _ <-- write_file F file_path summary ;;
     Ok file_path)
    (fun e => str "Error saving summary to file: " ++ e).
End Files.

(** What a request finds: the generative service, the file system, the
    two readings of [time.time()], the text of [time.strftime]. *)
Record Environment := {
  service : GenerativeService;
  files : FileSystem;
  start_time : Q;
  end_time : Q;
  timestamp : pystr
}.

Definition opt_int (o : option Z) : pyval :=
  match o with
  | Some z => PyInt z
  | None => PyNone
  end.

(** The number that a REAL column keeps of a Python value. *)
Definition to_real (v : pyval) : option Q :=
  match v with
  | PyInt z => Some (inject_Z z)
  | PyFloat q => Some q
  | PyBool b => Some (if b then 1%Q else 0%Q)
  | _ => None
  end.

Section Service.
Context (U : UnicodeData) (E : Environment).

Definition file_path_value (file_path : pystr) : pyval :=
  if startswith (str "Error") file_path then PyNone else PyStr file_path.

(** [summarize_text_with_db]: the returned dictionary and the database
    after the request. *)
Definition summarize_text_with_db (db : Database.t)
    (text style user_id document_name document_type : pystr)
    (file_size : option Z) : pydict * Database.t :=
  let start_time := start_time E in
  if is_blank text
  then (list_to_map
          [("success", PyBool false);
           ("error", PyStr (str "No text provided for summarization"));
           ("summary", PyNone)], db)
  else
    let summary := fst (summarize_text U (service E) text style) in
    if startswith (str "Error") summary
    then (list_to_map
            [("success", PyBool false);
             ("error", PyStr summary);
             ("summary", PyNone)], db)
    else
      let processing_time := to_double (end_time E - start_time) in
      let word_count := len (split_ws text) in
      let summary_word_count := len (split_ws summary) in
      let quality_metrics := evaluate_summary_quality U (PyStr text) (PyStr summary) in
      let quality_score := dict_get quality_metrics "quality_score" (PyInt 0) in
      let timestamp := timestamp E in
      match Database.save_summary db user_id document_name document_type
              (Some (take 1000 text)) summary style (to_real quality_score)
              file_size (Some processing_time) (Some word_count)
              (Some summary_word_count) with
      | Ok (summary_id, db') =>
          let file_path :=
            save_summary_to_file U (files E) summary user_id document_name style timestamp in
          (list_to_map
             [("success", PyBool true);
              ("summary", PyStr summary);
              ("summary_id", PyInt summary_id);
              ("file_path", file_path_value file_path);
              ("quality_metrics", PyDict quality_metrics);
              ("processing_time", PyFloat (round_float processing_time 2));
              ("word_count", PyInt word_count);
              ("summary_word_count", PyInt summary_word_count);
              ("message", PyStr (str "Summary generated and saved successfully"))],
           db')
      | Raise db_error =>
          let file_path :=
            save_summary_to_file U (files E) summary user_id document_name style timestamp in
          (list_to_map
             [("success", PyBool true);
              ("summary", PyStr summary);
              ("summary_id", PyNone);
              ("file_path", file_path_value file_path);
              ("quality_metrics", PyDict quality_metrics);
              ("processing_time", PyFloat (round_float processing_time 2));
              ("word_count", PyInt word_count);
              ("summary_word_count", PyInt summary_word_count);
              ("warning",
                PyStr (str "Summary generated but database save failed: " ++ db_error))],
           db)
      end.
End Service.

(** ** The search as the specification words it

    The records of the user for which the query is a substring of the
    document name, the summary or the stored excerpt when the case of
    the ASCII letters is ignored, newest first, up to the limit. *)
Definition ci_substring (query text : pystr) : bool :=
  contains (List.map tolower query) (List.map tolower text).

Definition ci_substring_null (query : pystr) (column : option pystr) : bool :=
  match column with
  | Some text => ci_substring query text
  | None => false
  end.

Definition field_match (query : pystr) (r : Database.Row) : bool :=
  ci_substring query (Database.document_name (snd r))
  || ci_substring query (Database.summary (snd r))
  || ci_substring_null query (Database.original_text (snd r)).

(** A row none of whose searched columns holds U+0000. *)
Definition no_nul (r : Database.Summary) : Prop :=
  (NUL ∉ Database.document_name r)
  /\ (NUL ∉ Database.summary r)
  /\ (forall text, Database.original_text r = Some text -> NUL ∉ text).

Definition search_spec (s : Database.t) (u query : pystr) (limit : Z)
  : list Database.Row :=
  sql_limit limit
    (Database.order_by_created_at_desc
       (filter (fun r => Database.owned_by u r /\ field_match query r = true)
          (Database.rows s))).

(** ** Whitespace normalisation in one pass

    What the first rewrite of [preprocess_text] computes: every run of
    whitespace becomes one space. [in_run] tells that the previous
    character was whitespace. *)
Fixpoint collapse_from (in_run : bool) (s : pystr) : pystr :=
  match s with
  | [] => []
  | c :: r =>
      if is_space c
      then (if in_run then collapse_from true r else SPACE :: collapse_from true r)
      else c :: collapse_from false r
  end.

(** A text in which every whitespace character is a single space
    behind another character; [after_space] tells that the previous
    character was whitespace. *)
Fixpoint single_spaced (after_space : bool) (s : pystr) : Prop :=
  match s with
  | [] => True
  | c :: r =>
      if is_space c
      then c = SPACE /\ after_space = false /\ single_spaced true r
      else single_spaced false r
  end.

(** ** Sentence spacing in one pass

    What the last rewrite of [preprocess_text] computes. [cap_follows r]
    tells that the first character of [r] behind its leading whitespace
    is a capital; [skipping] tells that the scan is behind a sentence
    end and before its capital, where the whitespace is dropped. *)
Definition cap_follows (r : pystr) : bool :=
  match drop (span_len is_space r) r with
  | c :: _ => ascii_upper c
  | [] => false
  end.

Fixpoint fix_sentences (skipping : bool) (s : pystr) : pystr :=
  match s with
  | [] => []
  | c :: r =>
      if skipping && is_space c then fix_sentences true r
      else if is_sentence_end c && cap_follows r
      then c :: SPACE :: fix_sentences true r
      else c :: fix_sentences false r
  end.

(** The characters on which only the whitespace rewrite and the
    sentence spacing can act: whitespace, and the characters that the
    noise filter keeps, digits and bullet markers apart. These are the
    word characters that are not digits and the punctuation
    [. , ! ? ; : ( ) [ ] { }]. *)
Definition is_plain (U : UnicodeData) (c : N) : bool :=
  is_readable U c && negb (is_digit U c) && negb (is_bullet c).
Definition is_passive (U : UnicodeData) (c : N) : bool :=
  is_space c || is_plain U c.

(** The same characters once whitespace is normalised: the only
    whitespace left is the space. *)
Definition is_quiet (U : UnicodeData) (c : N) : bool :=
  (c =? SPACE) || (negb (is_space c) && is_plain U c).

(** Each signal adds its points to the running score and its note
    behind the running notes, whatever they are. *)
Definition additive (f : Z * list pystr -> Z * list pystr) : Prop :=
  forall q fb, f (q, fb) = ((q + fst (f (0%Z, [])))%Z, fb ++ snd (f (0%Z, []))).

(** A text that does not start with whitespace. *)
Definition starts_clean (s : pystr) : Prop :=
  match s with
  | [] => True
  | c :: _ => is_space c = false
  end.

(** A text whose whitespace is normal: not empty, trimmed, and every
    run of whitespace one space. *)
Definition whitespace_normal (z : pystr) : Prop :=
  z <> [] /\ starts_clean z /\ rstrip z = z /\ single_spaced false z.

(** ** The accessors of backend.py

    Each one calls the method of the global [db] and answers a storage
    failure with a default. *)

(** [get_user_summary_history] *)
Definition get_user_summary_history (db : Database.t) (user_id : pystr) (limit : Z)
  : list Database.Row :=
  try_except (Database.get_user_summaries db user_id limit 0) (fun _ => []).

(** [get_user_statistics] *)
Definition get_user_statistics (db : Database.t) (user_id : pystr) : pydict :=
  try_except (Statistics.get_summary_statistics db user_id)
    (fun _ => list_to_map
       [("total_summaries", PyInt 0);
        ("total_documents", PyInt 0);
        ("average_quality", PyInt 0);
        ("favorite_style", PyStr (str "None"));
        ("total_words_processed", PyInt 0)]).

(** [search_user_summaries] *)
Definition search_user_summaries (db : Database.t) (user_id query : pystr) (limit : Z)
  : list Database.Row :=
  try_except (Database.search_summaries db user_id query limit) (fun _ => []).

(** [delete_user_summary]: the answer, and the database afterwards. *)
Definition delete_user_summary (db : Database.t) (summary_id : Z) (user_id : pystr)
  : bool * Database.t :=
  try_except (Database.delete_summary db summary_id user_id) (fun _ => (false, db)).

(** [get_recent_summaries] of backend.py *)
Definition get_recent_summaries (db : Database.t) (user_id : pystr) (days : Z)
  : list Database.Row :=
  try_except (Database.get_recent_summaries db user_id days) (fun _ => []).

(** The dictionary with which [summarize_text_with_db] answers a
    failure. *)
Definition failure (message : pystr) : pydict :=
  list_to_map
    [("success", PyBool false); ("error", PyStr message); ("summary", PyNone)].

(** ** The endpoints of fastapi_app.py that summarize and delete

    An endpoint returns a body, which FastAPI answers with status 200,
    or raises; an [HTTPException] is answered with its status. The
    request and response models are those of pydantic: FastAPI builds
    the request model before it calls the endpoint and answers 422
    when a field is refused, and a response model built from a
    dictionary keeps the fields it declares, [None] for the absent
    ones. *)
Module Api.

Inductive raised :=
| HTTPException (status_code : Z) (detail : pystr)
| Error (e : exn).

Inductive answer :=
| Return (body : pydict)
| Raised (r : raised)
| Unprocessable.

Definition status (a : answer) : Z :=
  match a with
  | Return _ => 200
  | Raised (HTTPException status_code _) => status_code
  | Raised (Error _) => 500
  | Unprocessable => 422
  end.

(** [SummarizeRequest] and [SummarizeWithDbRequest]:
    [text: str = Field(..., min_length=1)] and
    [style: Literal["bullet", "abstract", "detailed"]]. *)
Definition valid_request (text style : pystr) : bool :=
  negb (bool_decide (text = []))
  && bool_decide (style ∈ [str "bullet"; str "abstract"; str "detailed"]).

Definition response_model (fields : list string) (d : pydict) : pydict :=
  list_to_map (List.map (fun k => (k, dict_get d k PyNone)) fields).

Section Endpoints.
Context (U : UnicodeData) (E : Environment).
(** [str(e)] for an [HTTPException], which Starlette defines. *)
Context (http_text : Z -> pystr -> pystr).

Definition text_of (r : raised) : pystr :=
  match r with
  | HTTPException status_code detail => http_text status_code detail
  | Error e => e
  end.

(** [except HTTPException: raise] followed by
    [except Exception as e: raise HTTPException(500, prefix + str(e))] *)
Definition reraise_http (prefix : pystr) (a : answer) : answer :=
  match a with
  | Raised (Error e) => Raised (HTTPException 500 (prefix ++ e))
  | _ => a
  end.

(** [except Exception as e: raise HTTPException(500, prefix + str(e))]
    alone: it also catches the [HTTPException]s of the body. *)
Definition wrap_all (prefix : pystr) (a : answer) : answer :=
  match a with
  | Raised r => Raised (HTTPException 500 (prefix ++ text_of r))
  | _ => a
  end.

(** [summarize_document], POST /summarize *)
Definition summarize_document (text style : pystr) : answer :=
  if valid_request text style then
    reraise_http (str "Internal server error: ")
      (match strip text with
       | [] => Raised (HTTPException 400 (str "Text cannot be empty"))
       | _ :: _ =>
           let summary := fst (summarize_text U (service E) text style) in
           if startswith (str "Error") summary
           then Raised (HTTPException 500 (str "Summarization failed: " ++ summary))
           else Return (list_to_map
                          [("summary", PyStr summary);
                           ("style", PyStr style);
                           ("success", PyBool true)])
       end)
  else Unprocessable.

(** [summarize_document_with_db], POST /summarize-with-db: the answer
    and the database afterwards. *)
Definition summarize_document_with_db (db : Database.t)
    (text style user_id document_name document_type : pystr) (file_size : option Z)
  : answer * Database.t :=
  if valid_request text style then
    match strip text with
    | [] =>
        (wrap_all (str "Internal server error: ")
           (Raised (HTTPException 400 (str "Text cannot be empty"))), db)
    | _ :: _ =>
        let '(result, db') :=
          summarize_text_with_db U E db text style user_id document_name
            document_type file_size in
        (wrap_all (str "Internal server error: ")
           (Return (response_model
                      ["success"; "summary"; "summary_id"; "quality_metrics";
                       "processing_time"; "word_count"; "summary_word_count";
                       "message"; "warning"; "error"] result)), db')
    end
  else (Unprocessable, db).

(** [delete_user_summary_endpoint], DELETE /user/{user_id}/summary/{summary_id} *)
Definition delete_user_summary_endpoint (db : Database.t) (user_id : pystr)
    (summary_id : Z) : answer * Database.t :=
  let '(success, db') := delete_user_summary db summary_id user_id in
  (reraise_http (str "Error deleting summary: ")
     (if success
      then Return (list_to_map
                     [("message", PyStr (str "Summary deleted successfully"));
                      ("summary_id", PyInt summary_id)])
      else Raised (HTTPException 404 (str "Summary not found or access denied"))),
   db').

(** [get_user_summary_statistics], GET /user/{user_id}/statistics *)
Definition get_user_summary_statistics (db : Database.t) (user_id : pystr) : answer :=
  wrap_all (str "Error retrieving statistics: ")
    (Return (response_model
               ["total_summaries"; "total_documents"; "average_quality";
                "favorite_style"; "total_words_processed"]
               (get_user_statistics db user_id))).
End Endpoints.
End Api.

(** ** [preprocess_text] without the two rewrites that never match

    The pipeline without the repair of [|] and without the collapse of
    blank lines. *)
Definition preprocess_text_live (U : UnicodeData) (text : pystr) : pystr :=
  if is_blank text then []
  else
    let text := re_sub m_whitespace (strip text) in
    let text := re_sub (m_noise U) text in
    let text := re_sub (m_ocr U ZERO (N_of_ascii "o")) text in
    let text := re_sub (m_page U) text in
    let text := re_sub (m_line_number U) text in
    let text := re_sub m_bullet text in
    let text := re_sub m_sentence text in
    strip text.

(** The whitespace of a text is the space alone. *)
Definition only_spaces (c : N) : Prop := is_space c = true -> c = SPACE.


(** A character that [preprocess_text] lets through: one that the
    noise filter keeps, and no whitespace other than the space. *)
Definition is_clean (U : UnicodeData) (c : N) : Prop :=
  is_readable U c = true /\ only_spaces c.
(** ** Sample data *)

Definition alice : pystr := str "alice".
Definition bob : pystr := str "bob".

Definition alice_row : Database.Summary :=
  {| Database.user_id := alice;
     Database.document_name := str "abc";
     Database.document_type := str "text";
     Database.original_text := Some (str "The quarterly report");
     Database.summary := str "Short";
     Database.summary_style := str "bullet";
     Database.quality_score := Some (80 # 1);
     Database.created_at := 5;
     Database.file_size := None;
     Database.processing_time := Some (3 # 2);
     Database.word_count := Some 3%Z;
     Database.summary_word_count := Some 1%Z |}.

Definition sample_db : Database.t :=
  {| Database.table := {[ 1%Z := alice_row ]};
     Database.sequence := 1;
     Database.now := 7;
     Database.fault := None |}.

Definition failing_db : Database.t :=
  {| Database.table := ∅;
     Database.sequence := 0;
     Database.now := 7;
     Database.fault := Some (str "disk I/O error") |}.

Definition sample_service : GenerativeService :=
  {| new_model := Ok tt;
     generate_content := fun _ => Ok (str " - The key point. Done. ") |}.

Definition sample_files : FileSystem :=
  {| getcwd := str "/srv/app"; write_file := fun _ _ => Ok tt |}.

Definition sample_env : Environment :=
  {| service := sample_service;
     files := sample_files;
     start_time := 10;
     end_time := 25 # 2;
     timestamp := str "2024-01-01_00-00-00" |}.

Definition sample_text : pystr := str "Some long text here.".

(** Twenty words, and a summary of three with an indicator, a hyphen
    and a period. *)
Definition twenty_words : pystr :=
  str "w w w w w w w w w w w w w w w w w w w w".
Definition short_summary : pystr := str "key - point.".

(** A second row of alice, a row of bob, and stores that hold them. *)
Definition alice_second_row : Database.Summary :=
  {| Database.user_id := alice;
     Database.document_name := str "abc";
     Database.document_type := str "text";
     Database.original_text := None;
     Database.summary := str "Longer";
     Database.summary_style := str "bullet";
     Database.quality_score := Some (55 # 1);
     Database.created_at := 6;
     Database.file_size := None;
     Database.processing_time := None;
     Database.word_count := Some 10%Z;
     Database.summary_word_count := Some 1%Z |}.

Definition bob_row : Database.Summary :=
  {| Database.user_id := bob;
     Database.document_name := str "notes";
     Database.document_type := str "pdf";
     Database.original_text := Some (str "Meeting notes");
     Database.summary := str "Notes";
     Database.summary_style := str "abstract";
     Database.quality_score := None;
     Database.created_at := 2;
     Database.file_size := Some 12%Z;
     Database.processing_time := None;
     Database.word_count := Some 2%Z;
     Database.summary_word_count := Some 1%Z |}.

Definition shared_db : Database.t :=
  {| Database.table := {[ 1%Z := alice_row; 2%Z := bob_row; 3%Z := alice_second_row ]};
     Database.sequence := 3;
     Database.now := 7;
     Database.fault := None |}.



(** A text of eighty words, and a service that answers with
    twenty-three. *)
Definition eighty_words : pystr := concat (replicate 80 (str "w ")).
Definition wordy_service : GenerativeService :=
  {| new_model := Ok tt;
     generate_content := fun _ => Ok (concat (replicate 23 (str "s "))) |}.

(** Services that fail, that answer with a text that starts with
    "Error", and that answer with whitespace. *)
Definition failing_service : GenerativeService :=
  {| new_model := Ok tt;
     generate_content := fun _ => Raise (str "quota exceeded") |}.

Definition literal_service : GenerativeService :=
  {| new_model := Ok tt;
     generate_content := fun _ => Ok (str " Error codes are listed in the annex. ") |}.

Definition blank_service : GenerativeService :=
  {| new_model := Ok tt;
     generate_content := fun _ => Ok (str "  ") |}.

Definition env_of (G : GenerativeService) : Environment :=
  {| service := G;
     files := sample_files;
     start_time := 10;
     end_time := 25 # 2;
     timestamp := str "2024-01-01_00-00-00" |}.

(** An empty store, and the stores after a save by bob, the delete of
    the saved row, and a save by alice. *)
Definition fresh_db : Database.t :=
  {| Database.table := ∅;
     Database.sequence := 0;
     Database.now := 7;
     Database.fault := None |}.

Definition bob_new_row : Database.Summary :=
  {| Database.user_id := bob;
     Database.document_name := str "notes";
     Database.document_type := str "pdf";
     Database.original_text := None;
     Database.summary := str "Notes";
     Database.summary_style := str "abstract";
     Database.quality_score := None;
     Database.created_at := 7;
     Database.file_size := None;
     Database.processing_time := None;
     Database.word_count := None;
     Database.summary_word_count := None |}.

Definition db_after_save : Database.t :=
  {| Database.table := {[ 1%Z := bob_new_row ]};
     Database.sequence := 1;
     Database.now := 7;
     Database.fault := None |}.

Definition db_after_delete : Database.t :=
  {| Database.table := ∅;
     Database.sequence := 1;
     Database.now := 7;
     Database.fault := None |}.

Definition db_after_second_save : Database.t :=
  {| Database.table := {[ 2%Z := bob_new_row ]};
     Database.sequence := 2;
     Database.now := 7;
     Database.fault := None |}.

(** * Properties *)

(** ** Floats *)

Lemma rint_proper (x y : Q) : (x == y)%Q -> rint x = rint y.
Proof.
  intros H. unfold rint. rewrite (Qfloor_comp _ _ H).
  assert (Hd : (x - inject_Z (Qfloor y) == y - inject_Z (Qfloor y))%Q) by (by rewrite H).
  rewrite (Qleb_comp _ _ Hd _ _ (Qeq_refl (1 # 2))).
  rewrite (Qleb_comp _ _ (Qeq_refl (1 # 2)) _ _ Hd).
  reflexivity.
Qed.

Lemma Qle_bool_false (x y : Q) : Qle_bool x y = false -> (y < x)%Q.
Proof. intros H. apply Qnot_le_lt. intros Hc. apply Qle_bool_iff in Hc. congruence. Qed.


(** Between two integers it stays between them. *)
Lemma rint_between (a b : Z) (x : Q) :
  (inject_Z a <= x <= inject_Z b)%Q -> (a <= rint x <= b)%Z.
Proof.
  intros [Ha Hb]. unfold rint. set (f := Qfloor x).
  assert (Haf : (a <= f)%Z).
  { rewrite <- (Qfloor_Z a). by apply Qfloor_resp_le. }
  assert (Hfb : (f <= b)%Z).
  { rewrite <- (Qfloor_Z b). by apply Qfloor_resp_le. }
  assert (Hup : ((1 # 2) <= x - inject_Z f)%Q -> (f + 1 <= b)%Z).
  { intros Hd. assert (Hlt : (inject_Z f < inject_Z b)%Q) by lra.
    rewrite <- Zlt_Qlt in Hlt. lia. }
  destruct (Qle_bool (x - inject_Z f) (1 # 2)) eqn:H1.
  - destruct (Qle_bool (1 # 2) (x - inject_Z f)) eqn:H2; [|lia].
    apply Qle_bool_iff in H2. specialize (Hup H2). destruct (Z.even f); lia.
  - apply Qle_bool_false in H1. assert (H2 : ((1 # 2) <= x - inject_Z f)%Q) by lra.
    specialize (Hup H2). lia.
Qed.

Lemma pow2_pos (k : Z) : (0 < pow2 k)%Q.
Proof. unfold pow2. apply Qpower_0_lt. reflexivity. Qed.

Lemma pow2_add (a b : Z) : (pow2 (a + b) == pow2 a * pow2 b)%Q.
Proof. unfold pow2. apply Qpower_plus. discriminate. Qed.

Lemma pow2_nonneg_exp (k : Z) : (0 <= k)%Z -> (pow2 k == inject_Z (2 ^ k))%Q.
Proof. intros H. unfold pow2. symmetry. by apply (Zpower_Qpower 2 k). Qed.

Lemma pow2_inverse (k : Z) : (pow2 k * pow2 (- k) == 1)%Q.
Proof. rewrite <- pow2_add, Z.add_opp_diag_r. reflexivity. Qed.

(** The guess of [log2_floor] for a positive fraction [a/b] of
    integers: at most [k] when [a/b < 2^k]. *)
Lemma log2_floor_lt (q : Q) (k : Z) :
  (0 < q)%Q -> (0 <= k)%Z -> (q < pow2 k)%Q -> (log2_floor q < k)%Z.
Proof.
  intros Hq Hk Hlt. unfold log2_floor.
  set (g := (Z.log2 (Qnum q) - Z.log2 (Z.pos (Qden q)))%Z).
  destruct (Qle_bool (pow2 g) q) eqn:Hg.
  - apply Qle_bool_iff in Hg.
    apply (Qpower_lt_compat_l_inv (2 # 1)); [|reflexivity].
    fold (pow2 g). fold (pow2 k). lra.
  - assert (Hgk : (g <= k)%Z); [|lia].
    destruct q as [a b]. cbn [Qnum Qden] in *. subst g.
    assert (Ha : (0 < a)%Z).
    { unfold Qlt in Hq. cbn in Hq. lia. }
    rewrite (pow2_nonneg_exp k Hk) in Hlt. unfold Qlt in Hlt. cbn in Hlt.
    assert (Hab : (a <= Z.pos b * 2 ^ k)%Z) by lia.
    apply Z.log2_le_mono in Hab.
    rewrite Z.log2_mul_pow2 in Hab by lia. lia.
Qed.

Lemma exponent_bound (q : Q) (k : Z) :
  (0 <= k)%Z -> (Qabs q < pow2 k)%Q -> (exponent q <= k - 53)%Z.
Proof.
  intros Hk Hlt. unfold exponent.
  destruct (Qeq_dec q 0) as [H0|H0].
  - assert (Hr : Qred (Qabs q) = Qred 0).
    { apply Qred_complete. by rewrite H0. }
    rewrite Hr. vm_compute (log2_floor (Qred 0)). lia.
  - assert (Hpos : (0 < Qred (Qabs q))%Q).
    { rewrite Qred_correct.
      destruct (Q_dec q 0) as [[Hneg|Hpos]|Heq]; [| |contradiction].
      - rewrite Qabs_neg by lra. lra.
      - rewrite Qabs_pos by lra. lra. }
    assert (Hl : (log2_floor (Qred (Qabs q)) < k)%Z).
    { apply log2_floor_lt; [exact Hpos | exact Hk | by rewrite Qred_correct]. }
    lia.
Qed.




Lemma to_double_0 (q : Q) : (q == 0)%Q -> to_double q = 0%Q.
Proof. intros H. unfold to_double. apply Qeq_bool_iff in H. by rewrite H. Qed.

(** The double nearest to [q] is a multiple of [ulp q]. *)
Lemma to_double_multiple (q : Q) :
  ~ (q == 0)%Q -> (to_double q == inject_Z (rint (q / ulp q)) * ulp q)%Q.
Proof.
  intros H. unfold to_double.
  destruct (Qeq_bool q 0) eqn:Hz; [apply Qeq_bool_iff in Hz; contradiction|].
  apply Qred_correct.
Qed.


(** Between two integers of fewer than 54 bits it stays between them. *)
Lemma to_double_between (a b : Z) (q : Q) :
  (inject_Z a <= q <= inject_Z b)%Q ->
  (- 2 ^ 53 < a)%Z -> (b < 2 ^ 53)%Z ->
  (inject_Z a <= to_double q <= inject_Z b)%Q.
Proof.
  intros [Ha Hb] Hla Hhb.
  destruct (Qeq_dec q 0) as [H0|H0].
  - rewrite (to_double_0 q H0). lra.
  - rewrite (to_double_multiple q H0).
    assert (He : (exponent q <= 0)%Z).
    { assert (H : (exponent q <= 53 - 53)%Z); [|lia].
      apply exponent_bound; [lia|].
      rewrite (pow2_nonneg_exp 53) by lia.
      apply Qabs_Qlt_condition.
      assert (H1 : (inject_Z (- 2 ^ 53) < inject_Z a)%Q) by (rewrite <- Zlt_Qlt; lia).
      assert (H2 : (inject_Z b < inject_Z (2 ^ 53))%Q) by (rewrite <- Zlt_Qlt; lia).
      rewrite inject_Z_opp in H1. lra. }
    unfold ulp. set (e := exponent q) in *.
    set (N := (2 ^ (- e))%Z).
    assert (HN : (0 < N)%Z) by (apply Z.pow_pos_nonneg; lia).
    assert (HNq : (0 < inject_Z N)%Q) by (rewrite (Zlt_Qlt 0 N) in HN; exact HN).
    assert (Hinv : (pow2 e * inject_Z N == 1)%Q).
    { subst N. rewrite <- (pow2_nonneg_exp (- e)) by lia. apply pow2_inverse. }
    pose proof (pow2_pos e) as Hu. set (u := pow2 e) in *.
    assert (Hy : (q / u == q * inject_Z N)%Q).
    { assert (Hi : (/ u == inject_Z N)%Q).
      { rewrite <- (Qmult_1_r (/ u)), <- Hinv, Qmult_assoc, (Qmult_comm (/ u)).
        rewrite Qmult_inv_r by lra. ring. }
      unfold Qdiv. by rewrite Hi. }
    rewrite (rint_proper _ _ Hy).
    assert (Hbetween : (a * N <= rint (q * inject_Z N) <= b * N)%Z).
    { apply rint_between. rewrite !inject_Z_mult. split; apply Qmult_le_compat_r; lra. }
    destruct Hbetween as [H1 H2].
    rewrite Zle_Qle, inject_Z_mult in H1. rewrite Zle_Qle, inject_Z_mult in H2.
    set (m := inject_Z (rint (q * inject_Z N))) in *.
    assert (H1' : (inject_Z a * inject_Z N * u <= m * u)%Q) by (apply Qmult_le_compat_r; lra).
    assert (H2' : (m * u <= inject_Z b * inject_Z N * u)%Q) by (apply Qmult_le_compat_r; lra).
    assert (Ea : (inject_Z a * inject_Z N * u == inject_Z a)%Q).
    { rewrite <- Qmult_assoc, (Qmult_comm (inject_Z N)), Hinv. ring. }
    assert (Eb : (inject_Z b * inject_Z N * u == inject_Z b)%Q).
    { rewrite <- Qmult_assoc, (Qmult_comm (inject_Z N)), Hinv. ring. }
    lra.
Qed.





(** ** The quality evaluator *)

Section QualityFacts.
Context (U : UnicodeData).

Lemma additive_id : additive (fun st => st).
Proof. intros q fb. cbn. by rewrite Z.add_0_r, app_nil_r. Qed.

Lemma additive_compose f g : additive f -> additive g -> additive (fun st => g (f st)).
Proof.
  intros Hf Hg q fb. rewrite (Hf q fb).
  rewrite (Hg (q + _)%Z (fb ++ _)).
  destruct (f (0%Z, [])) as [qf ff] eqn:Ef. cbn [fst snd].
  rewrite (Hg qf ff). cbn [fst snd].
  f_equal; [lia | by rewrite app_assoc].
Qed.

Ltac additive_cases :=
  intros q fb; cbn;
  repeat match goal with
         | |- context [if ?b then _ else _] => destruct b
         end;
  cbn; f_equal; rewrite ?app_nil_r; try lia; try reflexivity.

Lemma additive_indicator s : additive (indicator_check U s).
Proof. unfold indicator_check. additive_cases. Qed.
Lemma additive_structure s : additive (structure_check s).
Proof. unfold structure_check. additive_cases. Qed.
Lemma additive_length n : additive (length_check n).
Proof. unfold length_check. additive_cases. Qed.
Lemma additive_sentence s : additive (sentence_check s).
Proof. unfold sentence_check. additive_cases. Qed.
Lemma additive_compression r : additive (compression_check r).
Proof. unfold compression_check. additive_cases. Qed.

Lemma additive_signals s :
  additive (fun st => sentence_check s (length_check (len (split_ws s))
                        (structure_check s (indicator_check U s st)))).
Proof.
  apply (additive_compose (fun st => length_check _ (structure_check s (indicator_check U s st)))
           (sentence_check s)); [|apply additive_sentence].
  apply (additive_compose (fun st => structure_check s (indicator_check U s st))
           (length_check _)); [|apply additive_length].
  apply (additive_compose (indicator_check U s) (structure_check s));
    [apply additive_indicator | apply additive_structure].
Qed.

(** The report on two strings, with the score and the notes split
    into the part of the compression check and the part of the other
    signals. *)
Lemma evaluate_on_strings (original summary : pystr) :
  let r := compression_ratio_of (len (split_ws original)) (len (split_ws summary)) in
  let c := compression_check r (0%Z, []) in
  exists notes,
    evaluate_body U (PyStr original) (PyStr summary) =
    Ok (list_to_map
          [("quality_score", PyInt (fst c + signal_points U summary));
           ("overall_rating", PyStr (rating_of (fst c + signal_points U summary)));
           ("compression_ratio",
             if (len (split_ws original) >? 0)%Z
             then PyFloat (round_float (to_double (to_double r * 100)) 1)
             else PyInt 0);
           ("original_length", PyInt (len (split_ws original)));
           ("summary_length", PyInt (len (split_ws summary)));
           ("feedback", PyList (List.map PyStr (snd c ++ notes)));
           ("suggestions",
             PyList (List.map PyStr
               (get_improvement_suggestions (fst c + signal_points U summary) r)))]).
Proof.
  intros r c. unfold evaluate_body. cbn [as_str bind].
  fold r. fold c.
  pose proof (additive_signals summary (fst c) (snd c)) as H.
  cbv beta in H. rewrite <- surjective_pairing in H.
  fold (signal_points U summary) in H.
  rewrite H.
  eexists. reflexivity.
Qed.

Lemma signal_points_bounds s : (0 <= signal_points U s <= 75)%Z.
Proof.
  unfold signal_points, sentence_check, length_check, structure_check, indicator_check.
  repeat match goal with
         | |- context [if ?b then _ else _] => destruct b
         end; cbn; lia.
Qed.

Lemma compression_check_cases r :
  (Qle_bool (5 # 100) r && Qle_bool r (4 # 10) = true
     /\ compression_check r (0%Z, []) = (25%Z, [note_good]))
  \/ (Qle_bool (5 # 100) r = false
     /\ compression_check r (0%Z, []) = (0%Z, [note_brief]))
  \/ (Qle_bool r (4 # 10) = false /\ Qle_bool (5 # 100) r = true
     /\ compression_check r (0%Z, []) = (0%Z, [note_verbose])).
Proof.
  unfold compression_check.
  destruct (Qle_bool (5 # 100) r) eqn:E1, (Qle_bool r (4 # 10)) eqn:E2; cbn; auto.
Qed.

(** The ratio as the specification words it. *)
Lemma ratio_as_specified (original summary : pystr) :
  compression_ratio_of (len (split_ws original)) (len (split_ws summary)) =
  if bool_decide (split_ws original = [])
  then 0%Q
  else (inject_Z (len (split_ws summary)) / inject_Z (len (split_ws original)))%Q.
Proof.
  unfold compression_ratio_of, len.
  destruct (split_ws original) as [|w ws]; [reflexivity|].
  rewrite bool_decide_eq_false_2 by discriminate.
  replace (Z.of_nat (List.length (w :: ws)) >? 0)%Z with true; [reflexivity|].
  symmetry. apply Z.gtb_lt. cbn [List.length]. lia.
Qed.

(** C3. The score of a (source, summary) pair is the compression
    bonus plus the points of the signals that read the summary alone,
    and the bonus is 25 exactly when the ratio of the word counts
    (0 for a source without words) lies in [0.05, 0.4]; it is 0
    otherwise, with the note "too brief" below 0.05 and the note
    "too verbose" above 0.4. *)
Theorem compression_bonus_iff_ratio_in_band (original summary : pystr) :
  let r := if bool_decide (split_ws original = [])
           then 0%Q
           else (inject_Z (len (split_ws summary))
                 / inject_Z (len (split_ws original)))%Q in
  let report := evaluate_summary_quality U (PyStr original) (PyStr summary) in
  exists (bonus : Z) (note : pystr) (notes : list pystr),
    report !! "quality_score" = Some (PyInt (bonus + signal_points U summary))
    /\ report !! "feedback" = Some (PyList (List.map PyStr (note :: notes)))
    /\ (bonus = 25%Z <-> (5 # 100 <= r /\ r <= 4 # 10)%Q)
    /\ (bonus = 25%Z \/ bonus = 0%Z)
    /\ ((5 # 100 <= r /\ r <= 4 # 10)%Q -> note = note_good)
    /\ ((r < 5 # 100)%Q -> note = note_brief)
    /\ ((4 # 10 < r)%Q -> note = note_verbose).
Proof.
  intros r report. subst report. unfold evaluate_summary_quality.
  destruct (evaluate_on_strings original summary) as [notes ->].
  cbn [try_except]. rewrite ratio_as_specified. fold r.
  destruct (compression_check_cases r) as [[Hb ->] | [[Hb ->] | (Hb & Hb' & ->)]];
    cbn [fst snd].
  - apply andb_true_iff in Hb as [H1 H2].
    apply Qle_bool_iff in H1, H2.
    exists 25%Z, note_good, notes. split_and!; auto.
    + split; auto.
    + intros Hlt. exfalso. apply (Qlt_not_le _ _ Hlt H1).
    + intros Hlt. exfalso. apply (Qlt_not_le _ _ Hlt H2).
  - assert (Hlt : ~ (5 # 100 <= r)%Q).
    { intros H. apply Qle_bool_iff in H. congruence. }
    exists 0%Z, note_brief, notes. split_and!; auto.
    + split; [discriminate | intros [H _]; contradiction].
    + intros [H _]. contradiction.
    + intros H. exfalso. apply Hlt. apply Qlt_le_weak.
      apply Qle_lt_trans with (4 # 10); [|exact H]. discriminate.
  - assert (Hgt : ~ (r <= 4 # 10)%Q).
    { intros H. apply Qle_bool_iff in H. congruence. }
    apply Qle_bool_iff in Hb'.
    exists 0%Z, note_verbose, notes. split_and!; auto.
    + split; [discriminate | intros [_ H]; contradiction].
    + intros [_ H]. contradiction.
    + intros H. exfalso. apply (Qlt_not_le _ _ H Hb').
Qed.

(** C4. The score of a (source, summary) pair lies in [0, 100], and
    the rating follows the inclusive thresholds 80, 60 and 40. *)
Theorem quality_score_range_and_rating (original summary : pystr) :
  let report := evaluate_summary_quality U (PyStr original) (PyStr summary) in
  exists (score : Z) (rating : pystr),
    report !! "quality_score" = Some (PyInt score)
    /\ report !! "overall_rating" = Some (PyStr rating)
    /\ (0 <= score <= 100)%Z
    /\ ((80 <= score)%Z -> rating = str "Excellent")
    /\ ((60 <= score < 80)%Z -> rating = str "Good")
    /\ ((40 <= score < 60)%Z -> rating = str "Fair")
    /\ ((score < 40)%Z -> rating = str "Needs Improvement").
Proof.
  intros report. subst report. unfold evaluate_summary_quality.
  destruct (evaluate_on_strings original summary) as [notes ->].
  cbn [try_except].
  set (r := compression_ratio_of _ _).
  set (score := (fst (compression_check r (0%Z, [])) + signal_points U summary)%Z).
  exists score, (rating_of score).
  assert (Hs : (0 <= score <= 100)%Z).
  { subst score. pose proof (signal_points_bounds summary).
    destruct (compression_check_cases r) as [[_ ->] | [[_ ->] | (_ & _ & ->)]];
      cbn [fst]; lia. }
  split; [reflexivity|]. split; [reflexivity|]. split; [exact Hs|].
  unfold rating_of.
  split; [|split; [|split]]; intros H;
    repeat match goal with
           | |- context [(?a >=? ?b)%Z] =>
               let E := fresh in destruct (Z.geb_spec a b) as [E|E]
           end; try reflexivity; lia.
Qed.

(** C5. The evaluator returns a report on every pair of values; when
    its computation fails, the report has score 0, rating "Error" and
    a note with the text of the failure. *)
Theorem evaluation_never_raises (original_text summary : pyval) :
  let report := evaluate_summary_quality U original_text summary in
  (exists (score : Z) (rating : pystr),
      report !! "quality_score" = Some (PyInt score)
      /\ report !! "overall_rating" = Some (PyStr rating))
  /\ (forall e, evaluate_body U original_text summary = Raise e ->
        report !! "quality_score" = Some (PyInt 0)
        /\ report !! "overall_rating" = Some (PyStr (str "Error"))
        /\ report !! "error" = Some (PyStr (str "Error evaluating summary: " ++ e))
        /\ size report = 3%nat).
Proof.
  intros report. subst report. unfold evaluate_summary_quality. split.
  - destruct original_text, summary;
      try (cbn; eexists _, _; split; reflexivity).
    destruct (evaluate_on_strings s s0) as [notes ->]. cbn [try_except].
    eexists _, _. split; reflexivity.
  - intros e ->. cbn [try_except]. split_and!; reflexivity.
Qed.
End QualityFacts.

(** ** The summary generator *)

Lemma blank_preprocesses_to_empty U (text : pystr) :
  is_blank text = true -> preprocess_text U text = [].
Proof. intros H. unfold preprocess_text. by rewrite H. Qed.

Section GenerationFacts.
Context (U : UnicodeData) (G : GenerativeService).

(** C6. A text that is blank, or that preprocessing empties, makes
    [summarize_text] return one of its two empty-input failures, and
    the generative service is not invoked. *)
Theorem empty_input_fails_without_generation (text style : pystr) :
  is_blank text = true \/ preprocess_text U text = [] ->
  let '(answer, prompts) := summarize_text U G text style in
  prompts = []
  /\ (answer = str "Error: No text provided for summarization"
      \/ answer = str "Error: Text preprocessing resulted in empty content")
  /\ startswith (str "Error") answer = true.
Proof.
  intros H. unfold summarize_text.
  destruct (is_blank text) eqn:Hb.
  - split_and!; auto.
  - destruct H as [H | H]; [discriminate|]. rewrite H.
    split_and!; auto.
Qed.
End GenerationFacts.

(** C10. There are texts that are not blank and that preprocessing
    empties: one made of characters outside the readable set, and a
    lone page token. The generator answers them with its failure for
    empty preprocessed content, without invoking the service. *)
Theorem preprocessing_can_empty_a_nonblank_text :
  exists x y : pystr,
    x = str "@#$" /\ y = str "Page 12"
    /\ is_blank x = false /\ is_blank y = false
    /\ Forall (fun c => is_space c = false) x
    /\ (forall U, preprocess_text U x = [] /\ preprocess_text U y = [])
    /\ (forall U G style,
          summarize_text U G x style
          = (str "Error: Text preprocessing resulted in empty content", [])
          /\ summarize_text U G y style
          = (str "Error: Text preprocessing resulted in empty content", [])).
Proof.
  exists (str "@#$"), (str "Page 12").
  split_and!; try reflexivity.
  - repeat constructor.
  - intros U. split; reflexivity.
  - intros U G style. split; reflexivity.
Qed.

(** ** The orchestrator *)

Lemma save_summary_raises (db : Database.t) (e : exn)
    u dn dt ot sm st qs fs pt wc swc :
  Database.fault db = Some e ->
  Database.save_summary db u dn dt ot sm st qs fs pt wc swc = Raise e.
Proof.
  intros Hf. unfold Database.save_summary, Database.with_connection. by rewrite Hf.
Qed.

Section ServiceFacts.
Context (U : UnicodeData) (E : Environment).

End ServiceFacts.

(** ** The store *)

Section StoreFacts.
Import Database.

Lemma rows_lookup (s : t) (i : Z) (r : Summary) :
  (i, r) ∈ rows s <-> table s !! i = Some r.
Proof. unfold rows. apply elem_of_map_to_list. Qed.

(** A key selects at most one row. *)
Lemma filter_by_key (l : list Row) (i : Z) (r : Summary) :
  NoDup (l.*1) -> (i, r) ∈ l ->
  filter (fun x : Row => fst x = i) l = [(i, r)].
Proof.
  induction l as [|[j x] l IH]; intros Hnd Hin.
  - by apply elem_of_nil in Hin.
  - cbn in Hnd. apply NoDup_cons in Hnd as [Hj Hnd].
    apply elem_of_cons in Hin as [Heq | Hin].
    + inversion Heq; subst j x.
      rewrite filter_cons_True by done. f_equal.
      assert (Hnone : forall y : Row, y ∈ l -> fst y <> i).
      { intros [k y] Hy Hk. cbn in Hk. subst k.
        apply Hj. apply list_elem_of_fmap. by exists (i, y). }
      clear -Hnone. induction l as [|y l IH]; [done|].
      rewrite filter_cons_False.
      * apply IH. intros z Hz. apply Hnone. by right.
      * apply Hnone. by left.
    + assert (j <> i).
      { intros ->. apply Hj. apply list_elem_of_fmap. by exists (i, r). }
      rewrite filter_cons_False by done. by apply IH.
Qed.

Lemma filter_by_missing_key (l : list Row) (i : Z) :
  (forall r, (i, r) ∉ l) -> filter (fun x : Row => fst x = i) l = [].
Proof.
  intros H. induction l as [|[j x] l IH]; [done|].
  rewrite filter_cons_False.
  - apply IH. intros r Hr. apply (H r). by right.
  - cbn. intros ->. apply (H x). by left.
Qed.

Lemma get_summary_by_id_found (s : t) (i : Z) (r : Summary) :
  fault s = None -> table s !! i = Some r ->
  get_summary_by_id s i = Ok (Some (i, r)).
Proof.
  intros Hf Hr. unfold get_summary_by_id, with_connection. rewrite Hf.
  rewrite (filter_by_key _ i r); [done | apply NoDup_fst_map_to_list |].
  by apply rows_lookup.
Qed.

Lemma get_summary_by_id_missing (s : t) (i : Z) :
  fault s = None -> table s !! i = None ->
  get_summary_by_id s i = Ok None.
Proof.
  intros Hf Hr. unfold get_summary_by_id, with_connection. rewrite Hf.
  rewrite filter_by_missing_key; [done|].
  intros r Hin. apply rows_lookup in Hin. congruence.
Qed.

#[local] Instance row_order_total : Total row_order.
Proof. intros a b. unfold row_order. lia. Qed.
#[local] Instance row_order_trans : Transitive row_order.
Proof. intros a b c. unfold row_order. lia. Qed.

Lemma row_order_newer_first (a b : Row) : row_order a b -> newer_first a b.
Proof. unfold row_order, newer_first. lia. Qed.

(** The rows come newest first, and by ascending id among the rows of
    one [created_at]. *)
Lemma order_by_row_order (l : list Row) :
  StronglySorted row_order (order_by_created_at_desc l).
Proof. apply StronglySorted_merge_sort; apply _. Qed.

Lemma elem_of_order_by (l : list Row) (x : Row) :
  x ∈ order_by_created_at_desc l <-> x ∈ l.
Proof. unfold order_by_created_at_desc. by rewrite merge_sort_Permutation. Qed.

Lemma length_order_by (l : list Row) :
  List.length (order_by_created_at_desc l) = List.length l.
Proof. unfold order_by_created_at_desc. by rewrite merge_sort_Permutation. Qed.

Lemma order_by_sorted (l : list Row) :
  StronglySorted newer_first (order_by_created_at_desc l).
Proof.
  induction (order_by_row_order l) as [|x l' Hl IH Hx]; constructor; [exact IH|].
  eapply Forall_impl; [exact Hx|]. intros y. apply row_order_newer_first.
Qed.

Lemma sql_limit_all {A} (limit : Z) (l : list A) :
  (limit < 0 \/ len l <= limit)%Z -> sql_limit limit l = l.
Proof.
  intros H. unfold sql_limit.
  destruct (Z.ltb_spec limit 0) as [|Hge]; [done|].
  apply take_ge. unfold len in H. lia.
Qed.

Lemma elem_of_sql_limit {A} (limit : Z) (l : list A) (x : A) :
  x ∈ sql_limit limit l -> x ∈ l.
Proof.
  unfold sql_limit. destruct (limit <? 0)%Z; [done|].
  intros (i & Hi & _)%elem_of_take. by eapply list_elem_of_lookup_2.
Qed.

Lemma sql_offset_0 {A} (l : list A) : sql_offset 0 l = l.
Proof. reflexivity. Qed.

Lemma elem_of_sql_offset {A} (offset : Z) (l : list A) (x : A) :
  x ∈ sql_offset offset l -> x ∈ l.
Proof.
  unfold sql_offset. intros (i & Hi)%list_elem_of_lookup_1.
  rewrite lookup_drop in Hi. by eapply list_elem_of_lookup_2.
Qed.

(** What the DELETE statement leaves. *)
Lemma delete_keeps_foreign_rows (m : gmap Z Summary) (i : Z) (r : Summary) (b : pystr) :
  m !! i = Some r -> user_id r <> b ->
  filter (fun x : Row => ~ delete_where i b x) m = m.
Proof.
  intros Hr Hne. apply map_filter_id. intros j x Hx [Hj Ho].
  cbn in Hj. subst j. unfold owned_by in Ho. cbn in Ho. congruence.
Qed.

Lemma delete_removes_own_row (m : gmap Z Summary) (i : Z) (r : Summary) :
  m !! i = Some r ->
  filter (fun x : Row => ~ delete_where i (user_id r) x) m = delete i m.
Proof.
  intros Hr. apply map_eq. intros j.
  destruct (decide (j = i)) as [->|Hne].
  - rewrite lookup_delete_eq. apply map_lookup_filter_None. right.
    intros x Hx Hn. apply Hn. split; [done|]. unfold owned_by. cbn. congruence.
  - rewrite lookup_delete_ne by done.
    destruct (m !! j) as [x|] eqn:Hx.
    + apply map_lookup_filter_Some. split; [done|]. intros [Hj _]. by apply Hne.
    + apply map_lookup_filter_None. by left.
Qed.

Lemma no_delete_match (l : list Row) (i : Z) (b : pystr) :
  (forall x, x ∈ l -> ~ delete_where i b x) -> filter (delete_where i b) l = [].
Proof.
  intros H. induction l as [|x l IH]; [done|].
  rewrite filter_cons_False by (apply H; by left).
  apply IH. intros y Hy. apply H. by right.
Qed.

Lemma bindable_stored (s : t) (i : Z) (r : Summary) :
  table s !! i = Some r -> bindable_id s i = true.
Proof.
  intros Hr. unfold bindable_id. rewrite (bool_decide_true (is_Some (table s !! i))).
  - apply orb_true_r.
  - by exists r.
Qed.

(** C7. For a row [i] of user [a]: a delete by another user [b]
    returns false and leaves the store as it is, so the row is still
    returned by [get_summary_by_id] and by the listing of [a]; a
    delete by [a] returns true and removes the row from both. *)
Theorem delete_requires_owner (s : t) (i : Z) (r : Summary) (a b : pystr) :
  fault s = None ->
  table s !! i = Some r ->
  user_id r = a ->
  b <> a ->
  (delete_summary s i b = Ok (false, s)
   /\ get_summary_by_id s i = Ok (Some (i, r))
   /\ (forall limit, (limit < 0 \/ len (rows s) <= limit)%Z ->
         exists l, get_user_summaries s a limit 0 = Ok l /\ (i, r) ∈ l))
  /\ (exists s',
        delete_summary s i a = Ok (true, s')
        /\ get_summary_by_id s' i = Ok None
        /\ (forall limit offset, exists l,
              get_user_summaries s' a limit offset = Ok l
              /\ forall r', (i, r') ∉ l)
        /\ (forall j, j <> i -> table s' !! j = table s !! j)).
Proof.
  intros Hf Hr Ha Hne. split; [split_and!|].
  - unfold delete_summary, with_connection. rewrite Hf, (bindable_stored s i r Hr).
    rewrite (delete_keeps_foreign_rows _ i r) by congruence.
    rewrite no_delete_match.
    + destruct s; cbn in *. subst. reflexivity.
    + intros [j x] Hx [Hj Ho]. cbn in Hj. subst j.
      apply rows_lookup in Hx. unfold owned_by in Ho. cbn in Ho. congruence.
  - by apply get_summary_by_id_found.
  - intros limit Hl. unfold get_user_summaries, with_connection. rewrite Hf.
    eexists. split; [reflexivity|].
    rewrite sql_offset_0, sql_limit_all.
    + apply elem_of_order_by, list_elem_of_filter. split; [exact Ha|].
      by apply rows_lookup.
    + destruct Hl as [Hl | Hl]; [by left | right].
      unfold len in *. rewrite length_order_by.
      pose proof (length_filter (owned_by a) (rows s)). lia.
  - set (s' := {| table := delete i (table s); sequence := sequence s;
                  now := now s; fault := fault s |}).
    exists s'. split_and!.
    + unfold delete_summary, with_connection. rewrite Hf, (bindable_stored s i r Hr).
      subst a. rewrite (delete_removes_own_row _ i r) by done.
      f_equal. f_equal; [|subst s'; by rewrite Hf].
      apply Z.gtb_lt. unfold len.
      assert (Hin : (i, r) ∈ filter (delete_where i (user_id r)) (rows s)).
      { apply list_elem_of_filter. split; [by split|]. by apply rows_lookup. }
      destruct (filter _ _); [by apply elem_of_nil in Hin | cbn; lia].
    + apply get_summary_by_id_missing; [done|]. cbn. apply lookup_delete_eq.
    + intros limit offset. unfold get_user_summaries, with_connection.
      cbn [fault s']. rewrite Hf. eexists. split; [reflexivity|].
      intros r' Hin.
      apply (elem_of_sql_limit limit) in Hin.
      apply (elem_of_sql_offset offset) in Hin.
      apply (proj1 (elem_of_order_by _ _)) in Hin.
      apply list_elem_of_filter in Hin as [_ Hin].
      apply rows_lookup in Hin. cbn in Hin. by rewrite lookup_delete_eq in Hin.
    + intros j Hj. cbn. by apply lookup_delete_ne.
Qed.

(** [round] gives equal rationals the same result. *)
Lemma py_round_proper (x y : Q) (n : nat) : (x == y)%Q -> py_round x n = py_round y n.
Proof.
  intros H. unfold py_round.
  set (scale := inject_Z (10 ^ Z.of_nat n)).
  assert (Hm : (x * scale == y * scale)%Q) by (by rewrite H).
  rewrite (Qfloor_comp _ _ Hm).
  assert (Hd : (x * scale - inject_Z (Qfloor (y * scale))
                == y * scale - inject_Z (Qfloor (y * scale)))%Q) by (by rewrite Hm).
  rewrite (Qleb_comp _ _ Hd _ _ (Qeq_refl (1 # 2))).
  rewrite (Qleb_comp _ _ (Qeq_refl (1 # 2)) _ _ Hd).
  reflexivity.
Qed.

Lemma no_rows_of_user (s : t) (u : pystr) :
  (forall i r, table s !! i = Some r -> user_id r <> u) ->
  filter (owned_by u) (rows s) = [].
Proof.
  intros H. generalize (fun i r => proj1 (rows_lookup s i r)).
  induction (rows s) as [|[j x] l IH]; intros Hl; [done|].
  rewrite filter_cons_False.
  - apply IH. intros i r Hin. apply Hl. by right.
  - unfold owned_by. cbn. apply (H j). apply Hl. by left.
Qed.




(** *** LIKE and substrings *)

Lemma pattern_compare_percent (p t : pystr) :
  pattern_compare (PERCENT :: p) t
  = pattern_compare p t
    || match t with [] => false | _ :: t' => pattern_compare (PERCENT :: p) t' end.
Proof. destruct t; reflexivity. Qed.

Lemma pattern_compare_only_percent (t : pystr) : pattern_compare [PERCENT] t = true.
Proof.
  induction t as [|c t IH]; [reflexivity|].
  rewrite pattern_compare_percent, IH. apply orb_true_r.
Qed.

Lemma pattern_compare_literal (p : N) (q t : pystr) :
  p <> PERCENT -> p <> UNDERSCORE ->
  pattern_compare (p :: q) t
  = match t with
    | [] => false
    | c :: t' => (tolower p =? tolower c) && pattern_compare q t'
    end.
Proof.
  intros H1%N.eqb_neq H2%N.eqb_neq. cbn [pattern_compare]. rewrite H1.
  destruct t; [reflexivity|]. by rewrite H2.
Qed.

Lemma pattern_compare_prefix (q t : pystr) :
  PERCENT ∉ q -> UNDERSCORE ∉ q ->
  pattern_compare (q ++ [PERCENT]) t
  = startswith (List.map tolower q) (List.map tolower t).
Proof.
  revert t. induction q as [|a q IH]; intros t H1 H2.
  - cbn [app List.map startswith]. apply pattern_compare_only_percent.
  - apply not_elem_of_cons in H1 as [Ha1 H1], H2 as [Ha2 H2].
    cbn [app]. rewrite pattern_compare_literal by done.
    destruct t as [|c t]; [reflexivity|].
    cbn [List.map startswith]. by rewrite IH.
Qed.

Lemma pattern_compare_is_substring (q t : pystr) :
  PERCENT ∉ q -> UNDERSCORE ∉ q ->
  pattern_compare ([PERCENT] ++ q ++ [PERCENT]) t = ci_substring q t.
Proof.
  intros H1 H2. unfold ci_substring. cbn [app].
  induction t as [|c t IH].
  - rewrite pattern_compare_percent, pattern_compare_prefix by done.
    cbn [List.map contains]. by rewrite orb_false_r.
  - rewrite pattern_compare_percent, pattern_compare_prefix, IH by done. reflexivity.
Qed.

(** A string without U+0000 is read whole. *)
Lemma c_string_whole (s : pystr) : NUL ∉ s -> c_string s = s.
Proof.
  induction s as [|c r IH]; [done|]. intros [Hc Hr]%not_elem_of_cons.
  cbn [c_string]. destruct (N.eqb_spec c NUL); [done|]. by rewrite IH.
Qed.

Lemma like_is_substring (q t : pystr) :
  PERCENT ∉ q -> UNDERSCORE ∉ q -> NUL ∉ q -> NUL ∉ t ->
  like ([PERCENT] ++ q ++ [PERCENT]) t = ci_substring q t.
Proof.
  intros H1 H2 H3 H4. unfold like. rewrite !c_string_whole; [|exact H4|].
  - by apply pattern_compare_is_substring.
  - rewrite !not_elem_of_app, !not_elem_of_cons. split_and!; try done; apply not_elem_of_nil.
Qed.

(** [contains] is the substring relation. *)
Lemma startswith_prefix (p s : pystr) :
  startswith p s = true <-> exists post, s = p ++ post.
Proof.
  revert s. induction p as [|a p IH]; intros s.
  - cbn. split; [intros _; by exists s | done].
  - destruct s as [|b s]; cbn [startswith].
    + split; [done | intros [post H]; discriminate].
    + rewrite andb_true_iff, N.eqb_eq, IH. split.
      * intros [-> [post ->]]. by exists post.
      * intros [post H]. inversion H; subst. split; [done | by exists post].
Qed.

Lemma contains_substring (p s : pystr) :
  contains p s = true <-> exists pre post, s = pre ++ p ++ post.
Proof.
  induction s as [|c s IH].
  - cbn [contains]. rewrite orb_false_r, startswith_prefix. split.
    + intros [post H]. by exists [], post.
    + intros (pre & post & H). symmetry in H.
      apply app_eq_nil in H as [-> H]. by exists post.
  - cbn [contains]. rewrite orb_true_iff, startswith_prefix, IH. split.
    + intros [[post H] | (pre & post & ->)].
      * by exists [], post.
      * by exists (c :: pre), post.
    + intros (pre & post & H). destruct pre as [|c' pre].
      * left. by exists post.
      * right. inversion H; subst. by exists pre, post.
Qed.

Lemma search_where_spec (u q : pystr) (r : Row) :
  PERCENT ∉ q -> UNDERSCORE ∉ q -> NUL ∉ q -> no_nul r.2 ->
  search_where u ([PERCENT] ++ q ++ [PERCENT]) r = true
  <-> owned_by u r /\ field_match q r = true.
Proof.
  intros H1 H2 H3 (Hn & Hs & Ht).
  unfold search_where, field_match, like_null, ci_substring_null.
  rewrite andb_true_iff, bool_decide_eq_true, !like_is_substring by done.
  destruct (original_text r.2) as [text|]; [|done].
  rewrite like_is_substring; [done..|]. by apply Ht.
Qed.

Lemma filter_agree {A} (P Q : A -> Prop) `{!forall x, Decision (P x)}
    `{!forall x, Decision (Q x)} (l : list A) :
  (forall x, x ∈ l -> P x <-> Q x) -> filter P l = filter Q l.
Proof.
  induction l as [|x l IH]; intros Hl; [done|].
  rewrite !filter_cons. rewrite IH by (intros y Hy; apply Hl; by right).
  destruct (decide (P x)) as [HP|HP], (decide (Q x)) as [HQ|HQ]; try done.
  - exfalso. apply HQ, (Hl x); [by left | done].
  - exfalso. apply HP, (Hl x); [by left | done].
Qed.

Lemma sorted_sql_limit (limit : Z) (l : list Row) :
  StronglySorted newer_first l -> StronglySorted newer_first (sql_limit limit l).
Proof.
  unfold sql_limit. destruct (limit <? 0)%Z; [done|]. intros H.
  rewrite <- (take_drop (Z.to_nat limit) l) in H.
  by apply StronglySorted_app_1_l in H.
Qed.

(** C9, as amended. For a query without the LIKE wildcards [%] and
    [_] and without U+0000, short enough for SQLite to accept the
    pattern (at most 49998 bytes of UTF-8), a limit that fits in 64
    bits, and when the searched columns of the rows of the user hold
    no U+0000, the search returns the rows of the user in which the
    query is a substring of the document name, the summary or the
    stored excerpt, the case of ASCII letters ignored: newest first,
    cut at the limit. In particular it returns nothing when no row of
    the user matches. *)
Theorem search_is_substring_search_without_wildcards
    (s : t) (u query : pystr) (limit : Z) :
  fault s = None ->
  PERCENT ∉ query ->
  UNDERSCORE ∉ query ->
  NUL ∉ query ->
  like_accepts ([PERCENT] ++ query ++ [PERCENT]) ->
  fits_int64 limit = true ->
  (forall i r, table s !! i = Some r -> user_id r = u -> no_nul r) ->
  exists found,
    search_summaries s u query limit = Ok found
    /\ found = search_spec s u query limit
    /\ StronglySorted newer_first found
    /\ (forall r, r ∈ found ->
          r ∈ rows s /\ owned_by u r /\ field_match query r = true)
    /\ ((limit < 0 \/ len (rows s) <= limit)%Z ->
        forall r, r ∈ rows s -> owned_by u r -> field_match query r = true ->
                  r ∈ found)
    /\ ((forall r, r ∈ rows s -> field_match query r = true -> ~ owned_by u r) ->
        found = []).
Proof.
  intros Hf H1 H2 H3 _ _ Hnul. unfold search_summaries, with_connection. rewrite Hf.
  eexists. split; [reflexivity|].
  assert (Heq : filter (fun r => search_where u ([PERCENT] ++ query ++ [PERCENT]) r = true)
                  (rows s)
                = filter (fun r => owned_by u r /\ field_match query r = true) (rows s)).
  { apply filter_agree. intros [i r] Hin.
    destruct (decide (user_id r = u)) as [Hu|Hu].
    - apply search_where_spec; try done. apply (Hnul i r); [by apply rows_lookup | exact Hu].
    - unfold search_where, owned_by. cbn [snd].
      rewrite andb_true_iff, bool_decide_eq_true. tauto. }
  rewrite Heq. fold (search_spec s u query limit). unfold search_spec.
  split_and!.
  - reflexivity.
  - apply sorted_sql_limit, order_by_sorted.
  - intros r Hin. apply (elem_of_sql_limit limit) in Hin.
    apply (proj1 (elem_of_order_by _ _)) in Hin.
    apply list_elem_of_filter in Hin. tauto.
  - intros Hl r Hin Ho Hm. rewrite sql_limit_all.
    + apply elem_of_order_by, list_elem_of_filter. tauto.
    + destruct Hl as [Hl | Hl]; [by left | right].
      unfold len in *. rewrite length_order_by.
      pose proof (length_filter (fun r => owned_by u r /\ field_match query r = true)
                    (rows s)). lia.
  - intros Hnone.
    assert (filter (fun r => owned_by u r /\ field_match query r = true) (rows s) = [])
      as ->; [|unfold sql_limit; destruct (limit <? 0)%Z; [done | apply take_nil]].
    clear Heq. revert Hnone.
    induction (rows s) as [|x l IH]; intros Hnone; [done|].
    rewrite filter_cons_False.
    + apply IH. intros r Hr. apply Hnone. by right.
    + intros [Ho Hm]. apply (Hnone x); [by left | done | done].
Qed.
End StoreFacts.

(** ** Preprocessing *)

Section WhitespaceFacts.

(** The first rewrite is [collapse_from]. *)
Lemma re_sub_whitespace_collapse (s : pystr) :
  forall prev,
    re_sub_from m_whitespace prev (span_len is_space s) s = collapse_from true s
    /\ re_sub_from m_whitespace prev O s = collapse_from false s.
Proof.
  induction s as [|c r IH]; intros prev; [done|].
  destruct (IH (Some c)) as [IH1 IH2].
  assert (Hm : m_whitespace prev (c :: r)
               = if is_space c then Some (S (span_len is_space r), [SPACE]) else None).
  { unfold m_whitespace. cbn [span_len]. by destruct (is_space c). }
  cbn [span_len collapse_from re_sub_from]. rewrite Hm.
  destruct (is_space c) eqn:Hc.
  - cbn [app]. by rewrite IH1.
  - by rewrite IH2.
Qed.

Lemma re_sub_whitespace (s : pystr) :
  re_sub m_whitespace s = collapse_from false s.
Proof. apply re_sub_whitespace_collapse. Qed.

Lemma collapse_idempotent (s : pystr) :
  collapse_from false (collapse_from false s) = collapse_from false s
  /\ collapse_from true (collapse_from true s) = collapse_from true s.
Proof.
  induction s as [|c r [IHf IHt]]; [done|].
  cbn [collapse_from]. destruct (is_space c) eqn:Hc.
  - split; [|done]. cbn [collapse_from].
    change (is_space SPACE) with true. cbn iota. by rewrite IHt.
  - cbn [collapse_from]. rewrite Hc, IHf. done.
Qed.

Lemma lstrip_starts_clean (s : pystr) : starts_clean (lstrip s).
Proof.
  induction s as [|c r IH]; [done|]. cbn [lstrip].
  destruct (is_space c) eqn:Hc; [done | exact Hc].
Qed.

Lemma starts_clean_lstrip (s : pystr) : starts_clean s -> lstrip s = s.
Proof. destruct s as [|c r]; [done|]. cbn. by intros ->. Qed.

Lemma rstrip_cons (c : N) (r : pystr) :
  rstrip (c :: r)
  = match rstrip r with
    | [] => if is_space c then [] else [c]
    | r' => c :: r'
    end.
Proof. reflexivity. Qed.

Lemma rstrip_starts_clean (s : pystr) : starts_clean s -> starts_clean (rstrip s).
Proof.
  destruct s as [|c r]; [done|]. intros Hc. cbn in Hc.
  rewrite rstrip_cons. destruct (rstrip r); [by rewrite Hc | done].
Qed.

Lemma rstrip_idempotent (s : pystr) : rstrip (rstrip s) = rstrip s.
Proof.
  induction s as [|c r IH]; [done|].
  rewrite rstrip_cons. destruct (rstrip r) as [|d r'] eqn:Hr.
  - destruct (is_space c) eqn:Hc; [done|]. rewrite rstrip_cons. cbn. by rewrite Hc.
  - rewrite rstrip_cons, IH. done.
Qed.

Lemma strip_idempotent (s : pystr) : strip (strip s) = strip s.
Proof.
  unfold strip.
  rewrite (starts_clean_lstrip (rstrip (lstrip s)))
    by apply rstrip_starts_clean, lstrip_starts_clean.
  apply rstrip_idempotent.
Qed.

Lemma collapse_starts_clean (b : bool) (s : pystr) :
  starts_clean s -> starts_clean (collapse_from b s).
Proof.
  destruct s as [|c r]; [done|]. cbn [starts_clean collapse_from].
  intros Hc. rewrite Hc. exact Hc.
Qed.

Lemma rstrip_fixed_cons (c : N) (r : pystr) :
  rstrip (c :: r) = c :: r ->
  (r = [] /\ is_space c = false) \/ (r <> [] /\ rstrip r = r).
Proof.
  rewrite rstrip_cons. destruct (rstrip r) as [|d r'] eqn:Hr.
  - destruct (is_space c); [done|]. intros H. inversion H. by left.
  - intros [= <-]. right. by split.
Qed.

Lemma collapse_nonempty (b : bool) (s : pystr) :
  rstrip s = s -> s <> [] -> collapse_from b s <> [].
Proof.
  revert b. induction s as [|c r IH]; intros b Hs Hne; [done|].
  cbn [collapse_from]. destruct (is_space c) eqn:Hc; [|done].
  destruct b; [|done].
  apply rstrip_fixed_cons in Hs as [[_ Hs] | [Hr Hs]]; [congruence|].
  by apply IH.
Qed.

Lemma rstrip_cons_nonempty (c : N) (r : pystr) :
  rstrip r = r -> r <> [] -> rstrip (c :: r) = c :: r.
Proof. intros Hr Hne. rewrite rstrip_cons, Hr. by destruct r. Qed.

Lemma collapse_ends_clean (b : bool) (s : pystr) :
  rstrip s = s -> rstrip (collapse_from b s) = collapse_from b s.
Proof.
  revert b. induction s as [|c r IH]; intros b Hs; [done|].
  apply rstrip_fixed_cons in Hs as [[-> Hc] | [Hne Hr]].
  - cbn [collapse_from]. rewrite Hc. rewrite rstrip_cons. cbn [rstrip]. by rewrite Hc.
  - cbn [collapse_from]. destruct (is_space c) eqn:Hc.
    + destruct b; [by apply IH|].
      apply rstrip_cons_nonempty; [by apply IH | by apply collapse_nonempty].
    + apply rstrip_cons_nonempty; [by apply IH | by apply collapse_nonempty].
Qed.

Lemma single_spaced_collapse (b : bool) (s : pystr) :
  single_spaced b s -> collapse_from b s = s.
Proof.
  revert b. induction s as [|c r IH]; intros b Hs; [done|].
  cbn [single_spaced collapse_from] in *. destruct (is_space c).
  - destruct Hs as (-> & -> & Hr). by rewrite (IH true Hr).
  - by rewrite (IH false Hs).
Qed.

Lemma collapse_single_spaced (s : pystr) :
  single_spaced false (collapse_from false s)
  /\ single_spaced true (collapse_from true s).
Proof.
  induction s as [|c r [IHf IHt]]; [done|].
  cbn [collapse_from]. destruct (is_space c) eqn:Hc.
  - split; [|exact IHt]. cbn [single_spaced].
    change (is_space SPACE) with true. cbn iota. done.
  - cbn [single_spaced]. rewrite Hc. done.
Qed.

Lemma whitespace_normal_strip (z : pystr) : whitespace_normal z -> strip z = z.
Proof.
  intros (_ & Hl & Hr & _). unfold strip. by rewrite (starts_clean_lstrip z Hl).
Qed.

Lemma whitespace_normal_collapse (z : pystr) :
  whitespace_normal z -> re_sub m_whitespace z = z.
Proof.
  intros (_ & _ & _ & Hs). rewrite re_sub_whitespace. by apply single_spaced_collapse.
Qed.

Lemma whitespace_normalised (x : pystr) :
  is_blank x = false -> whitespace_normal (collapse_from false (strip x)).
Proof.
  intros Hb.
  assert (Hne : strip x <> []).
  { unfold is_blank in Hb. destruct x; [done|]. by destruct (strip _). }
  assert (Hr : rstrip (strip x) = strip x) by apply rstrip_idempotent.
  assert (Hl : starts_clean (strip x))
    by apply rstrip_starts_clean, lstrip_starts_clean.
  split_and!.
  - by apply collapse_nonempty.
  - by apply collapse_starts_clean.
  - by apply collapse_ends_clean.
  - apply collapse_single_spaced.
Qed.
End WhitespaceFacts.

Section SentenceFacts.

Lemma cap_follows_cons (c : N) (r : pystr) :
  cap_follows (c :: r) = if is_space c then cap_follows r else ascii_upper c.
Proof. unfold cap_follows. cbn [span_len]. by destruct (is_space c). Qed.

Lemma sentence_end_cases (c : N) :
  is_sentence_end c = true -> c = 46 \/ c = 33 \/ c = 63.
Proof.
  change (is_sentence_end c) with ((c =? 46) || ((c =? 33) || ((c =? 63) || false))).
  rewrite !orb_true_iff, !N.eqb_eq. intros [H | [H | [H | H]]]; auto. discriminate.
Qed.

Lemma space_not_sentence_end (c : N) : is_space c = true -> is_sentence_end c = false.
Proof.
  intros Hs. destruct (is_sentence_end c) eqn:He; [|done].
  apply sentence_end_cases in He as [-> | [-> | ->]]; discriminate.
Qed.

Lemma upper_not_sentence_end (c : N) : ascii_upper c = true -> is_sentence_end c = false.
Proof.
  intros Hu. destruct (is_sentence_end c) eqn:He; [|done].
  apply sentence_end_cases in He as [-> | [-> | ->]]; discriminate.
Qed.

Lemma fix_sentences_cons (b : bool) (c : N) (r : pystr) :
  fix_sentences b (c :: r)
  = if b && is_space c then fix_sentences true r
    else if is_sentence_end c && cap_follows r
         then c :: SPACE :: fix_sentences true r
         else c :: fix_sentences false r.
Proof. reflexivity. Qed.

Lemma fix_sentences_head (c : N) (r : pystr) :
  exists tail, fix_sentences false (c :: r) = c :: tail.
Proof.
  rewrite fix_sentences_cons. cbn [andb].
  destruct (is_sentence_end c && cap_follows r); eauto.
Qed.

Lemma fix_sentences_skip_nonspace (c : N) (r : pystr) :
  is_space c = false -> fix_sentences true (c :: r) = fix_sentences false (c :: r).
Proof. intros Hc. rewrite !fix_sentences_cons, Hc. reflexivity. Qed.

Lemma m_sentence_cons (prev : option N) (p : N) (r : pystr) :
  m_sentence prev (p :: r)
  = if is_sentence_end p
    then match drop (span_len is_space r) r with
         | c :: _ => if ascii_upper c
                     then Some (S (S (span_len is_space r)), [p; SPACE; c])
                     else None
         | [] => None
         end
    else None.
Proof.
  unfold m_sentence. destruct (is_sentence_end p); [|done].
  destruct (drop _ r) as [|c rest]; [done|].
  destruct (ascii_upper c); [|done]. cbn [Nat.add]. by rewrite Nat.add_1_r.
Qed.

(** The last rewrite is [fix_sentences]. *)
Lemma re_sub_sentence_fix (s : pystr) :
  forall prev,
    re_sub_from m_sentence prev O s = fix_sentences false s
    /\ (forall c rest,
          drop (span_len is_space s) s = c :: rest -> ascii_upper c = true ->
          c :: re_sub_from m_sentence prev (S (span_len is_space s)) s
          = fix_sentences true s).
Proof.
  induction s as [|a r IH]; intros prev.
  - split; [done|]. intros c rest H. discriminate H.
  - destruct (IH (Some a)) as [IH1 IH2]. split.
    + rewrite fix_sentences_cons. cbn [andb re_sub_from].
      rewrite m_sentence_cons. unfold cap_follows.
      destruct (is_sentence_end a); cbn [andb]; [|by rewrite IH1].
      destruct (drop (span_len is_space r) r) as [|c rest] eqn:Hd; [by rewrite IH1|].
      destruct (ascii_upper c) eqn:Hc; [|by rewrite IH1].
      cbn [app]. by rewrite <- (IH2 c rest eq_refl Hc).
    + intros c rest Hd Hc. rewrite fix_sentences_cons. cbn [andb].
      cbn [span_len] in *. destruct (is_space a) eqn:Ha.
      * cbn [drop] in Hd. cbn [re_sub_from]. by apply IH2 with rest.
      * cbn [drop] in Hd. injection Hd as -> ->.
        rewrite (upper_not_sentence_end c Hc). cbn [andb re_sub_from].
        by rewrite IH1.
Qed.

Lemma re_sub_sentence (s : pystr) : re_sub m_sentence s = fix_sentences false s.
Proof. apply re_sub_sentence_fix. Qed.

Lemma cap_follows_fix (b : bool) (r : pystr) :
  cap_follows (fix_sentences b r) = cap_follows r.
Proof.
  revert b. induction r as [|a r IH]; intros b; [done|].
  rewrite fix_sentences_cons, (cap_follows_cons a r).
  destruct (is_space a) eqn:Ha.
  - rewrite (space_not_sentence_end a Ha). cbn [andb].
    destruct b; cbn [andb]; [apply IH|].
    by rewrite cap_follows_cons, Ha, IH.
  - rewrite andb_false_r.
    destruct (is_sentence_end a && cap_follows r); by rewrite cap_follows_cons, Ha.
Qed.

(** The sentence spacing is idempotent. *)
Lemma fix_sentences_idempotent (s : pystr) :
  fix_sentences false (fix_sentences false s) = fix_sentences false s
  /\ fix_sentences true (fix_sentences true s) = fix_sentences true s.
Proof.
  induction s as [|a r [IHf IHt]]; [done|].
  assert (Hf : fix_sentences false (fix_sentences false (a :: r))
               = fix_sentences false (a :: r)).
  { rewrite (fix_sentences_cons false a r). cbn [andb].
    destruct (is_sentence_end a && cap_follows r) eqn:Hm.
    - rewrite fix_sentences_cons. cbn [andb].
      rewrite cap_follows_cons. change (is_space SPACE) with true. cbn iota.
      rewrite cap_follows_fix, Hm.
      rewrite (fix_sentences_cons true SPACE). change (is_space SPACE) with true.
      cbn [andb]. by rewrite IHt.
    - rewrite fix_sentences_cons. cbn [andb].
      by rewrite cap_follows_fix, Hm, IHf. }
  split; [exact Hf|].
  destruct (is_space a) eqn:Ha.
  - rewrite fix_sentences_cons, Ha. cbn [andb]. exact IHt.
  - rewrite (fix_sentences_skip_nonspace a r Ha).
    destruct (fix_sentences_head a r) as [tail Ht].
    rewrite Ht at 1. rewrite (fix_sentences_skip_nonspace a tail Ha).
    rewrite <- Ht. exact Hf.
Qed.

Lemma fix_sentences_nonempty (s : pystr) : s <> [] -> fix_sentences false s <> [].
Proof.
  destruct s as [|a r]; [done|]. intros _.
  destruct (fix_sentences_head a r) as [tail ->]. done.
Qed.

Lemma fix_sentences_starts_clean (s : pystr) :
  starts_clean s -> starts_clean (fix_sentences false s).
Proof.
  destruct s as [|a r]; [done|]. intros Ha.
  destruct (fix_sentences_head a r) as [tail ->]. exact Ha.
Qed.

Lemma fix_sentences_Forall (P : N -> Prop) (b : bool) (s : pystr) :
  P SPACE -> Forall P s -> Forall P (fix_sentences b s).
Proof.
  intros Hsp Hs. revert b. induction Hs as [|a r Ha Hr IH]; intros b; [done|].
  rewrite fix_sentences_cons.
  destruct (b && is_space a); [done|].
  destruct (is_sentence_end a && cap_follows r); repeat constructor; auto.
Qed.

(** The text behind a sentence end whose capital follows. *)
Lemma fix_sentences_skip_head (r : pystr) :
  cap_follows r = true ->
  exists c tail, fix_sentences true r = c :: tail /\ is_space c = false.
Proof.
  induction r as [|a r IH]; [done|].
  rewrite cap_follows_cons. destruct (is_space a) eqn:Ha.
  - intros H. rewrite fix_sentences_cons, Ha. cbn [andb]. by apply IH.
  - intros _. rewrite (fix_sentences_skip_nonspace a r Ha).
    destruct (fix_sentences_head a r) as [tail ->]. by exists a, tail.
Qed.

Lemma fix_sentences_single_spaced (s : pystr) :
  forall b,
    single_spaced b s ->
    single_spaced b (fix_sentences false s)
    /\ forall b', single_spaced b' (fix_sentences true s).
Proof.
  induction s as [|a r IH]; intros b Hs; [done|].
  cbn [single_spaced] in Hs. rewrite !fix_sentences_cons. cbn [andb].
  destruct (is_space a) eqn:Ha.
  - destruct Hs as (-> & -> & Hr). destruct (IH true Hr) as [IHf IHt].
    rewrite (space_not_sentence_end SPACE Ha). cbn [andb]. split; [|exact IHt].
    cbn [single_spaced]. rewrite Ha. done.
  - destruct (IH false Hs) as [IHf IHt].
    assert (Hn : forall b', single_spaced b'
                   (if is_sentence_end a && cap_follows r
                    then a :: SPACE :: fix_sentences true r
                    else a :: fix_sentences false r)).
    { intros b'. destruct (is_sentence_end a && cap_follows r).
      - cbn [single_spaced]. rewrite Ha. change (is_space SPACE) with true.
        cbn iota. split_and!; [done | done | apply IHt].
      - cbn [single_spaced]. rewrite Ha. exact IHf. }
    split; [apply Hn | exact Hn].
Qed.

Lemma fix_sentences_ends_clean (s : pystr) :
  rstrip s = s ->
  rstrip (fix_sentences false s) = fix_sentences false s
  /\ (cap_follows s = true -> rstrip (fix_sentences true s) = fix_sentences true s).
Proof.
  induction s as [|a r IH]; [done|]. intros Hs.
  apply rstrip_fixed_cons in Hs as [[-> Ha] | [Hne Hr]].
  - rewrite fix_sentences_skip_nonspace by done.
    assert (H : rstrip (fix_sentences false [a]) = fix_sentences false [a]).
    { rewrite fix_sentences_cons. cbn [andb]. rewrite andb_false_r.
      cbn [fix_sentences]. rewrite rstrip_cons. cbn [rstrip]. by rewrite Ha. }
    by split.
  - destruct (IH Hr) as [IHf IHt].
    assert (Hf : rstrip (fix_sentences false (a :: r)) = fix_sentences false (a :: r)).
    { rewrite fix_sentences_cons. cbn [andb].
      destruct (is_sentence_end a && cap_follows r) eqn:Hm.
      - apply andb_true_iff in Hm as [_ Hcap].
        destruct (fix_sentences_skip_head r Hcap) as (c & tail & Ht & Hc).
        apply rstrip_cons_nonempty; [|done].
        apply rstrip_cons_nonempty; [by apply IHt | by rewrite Ht].
      - apply rstrip_cons_nonempty; [done | by apply fix_sentences_nonempty]. }
    split; [exact Hf|].
    rewrite cap_follows_cons. destruct (is_space a) eqn:Ha.
    + intros Hcap. rewrite fix_sentences_cons, Ha. cbn [andb]. by apply IHt.
    + intros _. by rewrite fix_sentences_skip_nonspace.
Qed.

Lemma fix_sentences_normal (z : pystr) :
  whitespace_normal z -> whitespace_normal (fix_sentences false z).
Proof.
  intros (Hne & Hl & Hr & Hs). split_and!.
  - by apply fix_sentences_nonempty.
  - by apply fix_sentences_starts_clean.
  - by apply fix_sentences_ends_clean.
  - by apply (fix_sentences_single_spaced z false).
Qed.
End SentenceFacts.

Lemma re_sub_no_match (m : option N -> pystr -> option (nat * pystr)) (P : N -> Prop) :
  (forall prev s, Forall P s -> m prev s = None) ->
  forall s, Forall P s -> re_sub m s = s.
Proof.
  intros Hm s. unfold re_sub. generalize (@None N) as prev.
  induction s as [|c r IH]; intros prev Hs; [done|].
  cbn [re_sub_from]. rewrite (Hm prev (c :: r) Hs). f_equal.
  apply IH. by apply Forall_cons in Hs as [_ Hs].
Qed.

Lemma span_len_zero (p : N -> bool) (s : pystr) :
  match s with [] => True | c :: _ => p c = false end -> span_len p s = O.
Proof. destruct s as [|c r]; [done|]. cbn [span_len]. by intros ->. Qed.

Section PreprocessFacts.
Context (U : UnicodeData).

Abbreviation quiet := (Forall (fun c => is_quiet U c = true)).
Abbreviation passive := (Forall (fun c => is_passive U c = true)).

Lemma quiet_cases (P : N -> Prop) (c : N) :
  P SPACE ->
  (is_readable U c = true -> is_digit U c = false -> is_bullet c = false -> P c) ->
  is_quiet U c = true -> P c.
Proof.
  intros Hs Hp. unfold is_quiet, is_plain.
  intros [->%N.eqb_eq | [_ Hc]%andb_true_iff]%orb_true_iff; [exact Hs|].
  apply andb_true_iff in Hc as [[Hr Hd]%andb_true_iff Hb].
  apply Hp; [done | by apply negb_true_iff | by apply negb_true_iff].
Qed.

Lemma quiet_readable (c : N) : is_quiet U c = true -> is_readable U c = true.
Proof. apply (quiet_cases (fun c => is_readable U c = true)); [reflexivity | auto]. Qed.

Lemma quiet_not_digit (c : N) : is_quiet U c = true -> is_digit U c = false.
Proof. apply (quiet_cases (fun c => is_digit U c = false)); [reflexivity | auto]. Qed.

Lemma quiet_not_bullet (c : N) : is_quiet U c = true -> is_bullet c = false.
Proof. apply (quiet_cases (fun c => is_bullet c = false)); [reflexivity | auto]. Qed.

(** The characters that start or carry one of the other rewrites are
    not quiet. *)
Lemma quiet_excludes (k c : N) :
  is_quiet U k = false -> is_quiet U c = true -> (c =? k) = false.
Proof. intros Hk Hc. apply N.eqb_neq. congruence. Qed.

Lemma span_digit_quiet (s : pystr) : quiet s -> span_len (is_digit U) s = O.
Proof.
  intros Hs. apply span_len_zero. destruct s as [|c r]; [done|].
  apply Forall_cons in Hs as [Hc _]. by apply quiet_not_digit.
Qed.

(** None of the rewrites between the first and the last finds a match
    in a quiet text. *)
Lemma m_noise_quiet prev s : quiet s -> m_noise U prev s = None.
Proof.
  destruct s as [|c r]; [done|]. intros [Hc _]%Forall_cons.
  unfold m_noise. by rewrite quiet_readable.
Qed.

Lemma m_ocr_quiet x y prev s :
  is_quiet U x = false -> quiet s -> m_ocr U x y prev s = None.
Proof.
  intros Hx Hs. destruct s as [|a [|b [|c r]]]; try done.
  apply Forall_cons in Hs as [_ [Hb _]%Forall_cons].
  unfold m_ocr. by rewrite (quiet_excludes x b Hx Hb), andb_false_r.
Qed.

Lemma m_page_quiet prev s : quiet s -> m_page U prev s = None.
Proof.
  intros Hs. unfold m_page. destruct (startswith _ s); [|done].
  by rewrite span_digit_quiet by by apply Forall_drop.
Qed.

Lemma m_line_number_quiet prev s : quiet s -> m_line_number U prev s = None.
Proof.
  intros Hs. unfold m_line_number. destruct (at_line_start prev); [|done].
  by rewrite span_digit_quiet.
Qed.

Lemma m_bullet_quiet prev s : quiet s -> m_bullet prev s = None.
Proof.
  intros Hs. unfold m_bullet. destruct (at_line_start prev); [|done].
  cbv zeta. pose proof (Forall_drop _ (span_len is_space s) _ Hs) as Hd.
  destruct (drop _ s) as [|c r]; [done|].
  apply Forall_cons in Hd as [Hc _]. by rewrite quiet_not_bullet.
Qed.

Lemma m_blank_lines_quiet prev s : quiet s -> m_blank_lines prev s = None.
Proof.
  destruct s as [|c r]; [done|]. intros [Hc _]%Forall_cons.
  unfold m_blank_lines. by rewrite (quiet_excludes NEWLINE c eq_refl Hc).
Qed.

(** On a quiet text whose whitespace is normal, preprocessing is the
    sentence spacing. *)
Lemma preprocess_quiet (z : pystr) :
  whitespace_normal z -> quiet z ->
  preprocess_text U z = fix_sentences false z.
Proof.
  intros Hn Hq. unfold preprocess_text.
  pose proof (whitespace_normal_strip z Hn) as Hstrip.
  pose proof (whitespace_normal_collapse z Hn) as Hws.
  assert (is_blank z = false) as ->.
  { unfold is_blank. rewrite Hstrip. destruct Hn as [Hne _]. by destruct z. }
  rewrite Hstrip, Hws.
  rewrite (re_sub_no_match (m_noise U) _ (m_noise_quiet) z Hq).
  rewrite (re_sub_no_match (m_ocr U BAR _) _
             (fun prev s => m_ocr_quiet BAR _ prev s eq_refl) z Hq).
  rewrite (re_sub_no_match (m_ocr U ZERO _) _
             (fun prev s => m_ocr_quiet ZERO _ prev s eq_refl) z Hq).
  rewrite (re_sub_no_match (m_page U) _ m_page_quiet z Hq).
  rewrite (re_sub_no_match (m_line_number U) _ m_line_number_quiet z Hq).
  rewrite (re_sub_no_match m_bullet _ m_bullet_quiet z Hq).
  rewrite (re_sub_no_match m_blank_lines _ m_blank_lines_quiet z Hq).
  rewrite re_sub_sentence.
  apply whitespace_normal_strip. by apply fix_sentences_normal.
Qed.

(** Passive texts become quiet when their whitespace is normalised. *)
Lemma passive_lstrip (s : pystr) : passive s -> passive (lstrip s).
Proof.
  induction 1 as [|c r Hc Hr IH]; [done|]. cbn [lstrip].
  destruct (is_space c); [done | by constructor].
Qed.

Lemma passive_rstrip (s : pystr) : passive s -> passive (rstrip s).
Proof.
  induction 1 as [|c r Hc Hr IH]; [done|]. rewrite rstrip_cons.
  destruct (rstrip r).
  - destruct (is_space c); [done | by constructor].
  - by constructor.
Qed.

Lemma quiet_collapse (b : bool) (s : pystr) : passive s -> quiet (collapse_from b s).
Proof.
  intros Hs. revert b. induction Hs as [|c r Hc Hr IH]; intros b; [done|].
  cbn [collapse_from]. destruct (is_space c) eqn:Hsp.
  - destruct b; [done|]. by constructor.
  - constructor; [|done]. unfold is_quiet. unfold is_passive in Hc.
    rewrite Hsp in *. cbn [negb andb orb] in *. rewrite Hc. apply orb_true_r.
Qed.

(** C2, as amended. Preprocessing is idempotent on the texts made of
    whitespace and of the characters that the noise filter keeps,
    digits and bullet markers apart (word characters that are not
    digits, and the punctuation [. , ! ? ; : ( ) [ ] { }]): there it
    only normalises the whitespace and the spacing behind sentence
    ends. *)
Theorem preprocess_idempotent_on_passive_text (x : pystr) :
  Forall (fun c => is_passive U c = true) x ->
  preprocess_text U (preprocess_text U x) = preprocess_text U x.
Proof.
  intros Hp. destruct (is_blank x) eqn:Hb.
  - by rewrite (blank_preprocesses_to_empty U x Hb).
  - pose proof (whitespace_normalised x Hb) as Hn.
    assert (Hq : quiet (collapse_from false (strip x)))
      by by apply quiet_collapse, passive_rstrip, passive_lstrip.
    set (y := collapse_from false (strip x)) in *.
    assert (Hx : preprocess_text U x = fix_sentences false y).
    { rewrite <- (preprocess_quiet y Hn Hq).
      unfold preprocess_text at 2.
      assert (is_blank y = false) as ->.
      { unfold is_blank. rewrite (whitespace_normal_strip y Hn).
        destruct Hn as [Hne _]. by destruct y. }
      rewrite (whitespace_normal_strip y Hn), (whitespace_normal_collapse y Hn).
      unfold preprocess_text. rewrite Hb, re_sub_whitespace. reflexivity. }
    rewrite Hx.
    rewrite (preprocess_quiet (fix_sentences false y)).
    + apply fix_sentences_idempotent.
    + by apply fix_sentences_normal.
    + by apply fix_sentences_Forall.
Qed.
End PreprocessFacts.

(** * The properties on the sample data *)


(** The summary of the sample request. *)
Lemma sample_summary_text :
  fst (summarize_text ascii_tables (service sample_env) sample_text (str "bullet"))
  = str "- The key point. Done.".
Proof. vm_compute. reflexivity. Qed.

(** The text [a00b] is rewritten to [ao0b], and that to [aoob],
    whatever the Unicode tables: the pattern [(\w)0(\w)] takes the
    second zero as the end of its first match. *)
Lemma preprocess_zero_runs (U : UnicodeData) :
  preprocess_text U (str "a00b") = str "ao0b"
  /\ preprocess_text U (str "ao0b") = str "aoob".
Proof. split; reflexivity. Qed.

(** C2 fails as stated: preprocessing [a00b] twice differs from
    preprocessing it once. *)
Lemma preprocess_not_idempotent :
  preprocess_text ascii_tables (preprocess_text ascii_tables (str "a00b"))
  <> preprocess_text ascii_tables (str "a00b").
Proof. vm_compute. discriminate. Qed.

(** C2, amended, on a text of letters, whitespace and sentence ends. *)
Lemma preprocess_idempotent_witness :
  Forall (fun c => is_passive ascii_tables c = true) (str "  Hello   world.Next  one! ")
  /\ preprocess_text ascii_tables (preprocess_text ascii_tables (str "  Hello   world.Next  one! "))
     = preprocess_text ascii_tables (str "  Hello   world.Next  one! ").
Proof.
  assert (H : Forall (fun c => is_passive ascii_tables c = true) (str "  Hello   world.Next  one! "))
    by (repeat constructor).
  split; [exact H|].
  exact (preprocess_idempotent_on_passive_text ascii_tables _ H).
Defined.

(** C3 on the sample pair: 3 words for 20 is a ratio of 0.15, so the
    first note is the one of a good compression. *)
Lemma compression_bonus_witness :
  exists notes,
    evaluate_summary_quality ascii_tables (PyStr twenty_words) (PyStr short_summary)
      !! "feedback"
    = Some (PyList (List.map PyStr (note_good :: notes))).
Proof.
  destruct (compression_bonus_iff_ratio_in_band ascii_tables twenty_words short_summary)
    as (bonus & note & notes & _ & Hf & _ & _ & Hgood & _).
  exists notes. rewrite Hf. rewrite Hgood; [reflexivity|].
  split; vm_compute; discriminate.
Defined.

(** C4 on the sample pair: the score is exactly 80, and the rating is
    "Excellent". *)
Lemma rating_at_80_witness :
  evaluate_summary_quality ascii_tables (PyStr twenty_words) (PyStr short_summary)
    !! "quality_score" = Some (PyInt 80)
  /\ evaluate_summary_quality ascii_tables (PyStr twenty_words) (PyStr short_summary)
       !! "overall_rating" = Some (PyStr (str "Excellent")).
Proof.
  destruct (quality_score_range_and_rating ascii_tables twenty_words short_summary)
    as (score & rating & Hs & Hr & _ & H80 & _).
  assert (Hscore : score = 80%Z).
  { assert (He : evaluate_summary_quality ascii_tables (PyStr twenty_words)
                   (PyStr short_summary) !! "quality_score" = Some (PyInt 80))
      by reflexivity.
    rewrite He in Hs. by injection Hs. }
  split; [reflexivity|]. rewrite Hr, H80; [reflexivity | lia].
Defined.

(** C5 on a source that is not a string. *)
Lemma evaluation_error_witness :
  evaluate_body ascii_tables PyNone (PyStr short_summary)
  = Raise (str "'NoneType' object has no attribute 'split'")
  /\ evaluate_summary_quality ascii_tables PyNone (PyStr short_summary)
       !! "quality_score" = Some (PyInt 0)
  /\ evaluate_summary_quality ascii_tables PyNone (PyStr short_summary)
       !! "overall_rating" = Some (PyStr (str "Error")).
Proof.
  split; [reflexivity|].
  destruct (proj2 (evaluation_never_raises ascii_tables PyNone (PyStr short_summary))
              (str "'NoneType' object has no attribute 'split'") eq_refl)
    as (Hs & Hr & _).
  split; [exact Hs | exact Hr].
Defined.

(** C6 on a text of spaces. *)
Lemma empty_input_witness :
  (is_blank (str "   ") = true \/ preprocess_text ascii_tables (str "   ") = [])
  /\ let '(answer, prompts) :=
       summarize_text ascii_tables sample_service (str "   ") (str "bullet") in
     prompts = []
     /\ (answer = str "Error: No text provided for summarization"
         \/ answer = str "Error: Text preprocessing resulted in empty content")
     /\ startswith (str "Error") answer = true.
Proof.
  assert (H : is_blank (str "   ") = true
              \/ preprocess_text ascii_tables (str "   ") = []) by (left; reflexivity).
  split; [exact H|].
  exact (empty_input_fails_without_generation ascii_tables sample_service
           (str "   ") (str "bullet") H).
Defined.

(** C7 on the sample store: bob cannot delete the row of alice. *)
Lemma delete_requires_owner_witness :
  Database.fault sample_db = None
  /\ Database.table sample_db !! 1%Z = Some alice_row
  /\ Database.user_id alice_row = alice
  /\ bob <> alice
  /\ Database.delete_summary sample_db 1 bob = Ok (false, sample_db)
  /\ Database.get_summary_by_id sample_db 1 = Ok (Some (1%Z, alice_row)).
Proof.
  assert (Hne : bob <> alice) by discriminate.
  split; [reflexivity|]. split; [reflexivity|]. split; [reflexivity|].
  split; [exact Hne|].
  destruct (delete_requires_owner sample_db 1 alice_row alice bob
              eq_refl eq_refl eq_refl Hne) as [(Hd & Hg & _) _].
  split; [exact Hd | exact Hg].
Defined.


(** C9 fails as stated: the query [_] is a substring of no field of
    the row of alice, and the search returns the row; so does the
    search for U+0000 followed by [xyz], of which SQLite reads nothing. *)
Lemma search_wildcard_counterexample :
  Database.fault sample_db = None
  /\ field_match (str "_") (1%Z, alice_row) = false
  /\ Database.search_summaries sample_db alice (str "_") 20 = Ok [(1%Z, alice_row)]
  /\ Database.search_summaries sample_db alice (str "_") 20
     <> Ok (search_spec sample_db alice (str "_") 20)
  /\ field_match (NUL :: str "xyz") (1%Z, alice_row) = false
  /\ Database.search_summaries sample_db alice (NUL :: str "xyz") 20
     = Ok [(1%Z, alice_row)].
Proof.
  split; [reflexivity|]. split; [reflexivity|]. split; [reflexivity|].
  split; [vm_compute; discriminate|]. split; reflexivity.
Qed.

(** C9, amended, on the sample store: the query [AB] finds the
    document [abc]. *)
Lemma search_witness :
  Database.fault sample_db = None
  /\ (PERCENT ∉ str "AB")
  /\ (UNDERSCORE ∉ str "AB")
  /\ (NUL ∉ str "AB")
  /\ like_accepts ([PERCENT] ++ str "AB" ++ [PERCENT])
  /\ Database.fits_int64 20 = true
  /\ (forall i r, Database.table sample_db !! i = Some r ->
        Database.user_id r = alice -> no_nul r)
  /\ exists found,
       Database.search_summaries sample_db alice (str "AB") 20 = Ok found
       /\ found = search_spec sample_db alice (str "AB") 20
       /\ found = [(1%Z, alice_row)].
Proof.
  assert (H1 : PERCENT ∉ (str "AB")) by (apply (bool_decide_unpack _); reflexivity).
  assert (H2 : UNDERSCORE ∉ (str "AB")) by (apply (bool_decide_unpack _); reflexivity).
  assert (H3 : NUL ∉ (str "AB")) by (apply (bool_decide_unpack _); reflexivity).
  assert (H4 : like_accepts ([PERCENT] ++ str "AB" ++ [PERCENT]))
    by (vm_compute; discriminate).
  assert (H5 : forall i r, Database.table sample_db !! i = Some r ->
                 Database.user_id r = alice -> no_nul r).
  { intros i r Hr _. cbn [sample_db Database.table] in Hr.
    apply lookup_singleton_Some in Hr as [_ <-]. split_and!.
    - apply (bool_decide_unpack _). reflexivity.
    - apply (bool_decide_unpack _). reflexivity.
    - intros text [= <-]. apply (bool_decide_unpack _). reflexivity. }
  split; [reflexivity|]. split; [exact H1|]. split; [exact H2|]. split; [exact H3|].
  split; [exact H4|]. split; [reflexivity|]. split; [exact H5|].
  destruct (search_is_substring_search_without_wildcards sample_db alice (str "AB") 20
              eq_refl H1 H2 H3 H4 eq_refl H5) as (found & Hs & Hspec & _).
  exists found. split; [exact Hs|]. split; [exact Hspec|].
  rewrite Hspec. reflexivity.
Defined.

(** * Further properties *)

(** ** The store: saving, listing, updating, retention *)

Section StoreMore.
Import Database.

#[local] Instance newer_first_total' : Total newer_first.
Proof. intros a b. unfold newer_first. lia. Qed.
#[local] Instance newer_first_trans' : Transitive newer_first.
Proof. intros a b c. unfold newer_first. lia. Qed.

Lemma next_id_above (s : t) :
  (sequence s < next_id s)%Z
  /\ forall j r, table s !! j = Some r -> (j < next_id s)%Z.
Proof.
  unfold next_id.
  assert (H : (sequence s <= map_fold (fun k _ m => Z.max k m) (sequence s) (table s))%Z
              /\ forall j r, table s !! j = Some r ->
                   (j <= map_fold (fun k _ m => Z.max k m) (sequence s) (table s))%Z).
  { apply (map_fold_weak_ind
             (fun b (m : gmap Z Summary) =>
                (sequence s <= b)%Z /\ forall j r, m !! j = Some r -> (j <= b)%Z)).
    - split; [lia|]. intros j r Hj. by rewrite lookup_empty in Hj.
    - intros i x m b Hi [Hb Hm]. split; [lia|].
      intros j r Hj. destruct (decide (i = j)) as [->|Hne].
      + lia.
      + rewrite lookup_insert_ne in Hj by done. specialize (Hm j r Hj). lia. }
  destruct H as [H1 H2]. split; [lia|].
  intros j r Hj. specialize (H2 j r Hj). lia.
Qed.

(** X1. On a working store, when the file size and the two word
    counts are NULL or fit in 64 bits, [save_summary] returns an id
    that no row has and that lies above every id in use and above the
    counter; the saved row, with the time of the save, is what
    [get_summary_by_id] returns for it, and the other rows are as
    before. When one of the three numbers does not fit in 64 bits the
    save raises [OverflowError] and nothing is saved. *)
Theorem save_then_get (s : t) (u dn dt : pystr) (ot : option pystr) (sm st : pystr)
    (qs : option Q) (fs : option Z) (pt : option Q) (wc swc : option Z) :
  fault s = None ->
  (bindable fs && bindable wc && bindable swc = true ->
   exists (new_id : Z) (s' : t),
     save_summary s u dn dt ot sm st qs fs pt wc swc = Ok (new_id, s')
     /\ table s !! new_id = None
     /\ (forall j r, table s !! j = Some r -> (j < new_id)%Z)
     /\ (sequence s < new_id)%Z
     /\ get_summary_by_id s' new_id
        = Ok (Some (new_id,
                    {| user_id := u; document_name := dn; document_type := dt;
                       original_text := ot; summary := sm; summary_style := st;
                       quality_score := qs; created_at := now s; file_size := fs;
                       processing_time := pt; word_count := wc;
                       summary_word_count := swc |}))
     /\ (forall j, j <> new_id -> table s' !! j = table s !! j))
  /\ (bindable fs && bindable wc && bindable swc = false ->
      save_summary s u dn dt ot sm st qs fs pt wc swc = Raise OverflowError).
Proof.
  intros Hf. unfold save_summary, with_connection. rewrite Hf.
  split; intros Hb; rewrite Hb; [|reflexivity].
  destruct (next_id_above s) as [Hseq Hkeys].
  eexists _, _. split; [reflexivity|]. split_and!.
  - destruct (table s !! next_id s) as [r|] eqn:Hr; [|done].
    specialize (Hkeys _ _ Hr). lia.
  - exact Hkeys.
  - exact Hseq.
  - apply get_summary_by_id_found; [done|]. cbn. apply lookup_insert_eq.
  - intros j Hj. cbn. by apply lookup_insert_ne.
Qed.

Lemma save_summary_sequence (s s' : t) (new_id : Z) u dn dt ot sm st qs fs pt wc swc :
  save_summary s u dn dt ot sm st qs fs pt wc swc = Ok (new_id, s') ->
  (sequence s < new_id)%Z /\ sequence s' = new_id.
Proof.
  unfold save_summary, with_connection. destruct (fault s); [done|].
  destruct (bindable fs && bindable wc && bindable swc); [|done].
  intros [= <- <-]. split; [apply next_id_above | done].
Qed.

Lemma delete_summary_sequence (s s' : t) (i : Z) (u : pystr) (b : bool) :
  delete_summary s i u = Ok (b, s') -> sequence s' = sequence s.
Proof.
  unfold delete_summary, with_connection. destruct (fault s); [done|].
  destruct (bindable_id s i); [|done].
  by intros [= <- <-].
Qed.

Lemma update_summary_sequence (s s' : t) (i : Z) (u sm : pystr) (qs : option Q) (b : bool) :
  update_summary s i u sm qs = Ok (b, s') -> sequence s' = sequence s.
Proof.
  unfold update_summary, with_connection. destruct (fault s); [done|].
  by intros [= <- <-].
Qed.

Lemma cleanup_old_summaries_sequence (s s' : t) (u : pystr) (days n : Z) :
  cleanup_old_summaries s u days = Ok (n, s') -> sequence s' = sequence s.
Proof.
  unfold cleanup_old_summaries, with_connection. destruct (fault s); [done|].
  by intros [= <- <-].
Qed.

(** No statement lowers the counter of the table. *)
Lemma writes_sequence (s s' : t) : writes s s' -> (sequence s <= sequence s')%Z.
Proof.
  intros [u dn dt ot sm st qs fs pt wc swc i H | i u b H | i u sm qs b H | u days n H].
  - apply save_summary_sequence in H. lia.
  - apply delete_summary_sequence in H. lia.
  - apply update_summary_sequence in H. lia.
  - apply cleanup_old_summaries_sequence in H. lia.
Qed.

Lemma rtc_writes_sequence (s s' : t) : rtc writes s s' -> (sequence s <= sequence s')%Z.
Proof.
  induction 1 as [|s1 s2 s3 H12 _ IH]; [lia|].
  apply writes_sequence in H12. lia.
Qed.

(** X2. Ids are not reused: an id given by a save lies below the id
    given by any later save, whatever was written in between: any
    number of saves, deletes, updates and cleanups, in any order, also
    when they delete the row of the first id. *)
Theorem ids_are_not_reused (s s1 s2 s3 : t) (id1 id2 : Z)
    (u dn dt : pystr) (ot : option pystr) (sm st : pystr)
    (qs : option Q) (fs : option Z) (pt : option Q) (wc swc : option Z)
    (u' dn' dt' : pystr) (ot' : option pystr) (sm' st' : pystr)
    (qs' : option Q) (fs' : option Z) (pt' : option Q) (wc' swc' : option Z) :
  save_summary s u dn dt ot sm st qs fs pt wc swc = Ok (id1, s1) ->
  rtc writes s1 s2 ->
  save_summary s2 u' dn' dt' ot' sm' st' qs' fs' pt' wc' swc' = Ok (id2, s3) ->
  (id1 < id2)%Z.
Proof.
  intros H1 H2 H3.
  apply save_summary_sequence in H1 as [_ H1].
  apply rtc_writes_sequence in H2.
  apply save_summary_sequence in H3 as [H3 _]. lia.
Qed.







(** X4. Pages fit together: the page of [a] rows at [offset] followed
    by the page of [b] rows at [offset + a] is the page of [a + b]
    rows at [offset]. *)
Theorem listing_pages_compose (s : t) (u : pystr) (a b offset : Z)
    (first second both : list Row) :
  (0 <= a)%Z -> (0 <= b)%Z -> (0 <= offset)%Z ->
  get_user_summaries s u a offset = Ok first ->
  get_user_summaries s u b (offset + a) = Ok second ->
  get_user_summaries s u (a + b) offset = Ok both ->
  first ++ second = both.
Proof.
  intros Ha Hb Ho. unfold get_user_summaries, with_connection.
  destruct (fault s); [done|].
  intros [= <-] [= <-] [= <-].
  unfold sql_limit, sql_offset.
  destruct (Z.ltb_spec a 0), (Z.ltb_spec b 0), (Z.ltb_spec (a + b) 0); try lia.
  rewrite Z2Nat.inj_add by lia. rewrite <- drop_drop.
  rewrite Z2Nat.inj_add by lia. apply take_take_drop.
Qed.
End StoreMore.

Section StoreUpdates.
Import Database.

Lemma matching_rows (s : t) (i : Z) (u : pystr) :
  filter (delete_where i u) (rows s)
  = match table s !! i with
    | Some r => if decide (user_id r = u) then [(i, r)] else []
    | None => []
    end.
Proof.
  assert (Heq : filter (delete_where i u) (rows s)
                = filter (owned_by u) (filter (fun x : Row => fst x = i) (rows s))).
  { rewrite list_filter_filter. apply list_filter_iff. intros x.
    unfold delete_where. tauto. }
  rewrite Heq. destruct (table s !! i) as [r|] eqn:Hr.
  - rewrite (filter_by_key _ i r); [| apply NoDup_fst_map_to_list | by apply rows_lookup].
    rewrite filter_cons, filter_nil. unfold owned_by. cbn [snd].
    by destruct (decide (user_id r = u)).
  - rewrite filter_by_missing_key; [done|].
    intros r Hin. apply rows_lookup in Hin. congruence.
Qed.


Lemma delete_summary_outcome (s : t) (i : Z) (u : pystr) :
  fault s = None ->
  delete_summary s i u
  = if bindable_id s i
    then Ok (match table s !! i with
             | Some r =>
                 if decide (user_id r = u)
                 then (true, {| table := delete i (table s); sequence := sequence s;
                                now := now s; fault := fault s |})
                 else (false, s)
             | None => (false, s)
             end)
    else Raise OverflowError.
Proof.
  intros Hf. unfold delete_summary, with_connection. rewrite Hf.
  destruct (bindable_id s i); [|reflexivity]. rewrite matching_rows.
  destruct (table s !! i) as [r|] eqn:Hr.
  - destruct (decide (user_id r = u)) as [<-|Hne].
    + by rewrite (delete_removes_own_row _ i r Hr).
    + rewrite (delete_keeps_foreign_rows _ i r u Hr Hne).
      destruct s as [tb sq nw ft]. cbn in *. by subst ft.
  - destruct s as [tb sq nw ft]. cbn in *. subst ft. do 3 f_equal.
    apply map_filter_id. intros j x Hx [Hj _]. cbn in Hj. congruence.
Qed.

Lemma bindable_fits (s : t) (i : Z) : fits_int64 i = true -> bindable_id s i = true.
Proof. intros H. unfold bindable_id. by rewrite H. Qed.

Lemma bindable_missing (s : t) (i : Z) :
  table s !! i = None -> bindable_id s i = fits_int64 i.
Proof.
  intros H. unfold bindable_id. rewrite H.
  rewrite bool_decide_false by (by intros [x Hx]). apply orb_false_r.
Qed.

(** X6. Deleting is idempotent for an id that fits in 64 bits:
    deleting an id that is not stored, or repeating a delete, returns
    false and changes nothing. For an id that does not fit in 64 bits,
    which no row has, the delete raises [OverflowError]. *)
Theorem delete_missing_changes_nothing (s : t) (i : Z) (u : pystr) :
  fault s = None ->
  (fits_int64 i = true ->
   (table s !! i = None -> delete_summary s i u = Ok (false, s))
   /\ (forall b s', delete_summary s i u = Ok (b, s') ->
         delete_summary s' i u = Ok (false, s')))
  /\ (fits_int64 i = false -> table s !! i = None ->
      delete_summary s i u = Raise OverflowError).
Proof.
  intros Hf. split.
  - intros Hfit.
    assert (Hmiss : forall s0, fault s0 = None ->
              (forall r, table s0 !! i = Some r -> user_id r <> u) ->
              delete_summary s0 i u = Ok (false, s0)).
    { intros s0 Hf0 Hnone. rewrite (delete_summary_outcome s0 i u Hf0).
      rewrite (bindable_fits s0 i Hfit).
      destruct (table s0 !! i) as [r|] eqn:Hr; [|done].
      rewrite decide_False; [done|]. by apply Hnone. }
    split.
    + intros Hi. apply Hmiss; [done|]. intros r Hr. congruence.
    + intros b s'. unfold delete_summary at 1, with_connection.
      rewrite Hf, (bindable_fits s i Hfit).
      intros [= <- <-]. apply Hmiss; [done|]. cbn [table].
      intros r Hr. apply map_lookup_filter_Some in Hr as [Hr Hn].
      intros Hu. apply Hn. by split.
  - intros Hfit Hi. rewrite (delete_summary_outcome s i u Hf).
    by rewrite (bindable_missing s i Hi), Hfit.
Qed.
End StoreUpdates.

Section Retention.
Import Database.

Lemma rows_filter_length (P : Row -> Prop) `{!forall x, Decision (P x)} (m : gmap Z Summary) :
  length (filter P (map_to_list m)) = size (filter P m).
Proof.
  rewrite <- (length_map_to_list (filter P m)).
  apply Permutation_length, NoDup_Permutation.
  - apply NoDup_filter, NoDup_map_to_list.
  - apply NoDup_map_to_list.
  - intros [k r]. rewrite list_elem_of_filter, !elem_of_map_to_list,
      map_lookup_filter_Some. tauto.
Qed.

Lemma filter_none {A} (P : A -> Prop) `{!forall x, Decision (P x)} (l : list A) :
  (forall x, x ∈ l -> ~ P x) -> filter P l = [].
Proof.
  induction l as [|x l IH]; intros Hl; [done|].
  rewrite filter_cons, decide_False by (apply Hl; left).
  apply IH. intros y Hy. apply Hl. by right.
Qed.

Lemma days_ago_negative (s : t) (days : Z) : (days < 0)%Z -> days_ago s days = None.
Proof. intros H. unfold days_ago. by rewrite (proj2 (Z.ltb_lt _ _) H). Qed.

(** X7. With a cutoff [c] that SQLite can compute,
    [cleanup_old_summaries] removes exactly the rows of the user that
    were created before [c] and returns their number; the rows of
    other users stay. The rows that [get_recent_summaries] returns for
    the same number of days are exactly the rows of the user that
    survive the cleanup, newest first. *)
Theorem cleanup_keeps_what_recent_shows (s : t) (u : pystr) (days c : Z) :
  fault s = None ->
  days_ago s days = Some c ->
  exists (n : Z) (s' : t) (recent : list Row),
    cleanup_old_summaries s u days = Ok (n, s')
    /\ get_recent_summaries s u days = Ok recent
    /\ (forall j r, table s' !! j = Some r
          <-> table s !! j = Some r /\ (user_id r = u -> (c <= created_at r)%Z))
    /\ (size (table s) = size (table s') + Z.to_nat n)%nat
    /\ (0 <= n)%Z
    /\ (forall x, x ∈ recent <-> x ∈ rows s' /\ owned_by u x)
    /\ StronglySorted newer_first recent.
Proof.
  intros Hf Hc. unfold cleanup_old_summaries, get_recent_summaries, with_connection.
  rewrite Hf, Hc. eexists _, _, _. split; [reflexivity|]. split; [reflexivity|].
  cbn [table]. split_and!.
  - intros j r. rewrite map_lookup_filter_Some. unfold owned_by, before. cbn [snd].
    split; intros [H1 H2]; (split; [done|]).
    + intros Hu. destruct (decide (c <= created_at r)%Z); [done|].
      exfalso. apply H2. split; [done|lia].
    + intros [Hu Hlt]. specialize (H2 Hu). lia.
  - unfold len, rows. rewrite Nat2Z.id.
    rewrite <- (rows_filter_length (fun r : Row => ~ (owned_by u r /\ before (Some c) r))).
    rewrite <- (length_map_to_list (table s)), Nat.add_comm, <- length_app.
    apply Permutation_length. symmetry. apply filter_app_complement.
  - unfold len. lia.
  - intros [k r]. rewrite (elem_of_order_by _ _).
    rewrite list_elem_of_filter. unfold rows. cbn [table].
    rewrite !elem_of_map_to_list, map_lookup_filter_Some.
    unfold owned_by, not_before, before. cbn [snd]. split.
    + intros [[Hu Hle] Hr]. split_and!; [done| |done]. intros [_ Hlt]. lia.
    + intros [[Hr Hn] Hu]. split_and!; [done| |done].
      destruct (decide (c <= created_at r)%Z); [done|].
      exfalso. apply Hn. split; [done|lia].
  - apply order_by_sorted.
Qed.

(** X8. A negative number of days gives SQLite a modifier that it does
    not know; the cutoff is NULL, no row compares with it:
    [get_recent_summaries] returns no row, whatever the user has
    stored, and [cleanup_old_summaries] deletes nothing. *)
Theorem negative_days_select_nothing (s : t) (u : pystr) (days : Z) :
  fault s = None ->
  (days < 0)%Z ->
  get_recent_summaries s u days = Ok []
  /\ cleanup_old_summaries s u days = Ok (0%Z, s).
Proof.
  intros Hf Hd. unfold cleanup_old_summaries, get_recent_summaries, with_connection.
  rewrite Hf, (days_ago_negative s days Hd).
  split.
  - rewrite (filter_none (fun r : Row => owned_by u r /\ not_before None r)).
    + reflexivity.
    + intros x _ [_ []].
  - rewrite (filter_none (fun r : Row => owned_by u r /\ before None r)).
    + destruct s as [tb sq nw ft]. cbn in *. subst ft. do 3 f_equal.
      apply map_filter_id. intros j x _ [_ []].
    + intros x _ [_ []].
Qed.
End Retention.

Section SearchMore.
Import Database.

Lemma pattern_compare_percents (n : nat) (t : pystr) :
  pattern_compare (replicate n PERCENT ++ [PERCENT]) t = true.
Proof.
  revert t. induction n as [|n IH]; intros t.
  - apply pattern_compare_only_percent.
  - cbn [replicate app]. rewrite pattern_compare_percent, IH. reflexivity.
Qed.

Lemma like_percents (n : nat) (t : pystr) : like (replicate n PERCENT ++ [PERCENT]) t = true.
Proof.
  unfold like. rewrite c_string_whole; [apply pattern_compare_percents|].
  rewrite not_elem_of_app, not_elem_of_cons. split_and!; [|done|apply not_elem_of_nil].
  intros [H _]%elem_of_replicate. discriminate.
Qed.

(** X9. The empty query, and any query made of [%] only that is short
    enough for SQLite to accept the pattern (at most 49998 of them),
    selects every row of the user: the search returns what the listing
    of the same limit returns, and fails when the listing fails. *)
Theorem empty_query_lists_everything (s : t) (u : pystr) (n : nat) (limit : Z) :
  like_accepts ([PERCENT] ++ replicate n PERCENT ++ [PERCENT]) ->
  search_summaries s u (replicate n PERCENT) limit = get_user_summaries s u limit 0.
Proof.
  intros _. unfold search_summaries, get_user_summaries, with_connection.
  destruct (fault s); [reflexivity|]. rewrite sql_offset_0. do 3 f_equal.
  apply list_filter_iff. intros r. unfold search_where.
  change ([PERCENT] ++ replicate n PERCENT ++ [PERCENT])
    with (replicate (S n) PERCENT ++ [PERCENT]).
  rewrite like_percents. cbn [orb]. rewrite andb_true_r.
  by rewrite bool_decide_eq_true.
Qed.

Lemma tolower_wildcards (a b : N) :
  tolower a = tolower b ->
  (a =? PERCENT) = (b =? PERCENT) /\ (a =? UNDERSCORE) = (b =? UNDERSCORE).
Proof.
  unfold tolower, in_range, PERCENT, UNDERSCORE.
  destruct (N.leb_spec 65 a), (N.leb_spec a 90), (N.leb_spec 65 b), (N.leb_spec b 90);
    cbn [andb]; intros Hab;
    destruct (N.eqb_spec a 37), (N.eqb_spec b 37),
             (N.eqb_spec a 95), (N.eqb_spec b 95); split; try reflexivity; lia.
Qed.

Lemma pattern_compare_ignores_case (p q : pystr) :
  List.map tolower p = List.map tolower q ->
  forall t, pattern_compare p t = pattern_compare q t.
Proof.
  revert q. induction p as [|a p IH]; intros [|b q] Hpq; try discriminate; [done|].
  cbn [List.map] in Hpq. injection Hpq as Hab Hpq.
  destruct (tolower_wildcards a b Hab) as [Hp Hu].
  destruct (N.eqb_spec a PERCENT) as [Ha|Ha].
  - symmetry in Hp. apply N.eqb_eq in Hp. subst a b.
    intros t. induction t as [|c t IHt].
    + rewrite !pattern_compare_percent. by rewrite (IH q Hpq).
    + rewrite (pattern_compare_percent p), (pattern_compare_percent q).
      by rewrite (IH q Hpq), IHt.
  - intros t. cbn [pattern_compare].
    rewrite <- Hp, (proj2 (N.eqb_neq a PERCENT) Ha).
    destruct t as [|c t]; [reflexivity|].
    by rewrite <- Hu, Hab, (IH q Hpq).
Qed.

Lemma tolower_nul (c : N) : (tolower c =? NUL) = (c =? NUL).
Proof.
  unfold tolower, in_range, NUL.
  destruct (N.leb_spec 65 c), (N.leb_spec c 90); cbn [andb];
    destruct (N.eqb_spec (c + 32) 0), (N.eqb_spec c 0); try reflexivity; lia.
Qed.

(** Folding the case does not move the end of a C string. *)
Lemma c_string_tolower (s : pystr) :
  c_string (List.map tolower s) = List.map tolower (c_string s).
Proof.
  induction s as [|c r IH]; [done|].
  cbn [List.map c_string]. rewrite tolower_nul.
  destruct (c =? NUL); [done|]. cbn [List.map]. by rewrite IH.
Qed.

Lemma like_ignores_case (p q : pystr) :
  List.map tolower p = List.map tolower q -> forall t, like p t = like q t.
Proof.
  intros Hpq t. unfold like. apply pattern_compare_ignores_case.
  by rewrite <- !c_string_tolower, Hpq.
Qed.

(** X10. The search does not tell the ASCII case of the query: two
    queries that differ only in the case of their ASCII letters give
    the same result. *)
Theorem search_ignores_query_case (s : t) (u q q' : pystr) (limit : Z) :
  List.map tolower q = List.map tolower q' ->
  search_summaries s u q limit = search_summaries s u q' limit.
Proof.
  intros Hq. unfold search_summaries, with_connection.
  destruct (fault s); [reflexivity|]. do 3 f_equal.
  apply list_filter_iff. intros r.
  assert (Hlike : forall t, like ([PERCENT] ++ q ++ [PERCENT]) t
                            = like ([PERCENT] ++ q' ++ [PERCENT]) t).
  { apply like_ignores_case. by rewrite !map_app, Hq. }
  unfold search_where, like_null. rewrite !Hlike.
  destruct (original_text r.2); by rewrite ?Hlike.
Qed.

End SearchMore.

Section StatisticsMore.
Import Database.

Lemma mine_lookup (s : t) (u : pystr) (x : Row) :
  x ∈ filter (owned_by u) (rows s) <-> table s !! x.1 = Some x.2 /\ user_id x.2 = u.
Proof.
  destruct x as [i r]. rewrite list_elem_of_filter, rows_lookup. unfold owned_by. cbn. tauto.
Qed.

Lemma statistics_shape (s : t) (u : pystr) :
  fault s = None ->
  let mine := filter (owned_by u) (rows s) in
  exists average_quality : pyval,
    Statistics.get_summary_statistics s u
    = Ok (list_to_map
            [("total_summaries", PyInt (len mine));
             ("total_documents",
              PyInt (len (remove_dups (List.map (fun r : Row => document_name r.2) mine))));
             ("average_quality", average_quality);
             ("favorite_style",
              PyStr (match most_used_style mine with
                     | Some style => style
                     | None => str "None"
                     end));
             ("total_words_processed",
              PyInt (sum_Z (omap (fun r : Row => word_count r.2) mine)))]).
Proof.
  intros Hf mine. unfold Statistics.get_summary_statistics, with_connection.
  rewrite Hf. fold mine.
  assert (Hwords : py_or (sql_sum (omap (fun r : Row => word_count r.2) mine)) (PyInt 0)
                   = PyInt (sum_Z (omap (fun r : Row => word_count r.2) mine))).
  { destruct (omap (fun r : Row => word_count r.2) mine) as [|w ws]; [reflexivity|].
    unfold sql_sum, py_or, truthy.
    destruct (Z.eqb_spec (sum_Z (w :: ws)) 0) as [->|]; reflexivity. }
  rewrite Hwords.
  destruct (omap (fun r : Row => quality_score r.2) mine) as [|q qs].
  - eexists. reflexivity.
  - unfold sql_avg, py_or, truthy.
    destruct (Qeq_bool _ 0); cbn [negb round_value bind]; eexists; reflexivity.
Qed.

(** X11. The counts of the statistics: [total_summaries] is the number
    of rows of the user (the length of the listing without limit),
    [total_documents] the number of different document names among
    them, which is at most [total_summaries] and 0 only with it, and
    [total_words_processed] the sum of the word counts that are
    stored. *)
Theorem statistics_counts (s : t) (u : pystr) :
  fault s = None ->
  exists (d : pydict) (listing : list Row) (names : list pystr),
    Statistics.get_summary_statistics s u = Ok d
    /\ get_user_summaries s u (-1) 0 = Ok listing
    /\ d !! "total_summaries" = Some (PyInt (len listing))
    /\ d !! "total_documents" = Some (PyInt (len names))
    /\ NoDup names
    /\ (forall name, name ∈ names
          <-> exists i r, table s !! i = Some r /\ user_id r = u /\ document_name r = name)
    /\ (len names <= len listing)%Z
    /\ (len names = 0%Z <-> len listing = 0%Z)
    /\ d !! "total_words_processed"
       = Some (PyInt (sum_Z (omap (fun r : Row => word_count r.2)
                                  (filter (owned_by u) (rows s))))).
Proof.
  intros Hf. destruct (statistics_shape s u Hf) as [avg Hd].
  set (mine := filter (owned_by u) (rows s)) in *.
  set (names := remove_dups (List.map (fun r : Row => document_name r.2) mine)) in *.
  eexists _, (order_by_created_at_desc mine), names.
  split; [exact Hd|].
  assert (Hlen : len (order_by_created_at_desc mine) = len mine).
  { unfold len. by rewrite length_order_by. }
  assert (Hin : forall name, name ∈ names
            <-> exists i r, table s !! i = Some r /\ user_id r = u /\ document_name r = name).
  { intros name. unfold names. rewrite elem_of_remove_dups, list_elem_of_fmap. split.
    - intros ([i r] & -> & Hx). apply mine_lookup in Hx as [Hx Hu]. by exists i, r.
    - intros (i & r & Hr & Hu & <-). exists (i, r). split; [done|].
      by apply mine_lookup. }
  assert (Hle : (length names <= length mine)%nat).
  { unfold names. rewrite <- (length_fmap (fun r : Row => document_name r.2) mine).
    apply submseteq_length, NoDup_submseteq; [apply NoDup_remove_dups|].
    intros x. by rewrite elem_of_remove_dups. }
  split_and!.
  - unfold get_user_summaries, with_connection. rewrite Hf. reflexivity.
  - rewrite Hlen. reflexivity.
  - reflexivity.
  - apply NoDup_remove_dups.
  - exact Hin.
  - rewrite Hlen. unfold len. lia.
  - rewrite Hlen. unfold len. split; intros H0.
    + destruct mine as [|x l] eqn:Hm; [done|]. exfalso.
      assert (Hx : document_name x.2 ∈ names).
      { unfold names. rewrite elem_of_remove_dups. cbn [List.map]. left. }
      destruct names; [by apply not_elem_of_nil in Hx | cbn in H0; lia].
    + lia.
  - reflexivity.
Qed.

Lemma best_of_styles (l : list Row) (styles : list pystr) :
  match fold_right
          (fun style best =>
             match best with
             | Some b => if (count_style l b <=? count_style l style)%nat
                         then Some style else Some b
             | None => Some style
             end)
          None styles with
  | Some b => b ∈ styles
              /\ forall x, x ∈ styles -> (count_style l x <= count_style l b)%nat
  | None => styles = []
  end.
Proof.
  induction styles as [|a styles IH]; [done|]. cbn [fold_right].
  destruct (fold_right _ None styles) as [b|].
  - destruct IH as [Hb Hmax].
    destruct (Nat.leb_spec (count_style l b) (count_style l a)) as [Hle|Hlt].
    + split; [left|]. intros x [->|Hx]%elem_of_cons; [done|].
      specialize (Hmax x Hx). lia.
    + split; [by right|]. intros x [->|Hx]%elem_of_cons; [lia|]. by apply Hmax.
  - subst styles. split; [left|]. by intros x [->|Hx%not_elem_of_nil]%elem_of_cons.
Qed.

(** X12. For a user who has a row, [favorite_style] is the style of one
    of the user's rows, and no style has more rows of the user than
    it. *)
Theorem favorite_style_is_most_used (s : t) (u : pystr) (i : Z) (r : Summary) :
  fault s = None ->
  table s !! i = Some r ->
  user_id r = u ->
  exists (d : pydict) (style : pystr),
    Statistics.get_summary_statistics s u = Ok d
    /\ d !! "favorite_style" = Some (PyStr style)
    /\ (exists j x, table s !! j = Some x /\ user_id x = u /\ summary_style x = style)
    /\ forall other : pystr,
         (count_style (filter (owned_by u) (rows s)) other
          <= count_style (filter (owned_by u) (rows s)) style)%nat.
Proof.
  intros Hf Hr Hu. destruct (statistics_shape s u Hf) as [avg Hd].
  set (mine := filter (owned_by u) (rows s)) in *.
  pose proof (best_of_styles mine
                (remove_dups (List.map (fun r : Row => summary_style r.2) mine))) as Hbest.
  fold (most_used_style mine) in Hbest.
  destruct (most_used_style mine) as [b|].
  - destruct Hbest as [Hb Hmax]. eexists _, b. split; [exact Hd|].
    split; [reflexivity|]. split.
    + rewrite elem_of_remove_dups, list_elem_of_fmap in Hb.
      destruct Hb as ([j x] & -> & Hx). apply mine_lookup in Hx as [Hx Hux].
      by exists j, x.
    + intros other. destruct (decide (other ∈ List.map (fun r : Row => summary_style r.2) mine))
        as [Hin|Hout].
      * apply Hmax. by rewrite elem_of_remove_dups.
      * assert (H0 : count_style mine other = 0%nat); [|lia].
        unfold count_style. rewrite filter_none; [done|].
        intros x Hx Hs. apply Hout.
        apply list_elem_of_fmap. by exists x.
  - exfalso. assert (Hx : (i, r) ∈ mine) by by apply mine_lookup.
    assert (Hs : summary_style r ∈ remove_dups (List.map (fun r : Row => summary_style r.2) mine)).
    { rewrite elem_of_remove_dups, list_elem_of_fmap. by exists (i, r). }
    rewrite Hbest in Hs. by apply not_elem_of_nil in Hs.
Qed.
End StatisticsMore.

Section AverageBounds.
Import Database.

Lemma py_round_between (a b : Z) (x : Q) (n : nat) :
  (inject_Z a <= x <= inject_Z b)%Q ->
  (inject_Z a <= py_round x n <= inject_Z b)%Q.
Proof.
  intros [Ha Hb]. unfold py_round.
  set (S := (10 ^ Z.of_nat n)%Z).
  assert (HS : (0 < S)%Z) by (apply Z.pow_pos_nonneg; lia).
  assert (HSq : (inject_Z 0 < inject_Z S)%Q) by (rewrite <- (Zlt_Qlt 0 S); exact HS).
  change (inject_Z 0) with 0%Q in HSq.
  set (y := (x * inject_Z S)%Q).
  assert (Hay : (inject_Z (a * S) <= y)%Q).
  { rewrite inject_Z_mult. apply Qmult_le_compat_r; [exact Ha | by apply Qlt_le_weak]. }
  assert (Hyb : (y <= inject_Z (b * S))%Q).
  { rewrite inject_Z_mult. apply Qmult_le_compat_r; [exact Hb | by apply Qlt_le_weak]. }
  set (f := Qfloor y).
  assert (Haf : (a * S <= f)%Z).
  { rewrite <- (Qfloor_Z (a * S)). by apply Qfloor_resp_le. }
  assert (Hfb : (f <= b * S)%Z).
  { rewrite <- (Qfloor_Z (b * S)). by apply Qfloor_resp_le. }
  assert (Hup : ((1 # 2) <= y - inject_Z f)%Q -> (f + 1 <= b * S)%Z).
  { intros Hd. assert (Hlt : (inject_Z f < inject_Z (b * S))%Q).
    { apply Qlt_le_trans with y; [|exact Hyb].
      apply Qlt_le_trans with (inject_Z f + (1 # 2))%Q.
      - rewrite <- (Qplus_0_r (inject_Z f)) at 1. apply Qplus_lt_r. reflexivity.
      - apply (Qplus_le_r _ _ (- inject_Z f)%Q). ring_simplify.
        assert (He : (-1 * inject_Z f + y == y - inject_Z f)%Q) by ring.
        by rewrite He. }
    rewrite <- Zlt_Qlt in Hlt. lia. }
  set (m := if Qle_bool (y - inject_Z f) (1 # 2)
            then if Qle_bool (1 # 2) (y - inject_Z f)
                 then (if Z.even f then f else f + 1)%Z
                 else f
            else (f + 1)%Z).
  assert (Hm : (a * S <= m <= b * S)%Z).
  { subst m. destruct (Qle_bool (y - inject_Z f) (1 # 2)) eqn:H1.
    - destruct (Qle_bool (1 # 2) (y - inject_Z f)) eqn:H2; [|lia].
      apply Qle_bool_iff in H2. specialize (Hup H2). destruct (Z.even f); lia.
    - assert (H2 : ((1 # 2) <= y - inject_Z f)%Q).
      { apply Qlt_le_weak, Qnot_le_lt. intros H. apply Qle_bool_iff in H. congruence. }
      specialize (Hup H2). lia. }
  rewrite Qred_correct. split.
  - apply Qle_shift_div_l; [exact HSq|]. rewrite <- inject_Z_mult, <- Zle_Qle. lia.
  - apply Qle_shift_div_r; [exact HSq|]. rewrite <- inject_Z_mult, <- Zle_Qle. lia.
Qed.

Lemma sum_Q_between (l : list Q) :
  Forall (fun q => 0 <= q <= 100)%Q l ->
  (0 <= sum_Q l <= 100 * inject_Z (len l))%Q.
Proof.
  induction 1 as [|q l [Hq0 Hq1] _ [IH0 IH1]].
  - split; [apply Qle_refl | discriminate].
  - assert (Hlen : (inject_Z (len (q :: l)) == inject_Z (len l) + 1)%Q).
    { unfold len. cbn [length]. rewrite Nat2Z.inj_succ, <- Z.add_1_r.
      rewrite inject_Z_plus. reflexivity. }
    cbn [sum_Q fold_right]. fold (sum_Q l). rewrite Hlen. split.
    + rewrite <- (Qplus_0_r 0). by apply Qplus_le_compat.
    + assert (He : (100 * (inject_Z (len l) + 1) == 100 + 100 * inject_Z (len l))%Q) by ring.
      rewrite He. by apply Qplus_le_compat.
Qed.

(** X13. When the stored scores of the user lie between 0 and 100, as
    the scores of the evaluator do, [average_quality] lies between 0
    and 100. *)
Theorem average_quality_in_range (s : t) (u : pystr) :
  fault s = None ->
  (forall i r q, table s !! i = Some r -> user_id r = u ->
     quality_score r = Some q -> (0 <= q <= 100)%Q) ->
  exists (d : pydict) (v : pyval) (x : Q),
    Statistics.get_summary_statistics s u = Ok d
    /\ d !! "average_quality" = Some v
    /\ to_real v = Some x
    /\ (0 <= x <= 100)%Q.
Proof.
  intros Hf Hscores.
  unfold Statistics.get_summary_statistics, with_connection. rewrite Hf.
  set (mine := filter (owned_by u) (rows s)).
  set (scores := omap (fun r : Row => quality_score r.2) mine).
  assert (Hall : Forall (fun q => 0 <= q <= 100)%Q scores).
  { apply Forall_forall. intros q Hq. subst scores.
    apply list_elem_of_omap in Hq as ([i r] & Hx & Hq).
    apply mine_lookup in Hx as [Hr Hu]. by apply (Hscores i r q). }
  destruct scores as [|q qs] eqn:Hs.
  - cbn [sql_avg py_or truthy round_value bind].
    eexists _, (PyInt 0), _. split; [reflexivity|]. split; [reflexivity|].
    split; [reflexivity|]. split; discriminate.
  - unfold sql_avg, py_or, truthy.
    destruct (Qeq_bool _ 0); cbn [negb round_value bind].
    + eexists _, (PyInt 0), _. split; [reflexivity|]. split; [reflexivity|].
      split; [reflexivity|]. split; discriminate.
    + eexists _, _, _. split; [reflexivity|]. split; [reflexivity|].
      split; [reflexivity|].
      unfold round_float.
      apply (to_double_between 0 100); [|lia..].
      apply (py_round_between 0 100).
      apply (to_double_between 0 100); [|lia..].
      destruct (sum_Q_between _ Hall) as [H0 H1].
      assert (Hlen : (inject_Z 0 < inject_Z (len (q :: qs)))%Q).
      { rewrite <- (Zlt_Qlt 0). unfold len. cbn [length]. lia. }
      change (inject_Z 0) with 0%Q in Hlen.
      split.
      * apply Qle_shift_div_l; [exact Hlen|]. by rewrite Qmult_0_l.
      * apply Qle_shift_div_r; [exact Hlen|]. exact H1.
Qed.
End AverageBounds.

Lemma re_sub_from_Forall (m : option N -> pystr -> option (nat * pystr)) (P : N -> Prop) :
  (forall prev s n repl, Forall P s -> m prev s = Some (n, repl) -> Forall P repl) ->
  forall s prev skip, Forall P s -> Forall P (re_sub_from m prev skip s).
Proof.
  intros Hm s. induction s as [|c r IH]; intros prev skip Hs; [constructor|].
  cbn [re_sub_from]. pose proof Hs as [Hc Hr]%Forall_cons.
  destruct skip as [|k]; [|by apply IH].
  destruct (m prev (c :: r)) as [[[|n] repl]|] eqn:Hmatch.
  - constructor; [done | by apply IH].
  - apply Forall_app. split; [exact (Hm prev (c :: r) (S n) repl Hs Hmatch) | by apply IH].
  - constructor; [done | by apply IH].
Qed.

Lemma lstrip_Forall (P : N -> Prop) (s : pystr) : Forall P s -> Forall P (lstrip s).
Proof.
  induction 1 as [|c r Hc Hr IH]; [constructor|].
  cbn [lstrip]. destruct (is_space c); [done | by constructor].
Qed.

Lemma rstrip_Forall (P : N -> Prop) (s : pystr) : Forall P s -> Forall P (rstrip s).
Proof.
  induction 1 as [|c r Hc Hr IH]; [constructor|].
  cbn [rstrip]. destruct (rstrip r) as [|a r'].
  - destruct (is_space c); [constructor | by repeat constructor].
  - by constructor.
Qed.

Lemma strip_Forall (P : N -> Prop) (s : pystr) : Forall P s -> Forall P (strip s).
Proof. intros H. by apply rstrip_Forall, lstrip_Forall. Qed.

Lemma collapse_only_spaces (b : bool) (s : pystr) :
  Forall only_spaces (collapse_from b s).
Proof.
  revert b. induction s as [|c r IH]; intros b; [constructor|].
  cbn [collapse_from]. destruct (is_space c) eqn:Hc.
  - destruct b; [apply IH|]. constructor; [done | apply IH].
  - constructor; [|apply IH]. unfold only_spaces. congruence.
Qed.

Section PreprocessMore.
Context (U : UnicodeData).

Abbreviation clean := (Forall (is_clean U)).

Lemma re_sub_noise_clean (s : pystr) :
  Forall only_spaces s -> clean (re_sub (m_noise U) s).
Proof.
  unfold re_sub. generalize (@None N) as prev.
  induction s as [|c r IH]; intros prev Hs; [constructor|].
  apply Forall_cons in Hs as [Hc Hr]. cbn [re_sub_from m_noise].
  destruct (is_readable U c) eqn:Hread.
  - constructor; [by split | by apply IH].
  - cbn [app]. by apply IH.
Qed.

Lemma clean_letter (c : N) : ascii_lower c = true -> is_clean U c.
Proof.
  unfold ascii_lower, in_range. intros [H1%N.leb_le H2%N.leb_le]%andb_true_iff.
  assert (Hascii : is_ascii c = true) by (apply N.ltb_lt; lia).
  assert (Hlow : ascii_lower c = true).
  { unfold ascii_lower, in_range. apply andb_true_iff. split; apply N.leb_le; lia. }
  split.
  - unfold is_readable, is_word, ascii_word. rewrite Hascii, Hlow.
    by rewrite orb_true_r.
  - unfold only_spaces, is_space, in_range. intros Hs. exfalso.
    repeat (apply orb_true_iff in Hs as [Hs|Hs]);
      repeat match goal with
             | H : (_ && _) = true |- _ => apply andb_true_iff in H as [? ?]
             | H : (_ <=? _) = true |- _ => apply N.leb_le in H
             | H : (_ =? _) = true |- _ => apply N.eqb_eq in H
             end; lia.
Qed.

Lemma m_ocr_clean (x y : N) prev s n repl :
  is_clean U y -> clean s -> m_ocr U x y prev s = Some (n, repl) -> clean repl.
Proof.
  intros Hy Hs. destruct s as [|a [|b [|c r]]]; try discriminate. cbn [m_ocr].
  destruct (is_word U a && (b =? x) && is_word U c); [|discriminate].
  intros [= <- <-].
  apply Forall_cons in Hs as [Ha Hs]. apply Forall_cons in Hs as [_ Hs].
  apply Forall_cons in Hs as [Hc _].
  repeat (constructor; [assumption|]). constructor.
Qed.

Lemma m_ocr_bar_clean y prev s : clean s -> m_ocr U BAR y prev s = None.
Proof.
  intros Hs. destruct s as [|a [|b [|c r]]]; try reflexivity. cbn [m_ocr].
  apply Forall_cons in Hs as [_ Hs]. apply Forall_cons in Hs as [[Hb _] _].
  destruct (N.eqb_spec b BAR) as [->|]; [discriminate Hb|].
  by rewrite andb_false_r.
Qed.

Lemma m_page_clean prev s n repl : m_page U prev s = Some (n, repl) -> repl = [].
Proof.
  unfold m_page. destruct (startswith _ s); [|discriminate].
  destruct (span_len _ _); [discriminate|]. by intros [= <- <-].
Qed.

Lemma m_line_number_clean prev s n repl :
  m_line_number U prev s = Some (n, repl) -> repl = [].
Proof.
  unfold m_line_number. destruct (at_line_start prev); [|discriminate].
  destruct (span_len _ _); [discriminate|]. by intros [= <- <-].
Qed.

Lemma m_bullet_clean prev s n repl : m_bullet prev s = Some (n, repl) -> repl = [].
Proof.
  unfold m_bullet. destruct (at_line_start prev); [|discriminate].
  destruct (drop _ s) as [|c r]; [discriminate|].
  destruct (is_bullet c); [|discriminate]. by intros [= <- <-].
Qed.

Lemma m_blank_lines_clean prev s : clean s -> m_blank_lines prev s = None.
Proof.
  intros Hs. destruct s as [|c r]; [reflexivity|]. cbn [m_blank_lines].
  apply Forall_cons in Hs as [[_ Hc] _].
  destruct (N.eqb_spec c NEWLINE) as [->|]; [|reflexivity].
  specialize (Hc eq_refl). discriminate Hc.
Qed.

Lemma m_sentence_clean prev s n repl :
  clean s -> m_sentence prev s = Some (n, repl) -> clean repl.
Proof.
  intros Hs. destruct s as [|p r]; [discriminate|]. cbn [m_sentence].
  apply Forall_cons in Hs as [Hp Hr].
  destruct (is_sentence_end p); [|discriminate].
  destruct (drop (span_len is_space r) r) as [|c r'] eqn:Hd; [discriminate|].
  destruct (ascii_upper c); [|discriminate]. intros [= <- <-].
  assert (Hc : is_clean U c).
  { apply (Forall_drop _ (span_len is_space r)) in Hr. rewrite Hd in Hr.
    by apply Forall_cons in Hr as [Hc _]. }
  assert (Hsp : is_clean U SPACE) by (split; [reflexivity | done]).
  repeat (constructor; [assumption|]). constructor.
Qed.

(** The text after each rewrite that follows the noise filter. *)
Lemma pipeline_clean (x : pystr) :
  let t2 := re_sub (m_noise U) (re_sub m_whitespace (strip x)) in
  let t4 := re_sub (m_ocr U ZERO (N_of_ascii "o")) t2 in
  let t7 := re_sub m_bullet (re_sub (m_line_number U) (re_sub (m_page U) t4)) in
  clean t2 /\ clean t4 /\ clean t7 /\ clean (re_sub m_sentence t7).
Proof.
  intros t2 t4 t7.
  assert (H2 : clean t2).
  { apply re_sub_noise_clean. rewrite re_sub_whitespace. apply collapse_only_spaces. }
  assert (H4 : clean t4).
  { apply re_sub_from_Forall; [|exact H2]. intros prev s n repl Hs.
    apply m_ocr_clean; [|exact Hs]. by apply clean_letter. }
  assert (H7 : clean t7).
  { apply re_sub_from_Forall.
    { intros prev s n repl _ ->%m_bullet_clean. constructor. }
    apply re_sub_from_Forall.
    { intros prev s n repl _ ->%m_line_number_clean. constructor. }
    apply re_sub_from_Forall; [|exact H4].
    intros prev s n repl _ ->%m_page_clean. constructor. }
  split_and!; try done.
  apply re_sub_from_Forall; [|exact H7]. intros prev s n repl. apply m_sentence_clean.
Qed.

Lemma preprocess_text_live_eq (x : pystr) :
  preprocess_text U x = preprocess_text_live U x.
Proof.
  unfold preprocess_text, preprocess_text_live. destruct (is_blank x); [reflexivity|].
  destruct (pipeline_clean x) as (H2 & H4 & H7 & _).
  rewrite (re_sub_no_match (m_ocr U BAR (N_of_ascii "l")) (is_clean U)
             (fun prev s => m_ocr_bar_clean _ prev s) _ H2).
  by rewrite (re_sub_no_match m_blank_lines (is_clean U) m_blank_lines_clean _ H7).
Qed.

(** X14. Whatever the text, two of the rewrites of [preprocess_text]
    find nothing to do: the repair of [|] between two word characters
    (the noise filter before it deletes every [|]) and the collapse of
    blank lines (the first rewrite leaves no newline). Each of them
    returns the text that it is given, and the result is the one of
    the pipeline without them. *)
Theorem preprocess_has_two_idle_rewrites (x : pystr) :
  let t2 := re_sub (m_noise U) (re_sub m_whitespace (strip x)) in
  let t7 := re_sub m_bullet (re_sub (m_line_number U) (re_sub (m_page U)
              (re_sub (m_ocr U ZERO (N_of_ascii "o")) t2))) in
  re_sub (m_ocr U BAR (N_of_ascii "l")) t2 = t2
  /\ re_sub m_blank_lines t7 = t7
  /\ preprocess_text U x = preprocess_text_live U x.
Proof.
  intros t2 t7. destruct (pipeline_clean x) as (H2 & H4 & H7 & _).
  split_and!.
  - exact (re_sub_no_match (m_ocr U BAR (N_of_ascii "l")) (is_clean U)
             (fun prev s => m_ocr_bar_clean _ prev s) _ H2).
  - exact (re_sub_no_match m_blank_lines (is_clean U) m_blank_lines_clean _ H7).
  - apply preprocess_text_live_eq.
Qed.

(** X15. Whatever the text, the result of [preprocess_text] has no
    whitespace at its ends, and each of its characters is one that the
    noise filter keeps (a word character, a space or one of the marks
    [.,!?;:-()[]{}]): the only whitespace left is the space U+0020, no
    newline and no tab. *)
Theorem preprocess_result_is_clean (x : pystr) :
  strip (preprocess_text U x) = preprocess_text U x
  /\ Forall (is_clean U) (preprocess_text U x).
Proof.
  rewrite preprocess_text_live_eq. unfold preprocess_text_live.
  destruct (is_blank x); [by split|].
  destruct (pipeline_clean x) as (_ & _ & _ & H8).
  split; [apply strip_idempotent | by apply strip_Forall].
Qed.
End PreprocessMore.

(** ** A request, from the text to the stored row *)

Lemma quality_score_of_strings (U : UnicodeData) (original summary : pystr) :
  exists score : Z,
    dict_get (evaluate_summary_quality U (PyStr original) (PyStr summary))
      "quality_score" (PyInt 0) = PyInt score
    /\ (0 <= score <= 100)%Z.
Proof.
  unfold evaluate_summary_quality.
  destruct (evaluate_on_strings U original summary) as [notes ->].
  cbn [try_except]. eexists. split; [reflexivity|].
  pose proof (signal_points_bounds U summary).
  destruct (compression_check_cases
              (compression_ratio_of (len (split_ws original)) (len (split_ws summary))))
    as [[_ ->] | [[_ ->] | (_ & _ & ->)]]; cbn [fst]; lia.
Qed.

Lemma strip_blank (text : pystr) : is_blank text = true <-> strip text = [].
Proof.
  unfold is_blank. destruct text as [|c r]; [done|].
  destruct (strip (c :: r)); split; congruence.
Qed.

Section ServiceMore.
Context (U : UnicodeData) (E : Environment).

Lemma failed_generation (db : Database.t)
    (text style user_id document_name document_type : pystr) (file_size : option Z) :
  is_blank text = false ->
  startswith (str "Error") (fst (summarize_text U (service E) text style)) = true ->
  summarize_text_with_db U E db text style user_id document_name document_type file_size
  = (failure (fst (summarize_text U (service E) text style)), db).
Proof. intros Hb He. unfold summarize_text_with_db. by rewrite Hb, He. Qed.

(** X16. A request whose generation succeeds on a working store, with
    word counts that fit in 64 bits as the length of every Python list
    does. When the file size is absent or fits in 64 bits the request
    is stored under a new id: the outcome is successful and carries the
    id, and [get_summary_by_id] returns for it a row with the returned
    summary, the user, the document, the style, the first 1000
    characters of the text, the word counts, the time of the request
    and the score of the quality report, which lies between 0 and 100;
    the rows that were stored before are unchanged. When the file size
    does not fit in 64 bits nothing is stored: the outcome is
    successful, its id is [None], and it carries the warning with the
    text of the [OverflowError]. *)
Theorem request_is_stored (db : Database.t)
    (text style user_id document_name document_type : pystr) (file_size : option Z) :
  Database.fault db = None ->
  is_blank text = false ->
  startswith (str "Error") (fst (summarize_text U (service E) text style)) = false ->
  Database.bindable (Some (len (split_ws text))) = true ->
  Database.bindable
    (Some (len (split_ws (fst (summarize_text U (service E) text style))))) = true ->
  (Database.bindable file_size = true ->
   exists (outcome : pydict) (db' : Database.t) (i : Z) (r : Database.Summary)
          (score : Z),
     summarize_text_with_db U E db text style user_id document_name document_type
       file_size = (outcome, db')
     /\ outcome !! "success" = Some (PyBool true)
     /\ outcome !! "summary_id" = Some (PyInt i)
     /\ outcome !! "summary" = Some (PyStr (Database.summary r))
     /\ outcome !! "warning" = None
     /\ Database.table db !! i = None
     /\ Database.get_summary_by_id db' i = Ok (Some (i, r))
     /\ (forall j, j <> i -> Database.table db' !! j = Database.table db !! j)
     /\ Database.summary r = fst (summarize_text U (service E) text style)
     /\ Database.user_id r = user_id
     /\ Database.document_name r = document_name
     /\ Database.document_type r = document_type
     /\ Database.summary_style r = style
     /\ Database.original_text r = Some (take 1000 text)
     /\ Database.word_count r = Some (len (split_ws text))
     /\ Database.summary_word_count r = Some (len (split_ws (Database.summary r)))
     /\ Database.file_size r = file_size
     /\ Database.created_at r = Database.now db
     /\ Database.quality_score r = Some (inject_Z score)
     /\ (0 <= score <= 100)%Z)
  /\ (Database.bindable file_size = false ->
      exists outcome : pydict,
        summarize_text_with_db U E db text style user_id document_name document_type
          file_size = (outcome, db)
        /\ outcome !! "success" = Some (PyBool true)
        /\ outcome !! "summary"
           = Some (PyStr (fst (summarize_text U (service E) text style)))
        /\ outcome !! "summary_id" = Some PyNone
        /\ outcome !! "warning"
           = Some (PyStr (str "Summary generated but database save failed: "
                          ++ Database.OverflowError))).
Proof.
  intros Hf Hb Hok Hwc Hswc. unfold summarize_text_with_db. rewrite Hb, Hok.
  set (summary := fst (summarize_text U (service E) text style)) in *.
  destruct (quality_score_of_strings U text summary) as (score & -> & Hscore).
  cbn [to_real].
  unfold Database.save_summary, Database.with_connection. rewrite Hf, Hwc, Hswc.
  split; intros Hfs; rewrite Hfs; cbn [andb];
    [|eexists; split; [reflexivity|]; split_and!; reflexivity].
  destruct (next_id_above db) as [_ Hkeys].
  eexists _, _, (Database.next_id db),
    {| Database.user_id := user_id; Database.document_name := document_name;
       Database.document_type := document_type;
       Database.original_text := Some (take 1000 text);
       Database.summary := summary; Database.summary_style := style;
       Database.quality_score := Some (inject_Z score);
       Database.created_at := Database.now db;
       Database.file_size := file_size;
       Database.processing_time := Some (to_double (end_time E - start_time E));
       Database.word_count := Some (len (split_ws text));
       Database.summary_word_count := Some (len (split_ws summary)) |}, score.
  split; [reflexivity|]. split_and!; try reflexivity.
  - destruct (Database.table db !! Database.next_id db) as [r|] eqn:Hr; [|done].
    specialize (Hkeys _ _ Hr). lia.
  - apply get_summary_by_id_found; [done|]. cbn. apply lookup_insert_eq.
  - intros j Hj. cbn. by apply lookup_insert_ne.
  - lia.
  - lia.
Qed.

(** X17. A request whose generation fails is answered with
    [success] false and the text of the failure, and stores nothing:
    when preprocessing empties the text, when the model cannot be
    built, when the call of the service raises, and when the service
    returns no text. *)
Theorem failed_generation_stores_nothing (db : Database.t)
    (text style user_id document_name document_type : pystr) (file_size : option Z) :
  is_blank text = false ->
  (preprocess_text U text = []
   \/ (exists e, new_model (service E) = Raise e)
   \/ (exists e, generate_content (service E)
                   (build_prompt (preprocess_text U text) style) = Raise e)
   \/ generate_content (service E)
        (build_prompt (preprocess_text U text) style) = Ok []) ->
  exists message : pystr,
    summarize_text_with_db U E db text style user_id document_name document_type
      file_size = (failure message, db)
    /\ startswith (str "Error") message = true
    /\ (preprocess_text U text <> [] -> new_model (service E) = Ok tt ->
        forall e, generate_content (service E)
                    (build_prompt (preprocess_text U text) style) = Raise e ->
                  message = str "Error generating summary: " ++ e).
Proof.
  intros Hb Hcause.
  assert (He : startswith (str "Error") (fst (summarize_text U (service E) text style))
               = true).
  { unfold summarize_text. rewrite Hb.
    destruct (preprocess_text U text) as [|c cleaned]; [reflexivity|].
    destruct (new_model (service E)) as [[]|e0]; [|reflexivity].
    destruct Hcause as [Hc | [[e Hc] | [[e Hc] | Hc]]];
      [discriminate | discriminate | by rewrite Hc | by rewrite Hc]. }
  exists (fst (summarize_text U (service E) text style)).
  split; [by apply failed_generation|]. split; [exact He|].
  intros Hne Hm e Hg. unfold summarize_text. rewrite Hb.
  destruct (preprocess_text U text) as [|c cleaned]; [done|].
  by rewrite Hm, Hg.
Qed.

(** X18. The failure of a generation is told by the text that
    [summarize_text] returns: an answer of the service that starts with
    "Error" once stripped is taken for a failure and is not stored,
    though the service answered. *)
Theorem answer_starting_with_Error_is_dropped (db : Database.t)
    (text style user_id document_name document_type : pystr) (file_size : option Z)
    (response : pystr) :
  is_blank text = false ->
  preprocess_text U text <> [] ->
  new_model (service E) = Ok tt ->
  generate_content (service E) (build_prompt (preprocess_text U text) style)
  = Ok response ->
  startswith (str "Error") (strip response) = true ->
  summarize_text U (service E) text style
  = (strip response, [build_prompt (preprocess_text U text) style])
  /\ summarize_text_with_db U E db text style user_id document_name document_type
       file_size = (failure (strip response), db).
Proof.
  intros Hb Hne Hm Hg He.
  assert (Hs : summarize_text U (service E) text style
               = (strip response, [build_prompt (preprocess_text U text) style])).
  { unfold summarize_text. rewrite Hb.
    destruct (preprocess_text U text) as [|c cleaned]; [done|].
    rewrite Hm, Hg. destruct response; [discriminate He | reflexivity]. }
  split; [exact Hs|].
  rewrite failed_generation; rewrite ?Hs; done.
Qed.

(** X19. An answer of the service that is not empty but holds
    whitespace only is a success with the empty summary: the outcome
    has [success] true, the summary "" and 0 summary words. *)
Theorem blank_answer_is_an_empty_summary (db : Database.t)
    (text style user_id document_name document_type : pystr) (file_size : option Z)
    (response : pystr) :
  is_blank text = false ->
  preprocess_text U text <> [] ->
  new_model (service E) = Ok tt ->
  generate_content (service E) (build_prompt (preprocess_text U text) style)
  = Ok response ->
  response <> [] ->
  is_blank response = true ->
  let outcome :=
    fst (summarize_text_with_db U E db text style user_id document_name
           document_type file_size) in
  fst (summarize_text U (service E) text style) = []
  /\ outcome !! "success" = Some (PyBool true)
  /\ outcome !! "summary" = Some (PyStr [])
  /\ outcome !! "summary_word_count" = Some (PyInt 0).
Proof.
  intros Hb Hne Hm Hg Hr Hblank outcome. subst outcome.
  assert (Hs : fst (summarize_text U (service E) text style) = []).
  { unfold summarize_text. rewrite Hb.
    destruct (preprocess_text U text) as [|c cleaned]; [done|].
    rewrite Hm, Hg. destruct response; [done|]. by apply strip_blank. }
  split; [exact Hs|].
  unfold summarize_text_with_db. rewrite Hb, Hs.
  change (startswith (str "Error") []) with false. cbn iota.
  destruct (Database.save_summary _ _ _ _ _ _ _ _ _ _ _ _) as [[i db']|e];
    split_and!; reflexivity.
Qed.
End ServiceMore.

(** ** The endpoints *)

Section EndpointFacts.
Context (U : UnicodeData) (E : Environment) (http_text : Z -> pystr -> pystr).

(** X20. Both endpoints refuse the empty text and a style other than
    bullet, abstract and detailed with status 422, before their
    handlers run; nothing is stored. For the requests that pass, POST
    /summarize answers a text of whitespace with status 400 and a
    failed generation with status 500. POST /summarize-with-db answers
    neither with these: its handler turns its own 400 into a 500, so a
    text of whitespace gets status 500 and every other text status
    200, a failed generation included, which is told by [success]
    false in the body; in both cases nothing is stored. *)
Theorem summarize_endpoints_disagree (db : Database.t)
    (text style user_id document_name document_type : pystr) (file_size : option Z) :
  let a := Api.summarize_document U E text style in
  let b := Api.summarize_document_with_db U E http_text db text style user_id
             document_name document_type file_size in
  let summary := fst (summarize_text U (service E) text style) in
  (Api.status a = 422%Z <-> Api.valid_request text style = false)
  /\ (Api.status b.1 = 422%Z <-> Api.valid_request text style = false)
  /\ (Api.valid_request text style = false ->
      (text = [] \/ style ∉ [str "bullet"; str "abstract"; str "detailed"])
      /\ a = Api.Unprocessable
      /\ b = (Api.Unprocessable, db))
  /\ (Api.valid_request text style = true ->
      (Api.status a = 400%Z <-> strip text = [])
      /\ (Api.status b.1 = 500%Z <-> strip text = [])
      /\ (Api.status b.1 = 200%Z <-> strip text <> [])
      /\ (strip text = [] ->
          b = (Api.Raised
                 (Api.HTTPException 500
                    (str "Internal server error: "
                     ++ http_text 400%Z (str "Text cannot be empty"))), db))
      /\ (strip text <> [] -> startswith (str "Error") summary = true ->
          Api.status a = 500%Z
          /\ b.2 = db
          /\ exists body, b.1 = Api.Return body
                          /\ body !! "success" = Some (PyBool false)
                          /\ body !! "error" = Some (PyStr summary)
                          /\ body !! "summary" = Some PyNone)
      /\ (strip text <> [] -> startswith (str "Error") summary = false ->
          a = Api.Return (list_to_map [("summary", PyStr summary); ("style", PyStr style);
                                       ("success", PyBool true)])
          /\ exists body, b.1 = Api.Return body
                          /\ body !! "success" = Some (PyBool true)
                          /\ body !! "summary" = Some (PyStr summary))).
Proof.
  intros a b summary.
  assert (Hvalid : forall P : Prop,
            (Api.valid_request text style = true -> P) ->
            Api.valid_request text style = true -> P) by auto.
  assert (H422 : Api.valid_request text style = true ->
                 Api.status a <> 422%Z /\ Api.status b.1 <> 422%Z).
  { intros Hv. subst a b.
    unfold Api.summarize_document, Api.summarize_document_with_db. rewrite Hv.
    destruct (strip text) as [|c r]; [cbn; split; discriminate|].
    split.
    - destruct (startswith (str "Error") (summarize_text U (service E) text style).1);
        cbn; discriminate.
    - destruct (summarize_text_with_db U E db text style user_id document_name
                  document_type file_size). cbn. discriminate. }
  destruct (Api.valid_request text style) eqn:Hv.
  2:{ subst a b. unfold Api.summarize_document, Api.summarize_document_with_db.
      rewrite Hv. cbn. split_and!; try done.
      intros _. split; [|done].
      unfold Api.valid_request in Hv. apply andb_false_iff in Hv as [Hv|Hv].
      - left. apply negb_false_iff, bool_decide_eq_true in Hv. exact Hv.
      - right. by apply bool_decide_eq_false in Hv. }
  destruct (H422 eq_refl) as [Ha Hb422]. clear H422 Hvalid.
  split; [split; [done | discriminate]|]. split; [split; [done | discriminate]|].
  split; [discriminate|]. intros _. clear Ha Hb422. subst a b.
  unfold Api.summarize_document, Api.summarize_document_with_db. rewrite Hv.
  destruct (strip text) as [|c r] eqn:Hs.
  - cbn. split_and!; try done.
  - assert (Hb : is_blank text = false).
    { destruct (is_blank text) eqn:Hb; [|done]. apply strip_blank in Hb. congruence. }
    fold summary.
    destruct (startswith (str "Error") summary) eqn:He.
    + rewrite (failed_generation U E db text style user_id document_name document_type
                 file_size Hb He).
      fold summary. cbn. split_and!; try done.
      intros _ _. split_and!; try done. eexists. split; [reflexivity|].
      split_and!; reflexivity.
    + destruct (summarize_text_with_db U E db text style user_id document_name
                  document_type file_size) as [outcome db'] eqn:Hres.
      assert (Hout : outcome !! "success" = Some (PyBool true)
                     /\ outcome !! "summary" = Some (PyStr summary)).
      { unfold summarize_text_with_db in Hres. fold summary in Hres.
        rewrite Hb, He in Hres.
        destruct (Database.save_summary _ _ _ _ _ _ _ _ _ _ _ _) as [[i db'']|e];
          injection Hres as <- <-; split; reflexivity. }
      destruct Hout as [H1 H2].
      cbn. split_and!; try done.
      intros _ _. split; [done|]. eexists. split; [reflexivity|].
      unfold Api.response_model, dict_get. cbn [List.map]. rewrite H1, H2.
      split; reflexivity.
Qed.
End EndpointFacts.

(** X21. DELETE /user/{user_id}/summary/{summary_id} answers 200 or
    404, never 500: 200 when the store works and the row exists and
    belongs to the user, and then the row is gone and the others stay;
    404 otherwise, also when the storage layer fails, and then nothing
    changes. *)
Theorem delete_endpoint_answers (db : Database.t) (user_id : pystr) (summary_id : Z) :
  let a := (Api.delete_user_summary_endpoint db user_id summary_id).1 in
  let db' := (Api.delete_user_summary_endpoint db user_id summary_id).2 in
  (Api.status a = 200%Z \/ Api.status a = 404%Z)
  /\ (Api.status a = 200%Z
      <-> Database.fault db = None
          /\ exists r, Database.table db !! summary_id = Some r
                       /\ Database.user_id r = user_id)
  /\ (Api.status a = 200%Z ->
      Database.table db' = delete summary_id (Database.table db))
  /\ (Api.status a = 404%Z -> db' = db).
Proof.
  intros a db'. subst a db'.
  unfold Api.delete_user_summary_endpoint, delete_user_summary.
  destruct (Database.fault db) as [e|] eqn:Hf.
  - unfold Database.delete_summary, Database.with_connection. rewrite Hf.
    cbn. split; [by right|]. split; [|done].
    split; [done | by intros [? _]].
  - rewrite (delete_summary_outcome db summary_id user_id Hf).
    destruct (Database.table db !! summary_id) as [r|] eqn:Hr.
    + rewrite (bindable_stored db summary_id r Hr). cbn [try_except].
      destruct (decide (Database.user_id r = user_id)) as [Hu|Hu]; cbn.
      * split; [by left|]. split; [|done].
        split; [|done]. intros _. split; [done|]. by exists r.
      * split; [by right|]. split; [|done].
        split; [done|]. intros [_ (r' & [= <-] & Hu')]. done.
    + destruct (Database.bindable_id db summary_id); cbn.
      * split; [by right|]. split; [|done].
        split; [done|]. intros [_ (r' & Hr' & _)]. done.
      * split; [by right|]. split; [|done].
        split; [done|]. intros [_ (r' & Hr' & _)]. done.
Qed.

Lemma nothing_selected (s : Database.t) (u : pystr) (P : Database.Row -> Prop)
    `{!forall x, Decision (P x)} :
  (forall i r, Database.table s !! i = Some r -> Database.user_id r <> u) ->
  (forall x, P x -> Database.owned_by u x) ->
  filter P (Database.rows s) = [].
Proof.
  intros Hnone HP. apply filter_none. intros [i r] Hin HPx.
  apply rows_lookup in Hin. by apply (Hnone i r Hin), (HP (i, r)).
Qed.

(** X22. The accessors of backend.py hide a failure of the storage
    layer: what they return on a failing store is what they return on
    a working store in which the user has no row. The history, the
    search and the recent summaries are empty, a delete answers false,
    the statistics are zero, and GET /user/{user_id}/statistics
    answers them with status 200. *)
Theorem storage_failure_looks_empty (failing working : Database.t) (e : exn)
    (http_text : Z -> pystr -> pystr) (u query : pystr) (limit days summary_id : Z) :
  Database.fault failing = Some e ->
  Database.fault working = None ->
  (forall i r, Database.table working !! i = Some r -> Database.user_id r <> u) ->
  get_user_summary_history failing u limit = []
  /\ get_user_summary_history working u limit = []
  /\ search_user_summaries failing u query limit = []
  /\ search_user_summaries working u query limit = []
  /\ get_recent_summaries failing u days = []
  /\ get_recent_summaries working u days = []
  /\ (delete_user_summary failing summary_id u).1 = false
  /\ (delete_user_summary working summary_id u).1 = false
  /\ get_user_statistics failing u = get_user_statistics working u
  /\ Api.get_user_summary_statistics http_text failing u
     = Api.get_user_summary_statistics http_text working u
  /\ Api.status (Api.get_user_summary_statistics http_text failing u) = 200%Z.
Proof.
  intros Hf Hw Hnone.
  assert (Hstats : get_user_statistics failing u = get_user_statistics working u).
  { unfold get_user_statistics, Statistics.get_summary_statistics,
      Database.with_connection.
    rewrite Hf, Hw. by rewrite (no_rows_of_user _ _ Hnone). }
  unfold get_user_summary_history, search_user_summaries, get_recent_summaries,
    delete_user_summary, Api.get_user_summary_statistics,
    Database.get_user_summaries, Database.search_summaries,
    Database.get_recent_summaries, Database.with_connection.
  rewrite Hstats, Hf, Hw. cbn [try_except].
  split_and!; try reflexivity.
  - rewrite (no_rows_of_user _ _ Hnone). unfold sql_limit, sql_offset.
    cbn. rewrite drop_nil. destruct (limit <? 0)%Z; [done | apply take_nil].
  - rewrite (nothing_selected working u).
    + unfold sql_limit. cbn. destruct (limit <? 0)%Z; [done | apply take_nil].
    + exact Hnone.
    + intros x Hx. unfold Database.search_where in Hx.
      apply andb_true_iff in Hx as [Hx _]. by apply bool_decide_eq_true in Hx.
  - rewrite (nothing_selected working u); [done | exact Hnone | by intros x [Hx _]].
  - unfold Database.delete_summary, Database.with_connection. by rewrite Hf.
  - rewrite (delete_summary_outcome working summary_id u Hw).
    destruct (Database.bindable_id working summary_id); [|done]. cbn [try_except].
    destruct (Database.table working !! summary_id) as [r|] eqn:Hr; [|done].
    rewrite decide_False; [done|]. by apply (Hnone summary_id).
Qed.

(** ** The file of a summary *)

Section FileFacts.
Context (U : UnicodeData).

Lemma re_sub_unsafe (s : pystr) :
  re_sub (m_unsafe U) s
  = List.map (fun c => if is_word U c || existsb (N.eqb c) (str "-_. ")
                       then c else UNDERSCORE) s.
Proof.
  unfold re_sub. generalize (@None N) as prev.
  induction s as [|c r IH]; intros prev; [done|].
  cbn [re_sub_from m_unsafe List.map].
  destruct (is_word U c || existsb (N.eqb c) (str "-_. ")); cbn [app]; by rewrite IH.
Qed.

Lemma safe_not_slash (c : N) :
  is_word U c || existsb (N.eqb c) (str "-_. ") = true -> c <> SLASH.
Proof. intros H ->. discriminate H. Qed.

Lemma path_join_relative (a b : pystr) :
  startswith [SLASH] b = false ->
  exists sep, path_join a b = a ++ sep ++ b /\ (sep = [] \/ sep = [SLASH]).
Proof.
  intros Hb. unfold path_join. rewrite Hb. destruct a as [|c a].
  - exists []. split; [reflexivity | by left].
  - destruct (bool_decide _); [exists [] | exists [SLASH]];
      (split; [reflexivity | auto]).
Qed.

(** X23. The document name cannot move the file of a summary: the
    name that [save_summary_to_file] builds from it has the length of
    the document name and holds word characters, hyphens, underscores,
    dots and spaces only, no slash, so the file name is relative, and
    on a successful write the returned path is the user's directory
    followed by the file name. *)
Theorem document_name_stays_in_the_directory (F : FileSystem)
    (summary user_id document_name style timestamp : pystr) :
  let user_dir := path_join (path_join (getcwd F) (str "summaries")) user_id in
  let safe_doc_name := re_sub (m_unsafe U) document_name in
  let filename := safe_doc_name ++ str "_" ++ style ++ str "_" ++ timestamp ++ str ".txt" in
  length safe_doc_name = length document_name
  /\ Forall (fun c => is_word U c || existsb (N.eqb c) (str "-_. ") = true) safe_doc_name
  /\ (SLASH ∉ safe_doc_name)
  /\ (write_file F (path_join user_dir filename) summary = Ok tt ->
      exists sep,
        save_summary_to_file U F summary user_id document_name style timestamp
        = user_dir ++ sep ++ filename
        /\ (sep = [] \/ sep = [SLASH])).
Proof.
  intros user_dir safe_doc_name filename.
  assert (Hsafe : Forall (fun c => is_word U c || existsb (N.eqb c) (str "-_. ") = true)
                    safe_doc_name).
  { subst safe_doc_name. rewrite re_sub_unsafe. apply Forall_fmap, Forall_forall.
    intros c _. unfold compose. cbv beta.
    destruct (is_word U c || existsb (N.eqb c) (str "-_. ")) eqn:Hc; [exact Hc|].
    reflexivity. }
  split_and!.
  - subst safe_doc_name. by rewrite re_sub_unsafe, length_map.
  - exact Hsafe.
  - intros Hin. eapply Forall_forall in Hsafe; [|exact Hin]. by apply safe_not_slash in Hsafe.
  - intros Hw. unfold save_summary_to_file.
    fold safe_doc_name. fold filename. fold user_dir. rewrite Hw. cbn [bind try_except].
    apply path_join_relative. subst filename.
    destruct safe_doc_name as [|c r]; [reflexivity|].
    apply Forall_cons in Hsafe as [Hc%safe_not_slash _].
    cbn [app startswith]. apply andb_false_iff. left. apply N.eqb_neq. congruence.
Qed.

(** X24. The user id can move it: an id that starts with a slash
    replaces the summaries directory, and on a successful write the
    returned path is the user id followed by the file name, wherever
    the program runs. *)
Theorem absolute_user_id_leaves_the_summaries_directory (F : FileSystem)
    (summary user_id document_name style timestamp : pystr) :
  let filename := re_sub (m_unsafe U) document_name
                  ++ str "_" ++ style ++ str "_" ++ timestamp ++ str ".txt" in
  startswith [SLASH] user_id = true ->
  write_file F (path_join user_id filename) summary = Ok tt ->
  exists sep,
    save_summary_to_file U F summary user_id document_name style timestamp
    = user_id ++ sep ++ filename
    /\ (sep = [] \/ sep = [SLASH]).
Proof.
  intros filename Hu Hw. unfold save_summary_to_file. fold filename.
  assert (Hdir : path_join (path_join (getcwd F) (str "summaries")) user_id = user_id).
  { unfold path_join at 1. by rewrite Hu. }
  rewrite Hdir, Hw. cbn [bind try_except].
  apply path_join_relative. subst filename.
  rewrite re_sub_unsafe. destruct document_name as [|c r]; [reflexivity|].
  cbn [List.map app startswith]. apply andb_false_iff. left. apply N.eqb_neq.
  destruct (is_word U c || existsb (N.eqb c) (str "-_. ")) eqn:Hc.
  - intros Heq. symmetry in Heq. revert Heq. by apply safe_not_slash.
  - discriminate.
Qed.
End FileFacts.

(** ** The suggestions of a quality report *)

Ltac list_membership :=
  match goal with
  | H : _ ∈ _ |- _ =>
      exfalso; apply (bool_decide_pack _) in H; vm_compute in H; exact H
  | |- _ ∈ _ => apply (bool_decide_unpack _); vm_compute; exact I
  end.

Lemma ratio_not_on_both_sides (r : Q) :
  Qle_bool (5 # 100) r = false -> Qle_bool r (4 # 10) = false -> False.
Proof.
  intros Hlo Hhi.
  assert (H1 : (r < 5 # 100)%Q).
  { apply Qnot_le_lt. intros Hc. apply Qle_bool_iff in Hc. congruence. }
  assert (H2 : (4 # 10 < r)%Q).
  { apply Qnot_le_lt. intros Hc. apply Qle_bool_iff in Hc. congruence. }
  pose proof (Qlt_trans _ _ _ H2 H1) as H. vm_compute in H. discriminate H.
Qed.

Lemma suggestions_by_cases (quality_score : Z) (compression_ratio : Q) :
  let suggestions := get_improvement_suggestions quality_score compression_ratio in
  (suggestions = []
   <-> (quality_score <? 60)%Z = false
       /\ Qle_bool (5 # 100) compression_ratio = true
       /\ Qle_bool compression_ratio (4 # 10) = true)
  /\ (str "Try 'Detailed' style for more comprehensive summary" ∈ suggestions
      <-> Qle_bool (5 # 100) compression_ratio = false)
  /\ (str "Try 'Abstract' style for more concise summary" ∈ suggestions
      <-> Qle_bool compression_ratio (4 # 10) = false)
  /\ (length suggestions <= 5)%nat.
Proof.
  unfold get_improvement_suggestions.
  destruct (quality_score <? 60)%Z eqn:H60, (quality_score <? 40)%Z eqn:H40,
    (Qle_bool (5 # 100) compression_ratio) eqn:Hlo,
    (Qle_bool compression_ratio (4 # 10)) eqn:Hhi;
    try (exfalso; apply Z.ltb_ge in H60; apply Z.ltb_lt in H40; lia);
    cbn [negb app]; split_and!;
    lazymatch goal with
    | |- (_ <= _)%nat =>
        first [ cbn [length]; lia
              | exfalso; apply (ratio_not_on_both_sides compression_ratio Hlo Hhi) ]
    | |- _ <-> _ =>
        split; intros H;
        first [ done
              | by destruct H as (? & ? & ?)
              | list_membership ]
    end.
Qed.

(** X25. The suggestions of the quality report of two strings follow
    the score and the ratio of the word counts: there is none exactly
    when the score is at least 60 and the ratio lies between 0.05 and
    0.4; the 'Detailed' style is suggested exactly when the ratio is
    below 0.05 and the 'Abstract' style exactly when it is above 0.4,
    never both; and there are at most five suggestions. *)
Theorem report_suggestions_follow_the_ratio (U : UnicodeData) (original summary : pystr) :
  let report := evaluate_summary_quality U (PyStr original) (PyStr summary) in
  let ratio := compression_ratio_of (len (split_ws original)) (len (split_ws summary)) in
  let detailed := str "Try 'Detailed' style for more comprehensive summary" in
  let abstract := str "Try 'Abstract' style for more concise summary" in
  exists (score : Z) (suggestions : list pystr),
    report !! "quality_score" = Some (PyInt score)
    /\ report !! "suggestions" = Some (PyList (List.map PyStr suggestions))
    /\ (suggestions = [] <-> (60 <= score)%Z /\ (5 # 100 <= ratio)%Q /\ (ratio <= 4 # 10)%Q)
    /\ (detailed ∈ suggestions <-> (ratio < 5 # 100)%Q)
    /\ (abstract ∈ suggestions <-> (4 # 10 < ratio)%Q)
    /\ ~ (detailed ∈ suggestions /\ abstract ∈ suggestions)
    /\ (length suggestions <= 5)%nat.
Proof.
  intros report ratio detailed abstract. subst report.
  unfold evaluate_summary_quality.
  destruct (evaluate_on_strings U original summary) as [notes ->].
  cbn [try_except]. fold ratio.
  set (score := (fst (compression_check ratio (0%Z, [])) + signal_points U summary)%Z).
  destruct (suggestions_by_cases score ratio) as (Hnil & Hd & Ha & Hlen).
  assert (Hlow : Qle_bool (5 # 100) ratio = false <-> (ratio < 5 # 100)%Q).
  { split.
    - intros Hb. apply Qnot_le_lt. intros Hc. apply Qle_bool_iff in Hc. congruence.
    - intros Hlt. destruct (Qle_bool (5 # 100) ratio) eqn:Hb; [|done].
      apply Qle_bool_iff in Hb. exfalso. by apply (Qlt_not_le _ _ Hlt). }
  assert (Hhigh : Qle_bool ratio (4 # 10) = false <-> (4 # 10 < ratio)%Q).
  { split.
    - intros Hb. apply Qnot_le_lt. intros Hc. apply Qle_bool_iff in Hc. congruence.
    - intros Hlt. destruct (Qle_bool ratio (4 # 10)) eqn:Hb; [|done].
      apply Qle_bool_iff in Hb. exfalso. by apply (Qlt_not_le _ _ Hlt). }
  exists score, (get_improvement_suggestions score ratio).
  split; [reflexivity|]. split; [reflexivity|]. split_and!.
  - rewrite Hnil, Z.ltb_ge, !Qle_bool_iff. reflexivity.
  - fold detailed in Hd. by rewrite Hd.
  - fold abstract in Ha. by rewrite Ha.
  - fold detailed in Hd. fold abstract in Ha. rewrite Hd, Ha.
    intros [H1 H2]. exact (ratio_not_on_both_sides ratio H1 H2).
  - exact Hlen.
Qed.

(** ** The words of a request *)

Lemma split_ws_aux_nil (cur s : pystr) :
  split_ws_aux cur s = [] <-> cur = [] /\ Forall (fun c => is_space c = true) s.
Proof.
  revert cur. induction s as [|c r IH]; intros cur.
  - cbn [split_ws_aux]. destruct cur; split; try done. by intros [? _].
  - cbn [split_ws_aux]. destruct (is_space c) eqn:Hc.
    + destruct cur as [|a cur].
      * rewrite IH, Forall_cons. tauto.
      * split; [done | by intros [? _]].
    + rewrite IH, Forall_cons. split; [by intros [? _] | intros [_ [? _]]; congruence].
Qed.

Lemma lstrip_nil (s : pystr) :
  lstrip s = [] <-> Forall (fun c => is_space c = true) s.
Proof.
  induction s as [|c r IH]; [done|]. cbn [lstrip]. rewrite Forall_cons.
  destruct (is_space c) eqn:Hc; [rewrite IH; tauto|].
  split; [done | intros [? _]; congruence].
Qed.

Lemma rstrip_nil (s : pystr) :
  rstrip s = [] <-> Forall (fun c => is_space c = true) s.
Proof.
  induction s as [|c r IH]; [done|]. cbn [rstrip]. rewrite Forall_cons.
  destruct (rstrip r) as [|a r'].
  - destruct (is_space c) eqn:Hc.
    + split; [intros _; split; [done | by apply IH] | done].
    + split; [done | intros [? _]; congruence].
  - split; [done|]. intros [_ Hr]. by apply IH in Hr.
Qed.

Lemma lstrip_spaces (s : pystr) :
  Forall (fun c => is_space c = true) (lstrip s) -> Forall (fun c => is_space c = true) s.
Proof.
  induction s as [|c r IH]; [done|]. cbn [lstrip].
  destruct (is_space c) eqn:Hc; [|done]. intros H. constructor; [exact Hc | by apply IH].
Qed.

Lemma blank_has_no_word (s : pystr) : is_blank s = true <-> split_ws s = [].
Proof.
  rewrite strip_blank. unfold strip, split_ws.
  rewrite rstrip_nil, split_ws_aux_nil. split.
  - intros H. split; [done|]. by apply lstrip_spaces.
  - intros [_ H]. by apply lstrip_Forall.
Qed.

Section WordFacts.
Context (U : UnicodeData) (E : Environment).

(** X27. A request that is answered with a summary has at least one
    word: its [word_count] is positive, and the compression ratio of
    its quality report is a float, never the int 0 that the evaluator
    keeps for a source without words: the float quotient of the two
    word counts, times 100 in float arithmetic, rounded to one decimal
    as [round] rounds a float. *)
Theorem summarized_request_has_words (db : Database.t)
    (text style user_id document_name document_type : pystr) (file_size : option Z) :
  is_blank text = false ->
  startswith (str "Error") (fst (summarize_text U (service E) text style)) = false ->
  let summary := fst (summarize_text U (service E) text style) in
  let outcome := fst (summarize_text_with_db U E db text style user_id document_name
                        document_type file_size) in
  exists (words summary_words : Z) (report : pydict),
    outcome !! "word_count" = Some (PyInt words)
    /\ outcome !! "summary_word_count" = Some (PyInt summary_words)
    /\ outcome !! "quality_metrics" = Some (PyDict report)
    /\ words = len (split_ws text)
    /\ summary_words = len (split_ws summary)
    /\ (1 <= words)%Z
    /\ (0 <= summary_words)%Z
    /\ report !! "original_length" = Some (PyInt words)
    /\ report !! "compression_ratio"
       = Some (PyFloat
                 (round_float
                    (to_double (to_double (inject_Z summary_words / inject_Z words) * 100))
                    1)).
Proof.
  intros Hb Hok summary outcome. subst outcome.
  assert (Hwords : (1 <= len (split_ws text))%Z).
  { unfold len. destruct (split_ws text) as [|w ws] eqn:Hs; [|cbn [length]; lia].
    apply blank_has_no_word in Hs. congruence. }
  exists (len (split_ws text)), (len (split_ws summary)),
    (evaluate_summary_quality U (PyStr text) (PyStr summary)).
  assert (Hreport :
    evaluate_summary_quality U (PyStr text) (PyStr summary) !! "original_length"
    = Some (PyInt (len (split_ws text)))
    /\ evaluate_summary_quality U (PyStr text) (PyStr summary) !! "compression_ratio"
       = Some (PyFloat
                 (round_float
                    (to_double (to_double (inject_Z (len (split_ws summary))
                                           / inject_Z (len (split_ws text))) * 100))
                    1))).
  { unfold evaluate_summary_quality.
    destruct (evaluate_on_strings U text summary) as [notes ->].
    cbn [try_except]. unfold compression_ratio_of.
    assert (Hpos : (len (split_ws text) >? 0)%Z = true) by (apply Z.gtb_lt; lia).
    rewrite Hpos. split; reflexivity. }
  destruct Hreport as [Hlen Hratio].
  unfold summarize_text_with_db. rewrite Hb. fold summary. fold summary in Hok.
  rewrite Hok.
  destruct (Database.save_summary _ _ _ _ _ _ _ _ _ _ _ _) as [[i db']|e];
    (split_and!; [reflexivity | reflexivity | reflexivity | reflexivity | reflexivity
                 | lia | unfold len; lia | exact Hlen | exact Hratio]).
Qed.
End WordFacts.

(** * The further properties on the sample data *)

(** X1 on the empty store: the first id is 1, and a file size of
    [2^63] is refused. *)
Lemma save_then_get_witness :
  Database.fault fresh_db = None
  /\ (exists (new_id : Z) (s' : Database.t),
        Database.save_summary fresh_db bob (str "notes") (str "pdf") None (str "Notes")
          (str "abstract") None None None None None = Ok (new_id, s')
        /\ Database.get_summary_by_id s' new_id = Ok (Some (new_id, bob_new_row)))
  /\ Database.save_summary fresh_db bob (str "notes") (str "pdf") None (str "Notes")
       (str "abstract") None (Some (2 ^ 63)%Z) None None None
     = Raise Database.OverflowError.
Proof.
  split; [reflexivity|]. split.
  - destruct (proj1 (save_then_get fresh_db bob (str "notes") (str "pdf") None
                       (str "Notes") (str "abstract") None None None None None eq_refl)
                eq_refl)
      as (new_id & s' & Hsave & _ & _ & _ & Hget & _).
    exists new_id, s'. split; [exact Hsave | exact Hget].
  - exact (proj2 (save_then_get fresh_db bob (str "notes") (str "pdf") None
                    (str "Notes") (str "abstract") None (Some (2 ^ 63)%Z) None None None
                    eq_refl) eq_refl).
Defined.

(** X2 on the empty store: the id 1 is given, its row is deleted, the
    rows that are older than a day are cleaned up, and the next save
    gets the id 2. *)
Lemma ids_are_not_reused_witness :
  Database.save_summary fresh_db bob (str "notes") (str "pdf") None (str "Notes")
    (str "abstract") None None None None None = Ok (1%Z, db_after_save)
  /\ Database.delete_summary db_after_save 1 bob = Ok (true, db_after_delete)
  /\ Database.cleanup_old_summaries db_after_delete bob 1 = Ok (0%Z, db_after_delete)
  /\ rtc Database.writes db_after_save db_after_delete
  /\ Database.save_summary db_after_delete bob (str "notes") (str "pdf") None
       (str "Notes") (str "abstract") None None None None None
     = Ok (2%Z, db_after_second_save)
  /\ (1 < 2)%Z.
Proof.
  assert (H1 : Database.save_summary fresh_db bob (str "notes") (str "pdf") None
                 (str "Notes") (str "abstract") None None None None None
               = Ok (1%Z, db_after_save)) by (vm_compute; reflexivity).
  assert (H2 : Database.delete_summary db_after_save 1 bob = Ok (true, db_after_delete))
    by (vm_compute; reflexivity).
  assert (H3 : Database.save_summary db_after_delete bob (str "notes") (str "pdf") None
                 (str "Notes") (str "abstract") None None None None None
               = Ok (2%Z, db_after_second_save)) by (vm_compute; reflexivity).
  assert (H4 : Database.cleanup_old_summaries db_after_delete bob 1
               = Ok (0%Z, db_after_delete)) by (vm_compute; reflexivity).
  assert (H5 : rtc Database.writes db_after_save db_after_delete).
  { apply (rtc_l _ _ db_after_delete); [exact (Database.writes_delete _ _ _ _ _ H2)|].
    apply rtc_once. exact (Database.writes_cleanup _ _ _ _ _ H4). }
  split; [exact H1|]. split; [exact H2|]. split; [exact H4|]. split; [exact H5|].
  split; [exact H3|].
  exact (ids_are_not_reused fresh_db db_after_save db_after_delete db_after_second_save
           1 2
           bob (str "notes") (str "pdf") None (str "Notes") (str "abstract")
           None None None None None
           bob (str "notes") (str "pdf") None (str "Notes") (str "abstract")
           None None None None None H1 H5 H3).
Defined.


(** X4 on the same store: the two pages of one row of alice. *)
Lemma listing_pages_witness :
  (0 <= 1)%Z
  /\ (0 <= 0)%Z
  /\ Database.get_user_summaries shared_db alice 1 0 = Ok [(3%Z, alice_second_row)]
  /\ Database.get_user_summaries shared_db alice 1 (0 + 1) = Ok [(1%Z, alice_row)]
  /\ Database.get_user_summaries shared_db alice (1 + 1) 0
     = Ok [(3%Z, alice_second_row); (1%Z, alice_row)]
  /\ [(3%Z, alice_second_row)] ++ [(1%Z, alice_row)]
     = [(3%Z, alice_second_row); (1%Z, alice_row)].
Proof.
  assert (Ha : (0 <= 1)%Z) by discriminate.
  assert (Ho : (0 <= 0)%Z) by discriminate.
  assert (H1 : Database.get_user_summaries shared_db alice 1 0
               = Ok [(3%Z, alice_second_row)]) by (vm_compute; reflexivity).
  assert (H2 : Database.get_user_summaries shared_db alice 1 (0 + 1)
               = Ok [(1%Z, alice_row)]) by (vm_compute; reflexivity).
  assert (H3 : Database.get_user_summaries shared_db alice (1 + 1) 0
               = Ok [(3%Z, alice_second_row); (1%Z, alice_row)])
    by (vm_compute; reflexivity).
  split; [exact Ha|]. split; [exact Ho|]. split; [exact H1|]. split; [exact H2|].
  split; [exact H3|].
  exact (listing_pages_compose shared_db alice 1 1 0 _ _ _ Ha Ha Ho H1 H2 H3).
Defined.


(** X6 on the sample store: no row has the id 9, and the id [2^63]
    is refused. *)
Lemma delete_missing_witness :
  Database.fault sample_db = None
  /\ Database.table sample_db !! 9%Z = None
  /\ Database.fits_int64 9 = true
  /\ Database.delete_summary sample_db 9 alice = Ok (false, sample_db)
  /\ Database.table sample_db !! (2 ^ 63)%Z = None
  /\ Database.fits_int64 (2 ^ 63) = false
  /\ Database.delete_summary sample_db (2 ^ 63) alice = Raise Database.OverflowError.
Proof.
  split; [reflexivity|]. split; [reflexivity|]. split; [reflexivity|].
  split;
    [exact (proj1 (proj1 (delete_missing_changes_nothing sample_db 9 alice eq_refl)
                     eq_refl) eq_refl)|].
  split; [reflexivity|]. split; [reflexivity|].
  exact (proj2 (delete_missing_changes_nothing sample_db (2 ^ 63) alice eq_refl)
           eq_refl eq_refl).
Defined.

(** X7 on the store of alice and bob, with the cutoff at the time of
    the request: the two rows of alice are removed, the row of bob
    stays. *)
Lemma cleanup_witness :
  Database.fault shared_db = None
  /\ Database.days_ago shared_db 0 = Some 7%Z
  /\ exists (n : Z) (s' : Database.t) (recent : list Database.Row),
       Database.cleanup_old_summaries shared_db alice 0 = Ok (n, s')
       /\ Database.get_recent_summaries shared_db alice 0 = Ok recent
       /\ (size (Database.table shared_db) = size (Database.table s') + Z.to_nat n)%nat
       /\ Database.table s' !! 2%Z = Some bob_row.
Proof.
  split; [reflexivity|]. split; [reflexivity|].
  destruct (cleanup_keeps_what_recent_shows shared_db alice 0 7 eq_refl eq_refl)
    as (n & s' & recent & Hc & Hr & Hrows & Hsize & _).
  exists n, s', recent. split; [exact Hc|]. split; [exact Hr|]. split; [exact Hsize|].
  apply Hrows. split; [reflexivity | discriminate].
Defined.

(** X8 on the same store, for -3 days. *)
Lemma negative_days_witness :
  Database.fault shared_db = None
  /\ (-3 < 0)%Z
  /\ Database.get_recent_summaries shared_db alice (-3) = Ok []
  /\ Database.cleanup_old_summaries shared_db alice (-3) = Ok (0%Z, shared_db).
Proof.
  assert (Hd : (-3 < 0)%Z) by reflexivity.
  split; [reflexivity|]. split; [exact Hd|].
  exact (negative_days_select_nothing shared_db alice (-3) eq_refl Hd).
Defined.

(** X9 on the store of alice and bob: the empty query lists the two
    rows of alice. *)
Lemma empty_query_witness :
  like_accepts ([PERCENT] ++ replicate 0 PERCENT ++ [PERCENT])
  /\ Database.search_summaries shared_db alice [] 20
     = Database.get_user_summaries shared_db alice 20 0
  /\ Database.get_user_summaries shared_db alice 20 0
     = Ok [(3%Z, alice_second_row); (1%Z, alice_row)].
Proof.
  assert (H : like_accepts ([PERCENT] ++ replicate 0 PERCENT ++ [PERCENT]))
    by (vm_compute; discriminate).
  split; [exact H|].
  split; [exact (empty_query_lists_everything shared_db alice 0 20 H)|].
  vm_compute. reflexivity.
Defined.

(** X10 on the sample store: [ABC] and [abc]. *)
Lemma search_case_witness :
  List.map tolower (str "ABC") = List.map tolower (str "abc")
  /\ Database.search_summaries sample_db alice (str "ABC") 20
     = Database.search_summaries sample_db alice (str "abc") 20.
Proof.
  assert (H : List.map tolower (str "ABC") = List.map tolower (str "abc")) by reflexivity.
  split; [exact H|].
  exact (search_ignores_query_case sample_db alice (str "ABC") (str "abc") 20 H).
Defined.

(** X11 on the store of alice and bob: alice has two summaries of one
    document. *)
Lemma statistics_counts_witness :
  Database.fault shared_db = None
  /\ exists (d : pydict) (names : list pystr),
       Statistics.get_summary_statistics shared_db alice = Ok d
       /\ d !! "total_summaries" = Some (PyInt 2)
       /\ d !! "total_documents" = Some (PyInt (len names))
       /\ (len names <= 2)%Z.
Proof.
  split; [reflexivity|].
  destruct (statistics_counts shared_db alice eq_refl)
    as (d & listing & names & Hd & Hl & Hs & Hn & _ & _ & Hle & _).
  assert (Hlen : len listing = 2%Z).
  { assert (He : Database.get_user_summaries shared_db alice (-1) 0
                 = Ok [(3%Z, alice_second_row); (1%Z, alice_row)])
      by (vm_compute; reflexivity).
    rewrite He in Hl. by injection Hl as <-. }
  rewrite Hlen in Hs, Hle.
  exists d, names. split; [exact Hd|]. split; [exact Hs|]. split; [exact Hn | exact Hle].
Defined.

(** X12 on the same store: the style of alice. *)
Lemma favorite_style_witness :
  Database.fault shared_db = None
  /\ Database.table shared_db !! 1%Z = Some alice_row
  /\ Database.user_id alice_row = alice
  /\ exists (d : pydict) (style : pystr),
       Statistics.get_summary_statistics shared_db alice = Ok d
       /\ d !! "favorite_style" = Some (PyStr style)
       /\ (Database.count_style
             (filter (Database.owned_by alice) (Database.rows shared_db)) (str "bullet")
           <= Database.count_style
                (filter (Database.owned_by alice) (Database.rows shared_db)) style)%nat.
Proof.
  split; [reflexivity|]. split; [reflexivity|]. split; [reflexivity|].
  destruct (favorite_style_is_most_used shared_db alice 1 alice_row
              eq_refl eq_refl eq_refl) as (d & style & Hd & Hs & _ & Hmax).
  exists d, style. split; [exact Hd|]. split; [exact Hs | apply Hmax].
Defined.

(** X13 on the sample store: the only score is 80. *)
Lemma average_quality_witness :
  Database.fault sample_db = None
  /\ (forall i r q, Database.table sample_db !! i = Some r ->
        Database.user_id r = alice -> Database.quality_score r = Some q ->
        (0 <= q <= 100)%Q)
  /\ exists (d : pydict) (v : pyval) (x : Q),
       Statistics.get_summary_statistics sample_db alice = Ok d
       /\ d !! "average_quality" = Some v
       /\ to_real v = Some x
       /\ (0 <= x <= 100)%Q.
Proof.
  assert (H : forall i r q, Database.table sample_db !! i = Some r ->
                Database.user_id r = alice -> Database.quality_score r = Some q ->
                (0 <= q <= 100)%Q).
  { intros i r q Hr _ Hq. cbn [sample_db Database.table] in Hr.
    apply lookup_singleton_Some in Hr as [_ <-].
    injection Hq as <-. split; discriminate. }
  split; [reflexivity|]. split; [exact H|].
  exact (average_quality_in_range sample_db alice eq_refl H).
Defined.

(** X16 on the sample request and the sample store: the summary gets
    a new id, and with a file size of [2^63] it is not stored. *)
Lemma request_is_stored_witness :
  Database.fault sample_db = None
  /\ is_blank sample_text = false
  /\ startswith (str "Error")
       (fst (summarize_text ascii_tables (service sample_env) sample_text (str "bullet")))
     = false
  /\ Database.bindable (Some (len (split_ws sample_text))) = true
  /\ Database.bindable
       (Some (len (split_ws (fst (summarize_text ascii_tables (service sample_env)
                                    sample_text (str "bullet")))))) = true
  /\ (exists (outcome : pydict) (db' : Database.t) (i : Z) (r : Database.Summary),
        summarize_text_with_db ascii_tables sample_env sample_db sample_text
          (str "bullet") alice (str "My Doc?.pdf") (str "pdf") None = (outcome, db')
        /\ outcome !! "summary_id" = Some (PyInt i)
        /\ Database.table sample_db !! i = None
        /\ Database.get_summary_by_id db' i = Ok (Some (i, r))
        /\ Database.summary r
           = fst (summarize_text ascii_tables (service sample_env) sample_text
                    (str "bullet"))
        /\ Database.user_id r = alice)
  /\ (exists outcome : pydict,
        summarize_text_with_db ascii_tables sample_env sample_db sample_text
          (str "bullet") alice (str "My Doc?.pdf") (str "pdf") (Some (2 ^ 63)%Z)
        = (outcome, sample_db)
        /\ outcome !! "summary_id" = Some PyNone
        /\ outcome !! "warning"
           = Some (PyStr (str "Summary generated but database save failed: "
                          ++ Database.OverflowError))).
Proof.
  assert (H1 : Database.fault sample_db = None) by reflexivity.
  assert (H2 : is_blank sample_text = false) by reflexivity.
  assert (H3 : startswith (str "Error")
                 (fst (summarize_text ascii_tables (service sample_env) sample_text
                         (str "bullet"))) = false) by (vm_compute; reflexivity).
  assert (H4 : Database.bindable (Some (len (split_ws sample_text))) = true)
    by (vm_compute; reflexivity).
  assert (H5 : Database.bindable
                 (Some (len (split_ws (fst (summarize_text ascii_tables
                                              (service sample_env) sample_text
                                              (str "bullet")))))) = true)
    by (vm_compute; reflexivity).
  split; [exact H1|]. split; [exact H2|]. split; [exact H3|].
  split; [exact H4|]. split; [exact H5|]. split.
  - destruct (proj1 (request_is_stored ascii_tables sample_env sample_db sample_text
                       (str "bullet") alice (str "My Doc?.pdf") (str "pdf") None
                       H1 H2 H3 H4 H5) eq_refl)
      as (outcome & db' & i & r & score & Hres & _ & Hid & _ & _ & Hnew & Hget & _
          & Hsum & Huser & _).
    exists outcome, db', i, r.
    split; [exact Hres|]. split; [exact Hid|]. split; [exact Hnew|].
    split; [exact Hget|]. split; [exact Hsum | exact Huser].
  - destruct (proj2 (request_is_stored ascii_tables sample_env sample_db sample_text
                       (str "bullet") alice (str "My Doc?.pdf") (str "pdf")
                       (Some (2 ^ 63)%Z) H1 H2 H3 H4 H5) eq_refl)
      as (outcome & Hres & _ & _ & Hid & Hwarn).
    exists outcome. split; [exact Hres|]. split; [exact Hid | exact Hwarn].
Defined.

(** X17 on a service that raises. *)
Lemma failed_generation_witness :
  is_blank sample_text = false
  /\ (exists e, generate_content failing_service
                  (build_prompt (preprocess_text ascii_tables sample_text) (str "bullet"))
                = Raise e)
  /\ exists message : pystr,
       summarize_text_with_db ascii_tables (env_of failing_service) sample_db
         sample_text (str "bullet") alice (str "My Doc?.pdf") (str "pdf") None
       = (failure message, sample_db)
       /\ startswith (str "Error") message = true.
Proof.
  assert (H1 : is_blank sample_text = false) by reflexivity.
  assert (H2 : exists e, generate_content failing_service
                 (build_prompt (preprocess_text ascii_tables sample_text) (str "bullet"))
               = Raise e) by (exists (str "quota exceeded"); reflexivity).
  split; [exact H1|]. split; [exact H2|].
  destruct (failed_generation_stores_nothing ascii_tables (env_of failing_service)
              sample_db sample_text (str "bullet") alice (str "My Doc?.pdf") (str "pdf")
              None H1 (or_intror (or_intror (or_introl H2))))
    as (message & Hres & Herr & _).
  exists message. split; [exact Hres | exact Herr].
Defined.

(** X18 on a service whose answer starts with the word "Error". *)
Lemma answer_starting_with_Error_witness :
  is_blank sample_text = false
  /\ preprocess_text ascii_tables sample_text <> []
  /\ new_model literal_service = Ok tt
  /\ generate_content literal_service
       (build_prompt (preprocess_text ascii_tables sample_text) (str "bullet"))
     = Ok (str " Error codes are listed in the annex. ")
  /\ startswith (str "Error") (strip (str " Error codes are listed in the annex. "))
     = true
  /\ summarize_text_with_db ascii_tables (env_of literal_service) sample_db
       sample_text (str "bullet") alice (str "My Doc?.pdf") (str "pdf") None
     = (failure (strip (str " Error codes are listed in the annex. ")), sample_db).
Proof.
  assert (H1 : is_blank sample_text = false) by reflexivity.
  assert (H2 : preprocess_text ascii_tables sample_text <> [])
    by (vm_compute; discriminate).
  assert (H3 : new_model literal_service = Ok tt) by reflexivity.
  assert (H4 : generate_content literal_service
                 (build_prompt (preprocess_text ascii_tables sample_text) (str "bullet"))
               = Ok (str " Error codes are listed in the annex. ")) by reflexivity.
  assert (H5 : startswith (str "Error")
                 (strip (str " Error codes are listed in the annex. ")) = true)
    by (vm_compute; reflexivity).
  split; [exact H1|]. split; [exact H2|]. split; [exact H3|]. split; [exact H4|].
  split; [exact H5|].
  exact (proj2 (answer_starting_with_Error_is_dropped ascii_tables
                  (env_of literal_service) sample_db sample_text (str "bullet") alice
                  (str "My Doc?.pdf") (str "pdf") None
                  (str " Error codes are listed in the annex. ") H1 H2 H3 H4 H5)).
Defined.

(** X19 on a service that answers with two spaces. *)
Lemma blank_answer_witness :
  is_blank sample_text = false
  /\ preprocess_text ascii_tables sample_text <> []
  /\ new_model blank_service = Ok tt
  /\ generate_content blank_service
       (build_prompt (preprocess_text ascii_tables sample_text) (str "bullet"))
     = Ok (str "  ")
  /\ str "  " <> []
  /\ is_blank (str "  ") = true
  /\ fst (summarize_text_with_db ascii_tables (env_of blank_service) sample_db
            sample_text (str "bullet") alice (str "My Doc?.pdf") (str "pdf") None)
       !! "success" = Some (PyBool true)
  /\ fst (summarize_text_with_db ascii_tables (env_of blank_service) sample_db
            sample_text (str "bullet") alice (str "My Doc?.pdf") (str "pdf") None)
       !! "summary" = Some (PyStr []).
Proof.
  assert (H1 : is_blank sample_text = false) by reflexivity.
  assert (H2 : preprocess_text ascii_tables sample_text <> [])
    by (vm_compute; discriminate).
  assert (H3 : new_model blank_service = Ok tt) by reflexivity.
  assert (H4 : generate_content blank_service
                 (build_prompt (preprocess_text ascii_tables sample_text) (str "bullet"))
               = Ok (str "  ")) by reflexivity.
  assert (H5 : str "  " <> []) by discriminate.
  assert (H6 : is_blank (str "  ") = true) by reflexivity.
  split; [exact H1|]. split; [exact H2|]. split; [exact H3|]. split; [exact H4|].
  split; [exact H5|]. split; [exact H6|].
  destruct (blank_answer_is_an_empty_summary ascii_tables (env_of blank_service)
              sample_db sample_text (str "bullet") alice (str "My Doc?.pdf") (str "pdf")
              None (str "  ") H1 H2 H3 H4 H5 H6) as (_ & Hs & Hy & _).
  split; [exact Hs | exact Hy].
Defined.

(** X22 on the failing store and the sample store, for bob, who has no
    row in it. *)
Lemma storage_failure_witness :
  Database.fault failing_db = Some (str "disk I/O error")
  /\ Database.fault sample_db = None
  /\ (forall i r, Database.table sample_db !! i = Some r -> Database.user_id r <> bob)
  /\ get_user_summary_history failing_db bob 20 = []
  /\ get_user_statistics failing_db bob = get_user_statistics sample_db bob.
Proof.
  assert (H : forall i r, Database.table sample_db !! i = Some r ->
                Database.user_id r <> bob).
  { intros i r Hr. cbn [sample_db Database.table] in Hr.
    apply lookup_singleton_Some in Hr as [_ <-]. discriminate. }
  split; [reflexivity|]. split; [reflexivity|]. split; [exact H|].
  destruct (storage_failure_looks_empty failing_db sample_db (str "disk I/O error")
              (fun _ detail => detail) bob (str "x") 20 7 1 eq_refl eq_refl H)
    as (Hh & _ & _ & _ & _ & _ & _ & _ & Hs & _).
  split; [exact Hh | exact Hs].
Defined.

(** X24 on the user id [/tmp]. *)
Lemma absolute_user_id_witness :
  startswith [SLASH] (str "/tmp") = true
  /\ write_file sample_files
       (path_join (str "/tmp")
          (re_sub (m_unsafe ascii_tables) (str "My Doc?.pdf")
           ++ str "_" ++ str "bullet" ++ str "_" ++ str "2024-01-01_00-00-00"
           ++ str ".txt"))
       (str "Short") = Ok tt
  /\ exists sep,
       save_summary_to_file ascii_tables sample_files (str "Short") (str "/tmp")
         (str "My Doc?.pdf") (str "bullet") (str "2024-01-01_00-00-00")
       = str "/tmp" ++ sep
         ++ (re_sub (m_unsafe ascii_tables) (str "My Doc?.pdf")
             ++ str "_" ++ str "bullet" ++ str "_" ++ str "2024-01-01_00-00-00"
             ++ str ".txt")
       /\ (sep = [] \/ sep = [SLASH]).
Proof.
  split; [reflexivity|]. split; [reflexivity|].
  exact (absolute_user_id_leaves_the_summaries_directory ascii_tables sample_files
           (str "Short") (str "/tmp") (str "My Doc?.pdf") (str "bullet")
           (str "2024-01-01_00-00-00") eq_refl eq_refl).
Defined.


(** X27 on a text of 80 words that is answered with 23 words: the
    compression ratio of the report is the float 28.7, where the
    quotient 0.2875 in percent, 28.75, would round to 28.8. *)
Lemma summarized_request_witness :
  is_blank eighty_words = false
  /\ startswith (str "Error")
       (fst (summarize_text ascii_tables (service (env_of wordy_service)) eighty_words
               (str "bullet")))
     = false
  /\ exists (words summary_words : Z) (report : pydict),
       fst (summarize_text_with_db ascii_tables (env_of wordy_service) sample_db
              eighty_words (str "bullet") alice (str "My Doc?.pdf") (str "pdf") None)
         !! "quality_metrics" = Some (PyDict report)
       /\ words = 80%Z
       /\ summary_words = 23%Z
       /\ report !! "compression_ratio"
          = Some (PyFloat
                    (round_float
                       (to_double
                          (to_double (inject_Z summary_words / inject_Z words) * 100))
                       1))
       /\ round_float
            (to_double (to_double (inject_Z summary_words / inject_Z words) * 100)) 1
          = to_double (287 # 10).
Proof.
  assert (H1 : is_blank eighty_words = false) by (vm_compute; reflexivity).
  assert (H2 : startswith (str "Error")
                 (fst (summarize_text ascii_tables (service (env_of wordy_service))
                         eighty_words (str "bullet"))) = false)
    by (vm_compute; reflexivity).
  split; [exact H1|]. split; [exact H2|].
  destruct (summarized_request_has_words ascii_tables (env_of wordy_service) sample_db
              eighty_words (str "bullet") alice (str "My Doc?.pdf") (str "pdf") None
              H1 H2)
    as (words & summary_words & report & _ & _ & Hq & Hw & Hs & _ & _ & _ & Hr).
  exists words, summary_words, report.
  assert (Hw' : words = 80%Z) by (rewrite Hw; vm_compute; reflexivity).
  assert (Hs' : summary_words = 23%Z) by (rewrite Hs; vm_compute; reflexivity).
  split; [exact Hq|]. split; [exact Hw'|]. split; [exact Hs'|]. split; [exact Hr|].
  rewrite Hw', Hs'. vm_compute. reflexivity.
Defined.
